(** * KaizenLap: the figures of the dashboard and its selection state machines

    A shallow embedding of the parts of the KaizenLap front end that compute
    or decide what the driver sees, and of the batch aggregation rules whose
    output the front end displays.

    - [Js]: the JavaScript values the components receive from JSON, with the
      coercions the components rely on ([x || 0], [a - b], [isNaN]).
    - [LapReview]: the section playback state machine.
    - [RaceSelector]: the cascading track / race / driver / lap selector.
    - [SectionPanel], [TotalLapTimeComparison]: the section and lap gaps.
    - [UseApi], [DraggableRecommendationPanel], [RecommendationApi]: the
      fetching hook, the recommendation panel and the endpoints it reads.
    - [Batch]: the best-case composite builder, its flagging of sections
      without a valid observation and the section gap analyzer, as the
      specification describes them.
    - [PlaybackControls], [LapReviewView], [LapReviewData]: what LapReview
      derives, requests and offers on each render.
    - [RaceSelectorForm]: what the four [Select]s of the selector offer.
    - [RecommendationPanelDrag], [DraggableSectionPanel],
      [InteractiveTrackMap]: dragging, resizing and zooming, over [JsFloat].
    - [TrackMap], [MapImage], [UseApiRun]: the track maps and their requests.
    - [PanelFigures]: the percentages of the recommendation panel.

    All times are millisecond counts (the fields are named [*_ms]) and are
    embedded as [Z]; the figures of recommendation documents are embedded as
    [Q].  React state is embedded as explicit state passing: a handler is a
    function from the component state to the next state and the list of
    callbacks it fires. *)

From Stdlib Require Import ZArith QArith Qminmax Lqa Lia Ascii.
From stdpp Require Import gmap strings list fin_maps pretty.

Open Scope Z_scope.

(* ===================================================================== *)
(** * Part I: definitions *)
(* ===================================================================== *)

(** ** JavaScript numbers as they arrive in a JSON payload *)

Module Js.

(** A numeric field of a JSON object read from JavaScript: a number, the
    [null] literal, or a missing key ([undefined]).  [NaN] is what
    arithmetic on [undefined] yields. *)
Inductive num : Type :=
| Num (z : Z)
| NaN
| Null
| Undefined.

#[global] Instance num_eq_dec : EqDecision num.
Proof. solve_decision. Defined.

(** [ToNumber]: [null] is [0], [undefined] is [NaN]. *)
Definition toNumber (x : num) : option Z :=
  match x with
  | Num z => Some z
  | Null => Some 0
  | NaN | Undefined => None
  end.

(** [x || 0] used as an addend: always a number. *)
Definition or_zero (x : num) : Z :=
  match x with
  | Num z => z
  | NaN | Null | Undefined => 0
  end.

(** [a - b]. *)
Definition sub (a b : num) : num :=
  match toNumber a, toNumber b with
  | Some x, Some y => Num (x - y)
  | _, _ => NaN
  end.

(** [isNaN(x)], which coerces with [ToNumber] first. *)
Definition isNaN (x : num) : bool :=
  match toNumber x with
  | Some _ => false
  | None => true
  end.

(** Whether the field holds a number. *)
Definition isNum (x : num) : bool :=
  match x with
  | Num _ => true
  | NaN | Null | Undefined => false
  end.

(** [(ms / 1000).toFixed(3)] for an integral [ms]: sign, integer part and
    exactly three decimals. *)
Definition pad3 (n : Z) : string :=
  let s := pretty n in
  match String.length s with
  | 1%nat => "00" +:+ s
  | 2%nat => "0" +:+ s
  | _ => s
  end.

Definition toFixed3 (ms : Z) : string :=
  let a := Z.abs ms in
  (if ms <? 0 then "-" else "") +:+ pretty (a / 1000) +:+ "." +:+ pad3 (a mod 1000).

(** [s.padStart(n, '0')]. *)
Fixpoint zeros (n : nat) : string :=
  match n with
  | O => ""
  | S n' => "0" +:+ zeros n'
  end.

Definition padStart0 (n : nat) (s : string) : string :=
  zeros (n - String.length s) +:+ s.

End Js.

(** The sum of a list of times. *)
Definition sumZ (l : list Z) : Z := foldr Z.add 0 l.

(** ** The section rows served by the lap and best-case endpoints *)

(** One entry of [lapData.sections] ([/api/laps/:id/sections], or the
    composite's [/best-case/sections]). *)
Record section : Type := {
  section_id : option Z;
  section_name : string;
  driver_time_ms : Js.num;
  best_lap_time_ms : Js.num;
  best_possible_time_ms : Js.num;
  recommendation : option string
}.

(** One entry of [bestCaseData.sections] ([/api/tracks/:id/best-case]). *)
Record best_case_section : Type := {
  bc_section_name : string;
  best_time_ms : Js.num
}.

(** ** LapReview: section playback *)

Module LapReview.

(** The two pieces of component state the playback touches. *)
Record playback : Type := {
  currentSectionIndex : Z;
  isPlaying : bool
}.

(** What can happen to the playback: the play/pause button, the
    previous/next buttons ([handleStep(-1)], [handleStep(1)]), a click on a
    section of the map, one firing of the playback interval, and the effect
    that resets the playback when the selection changes. *)
Inductive action : Type :=
| PlayPause
| Step (direction : Z)
| SectionClick (sectionName : string)
| Tick
| SelectionChanged.

(** [Array.prototype.findIndex]: the first index whose element satisfies
    [p], or [-1]. *)
Fixpoint findIndex_from {A : Type} (p : A → bool) (l : list A) (i : Z) : Z :=
  match l with
  | [] => -1
  | x :: l' => if p x then i else findIndex_from p l' (i + 1)
  end.

Definition findIndex {A : Type} (p : A → bool) (l : list A) : Z :=
  findIndex_from p l 0.

Definition len (sections : list section) : Z := Z.of_nat (length sections).

(** The interval callback.  The interval only exists while
    [isPlaying && sections.length > 0]. *)
Definition tick (sections : list section) (st : playback) : playback :=
  if isPlaying st && (0 <? len sections) then
    if len sections - 1 <=? currentSectionIndex st then
      {| currentSectionIndex := currentSectionIndex st; isPlaying := false |}
    else
      {| currentSectionIndex := currentSectionIndex st + 1; isPlaying := isPlaying st |}
  else st.

Definition handlePlayPause (sections : list section) (st : playback) : playback :=
  if len sections =? 0 then st
  else if isPlaying st then
    {| currentSectionIndex := currentSectionIndex st; isPlaying := false |}
  else
    {| currentSectionIndex :=
         if len sections - 1 <=? currentSectionIndex st then 0
         else currentSectionIndex st;
       isPlaying := true |}.

Definition handleStep (sections : list section) (direction : Z) (st : playback) : playback :=
  let newIndex := currentSectionIndex st + direction in
  {| currentSectionIndex :=
       if (0 <=? newIndex) && (newIndex <? len sections) then newIndex
       else currentSectionIndex st;
     isPlaying := false |}.

Definition handleSectionClick (sections : list section) (sectionName : string)
    (st : playback) : playback :=
  let index := findIndex (λ s, String.eqb (section_name s) sectionName) sections in
  if index =? -1 then st
  else {| currentSectionIndex := index; isPlaying := false |}.

(** [useState(0)], [useState(false)]. *)
Definition initial : playback :=
  {| currentSectionIndex := 0; isPlaying := false |}.

Definition step (sections : list section) (st : playback) (a : action) : playback :=
  match a with
  | PlayPause => handlePlayPause sections st
  | Step d => handleStep sections d st
  | SectionClick n => handleSectionClick sections n st
  | Tick => tick sections st
  | SelectionChanged => initial
  end.

Definition run (sections : list section) (acts : list action) (st : playback) : playback :=
  foldl (step sections) st acts.

Definition in_range (sections : list section) (st : playback) : Prop :=
  0 <= currentSectionIndex st <= len sections - 1.

End LapReview.

(** ** RaceSelector: cascading track / race / driver / lap selection *)

Module RaceSelector.

(** The value of a [Select]: the [MenuItem] values are strings (['']
    for "nothing chosen", [String(track.id)], ['composite']) or ids as the
    API serves them ([race.id], [driver.id], [lap.id]). *)
Inductive value : Type :=
| VStr (s : string)
| VNum (n : Z).

#[global] Instance value_eq_dec : EqDecision value.
Proof. solve_decision. Defined.

(** [ToBoolean]: the empty string and [0] are falsy. *)
Definition truthy (v : value) : bool :=
  match v with
  | VStr s => negb (String.eqb s "")
  | VNum n => negb (n =? 0)
  end.

Definition empty : value := VStr "".

(** [/api/tracks] and [/api/races/:id/context], as far as the selector
    reads them. *)
Record track : Type := { track_id : Z; track_name : string }.
Record lap : Type := { lap_id : value; lap_number : Z }.
Record driver : Type := { driver_id : Z; laps : option (list lap) }.
Record race_context : Type := {
  ctx_track_name : option string;
  drivers : option (list driver)
}.

(** What the [useApi] hooks currently hold ([None] while not loaded). *)
Record fetched : Type := {
  tracks : option (list track);
  raceContext : option race_context
}.

(** The five [useState] cells. *)
Record state : Type := {
  selectedTrack : value;
  selectedRace : value;
  selectedDriver : value;
  selectedLap : value;
  isComposite : bool
}.

#[global] Instance state_eq_dec : EqDecision state.
Proof. solve_decision. Defined.

(** The object handed to [onSelectionChange]; [None] fields are [null]
    (or, for [lapNumber], absent). *)
Record selection : Type := {
  trackId : value;
  raceId : option value;
  driverId : option value;
  lapId : option value;
  lapNumber : option Z;
  sel_isComposite : bool
}.

(** Calls made on the parent's props. *)
Inductive callback : Type :=
| onSelectionChange (s : option selection)
| onTrackChange (t : option value)
| onTrackNameChange (name : string).

Inductive event : Type :=
| TrackChange (newTrackId : value)
| RaceChange (v : value)
| DriverChange (v : value)
| LapChange (lapId : value)
| DataArrived (d : fetched).

Record config : Type := { data : fetched; sel : state }.

(** [useState('')] four times, [useState(false)]. *)
Definition initial : state :=
  {| selectedTrack := empty; selectedRace := empty; selectedDriver := empty;
     selectedLap := empty; isComposite := false |}.

Section WithParseInt.

(** The global [parseInt] on a string ([None] is [NaN]). *)
Variable parseIntStr : string → option Z.

Definition parseInt (v : value) : option Z :=
  match v with
  | VNum n => Some n
  | VStr s => parseIntStr s
  end.

(** [tracks?.find(t => t.id === parseInt(id))?.name] *)
Definition trackNameOf (d : fetched) (id : value) : option string :=
  ts ← tracks d;
  t ← List.find (λ t, bool_decide (Some (track_id t) = parseInt id)) ts;
  Some (track_name t).

(** [if (trackName) onTrackNameChange(trackName)] *)
Definition notifyTrackName (name : option string) : list callback :=
  match name with
  | Some n => if String.eqb n "" then [] else [onTrackNameChange n]
  | None => []
  end.

Definition handleTrackChange (d : fetched) (newTrackId : value) (st : state)
    : state * list callback :=
  ({| selectedTrack := newTrackId; selectedRace := empty; selectedDriver := empty;
      selectedLap := empty; isComposite := false |},
   onSelectionChange None ::
   (if truthy newTrackId then
      onTrackChange (Some newTrackId) :: notifyTrackName (trackNameOf d newTrackId)
    else
      [onTrackChange None; onTrackNameChange ""])).

Definition handleRaceChange (v : value) (st : state) : state * list callback :=
  ({| selectedTrack := selectedTrack st; selectedRace := v; selectedDriver := empty;
      selectedLap := empty; isComposite := false |},
   [onSelectionChange None]).

Definition handleDriverChange (v : value) (st : state) : state * list callback :=
  if bool_decide (v = VStr "composite") then
    ({| selectedTrack := selectedTrack st; selectedRace := selectedRace st;
        selectedDriver := empty; selectedLap := empty; isComposite := true |},
     [])
  else
    ({| selectedTrack := selectedTrack st; selectedRace := selectedRace st;
        selectedDriver := v; selectedLap := empty; isComposite := false |},
     [onSelectionChange None]).

Definition handleLapChange (lapId : value) (st : state) : state * list callback :=
  ({| selectedTrack := selectedTrack st; selectedRace := selectedRace st;
      selectedDriver := selectedDriver st; selectedLap := lapId;
      isComposite := isComposite st |},
   []).

(** [selectedLapData?.lap_number] *)
Definition lapNumberOf (d : fetched) (st : state) : option Z :=
  ctx ← raceContext d;
  ds ← drivers ctx;
  dr ← List.find (λ x, bool_decide (Some (driver_id x) = parseInt (selectedDriver st))) ds;
  ls ← laps dr;
  l ← List.find (λ l, bool_decide (lap_id l = selectedLap st)) ls;
  Some (lap_number l).

(** [a || b] on optional strings. *)
Definition or_name (a b : option string) : option string :=
  match a with
  | Some n => if String.eqb n "" then b else a
  | None => b
  end.

(** The "notify parent of the final, complete selection" effect. *)
Definition effect (d : fetched) (st : state) : list callback :=
  if isComposite st && truthy (selectedTrack st) then
    onSelectionChange (Some
      {| trackId := selectedTrack st;
         raceId := if truthy (selectedRace st) then Some (selectedRace st) else None;
         driverId := None; lapId := None; lapNumber := None;
         sel_isComposite := true |})
    :: notifyTrackName (trackNameOf d (selectedTrack st))
  else if truthy (selectedTrack st) && truthy (selectedRace st)
          && truthy (selectedDriver st) && truthy (selectedLap st) then
    onSelectionChange (Some
      {| trackId := selectedTrack st;
         raceId := Some (selectedRace st);
         driverId := Some (selectedDriver st);
         lapId := Some (selectedLap st);
         lapNumber := lapNumberOf d st;
         sel_isComposite := false |})
    :: notifyTrackName
         (or_name (ctx ← raceContext d; ctx_track_name ctx)
                  (trackNameOf d (selectedTrack st)))
  else [].

Definition handle (d : fetched) (e : event) (st : state) : state * list callback :=
  match e with
  | TrackChange v => handleTrackChange d v st
  | RaceChange v => handleRaceChange v st
  | DriverChange v => handleDriverChange v st
  | LapChange v => handleLapChange v st
  | DataArrived _ => (st, [])
  end.

(** One event: the handler runs, the component re-renders, and the
    effect runs again if one of its dependencies changed (a state cell
    by value, fetched data by arrival). *)
Definition step (c : config) (e : event) : config * list callback :=
  let '(st', cbs) := handle (data c) e (sel c) in
  let d' := match e with DataArrived d => d | _ => data c end in
  let rerun := match e with
               | DataArrived _ => true
               | _ => bool_decide (st' ≠ sel c)
               end in
  ({| data := d'; sel := st' |},
   cbs ++ (if rerun then effect d' st' else [])).

Fixpoint run (c : config) (es : list event) : config * list callback :=
  match es with
  | [] => (c, [])
  | e :: es' =>
      let '(c1, cbs1) := step c e in
      let '(c2, cbs2) := run c1 es' in
      (c2, cbs1 ++ cbs2)
  end.

(** Mounting runs the effect once on the initial state. *)
Definition mount (d : fetched) : config * list callback :=
  ({| data := d; sel := initial |}, effect d initial).

End WithParseInt.

(** A selection object the parent can act on: the composite of a chosen
    track, or a fully chosen track, race, driver and lap. *)
Definition complete (s : selection) : Prop :=
  (sel_isComposite s = true ∧ truthy (trackId s) = true
   ∧ driverId s = None ∧ lapId s = None)
  ∨ (sel_isComposite s = false ∧ truthy (trackId s) = true
     ∧ (∃ r, raceId s = Some r ∧ truthy r = true)
     ∧ (∃ d, driverId s = Some d ∧ truthy d = true)
     ∧ (∃ l, lapId s = Some l ∧ truthy l = true)).

End RaceSelector.

(** ** SectionPanel: the three time rows of one section *)

Module SectionPanel.

(** [(ms / 1000).toFixed(3)] *)
Definition formatTime (ms : Js.num) : string :=
  match Js.toNumber ms with
  | Some z => Js.toFixed3 z
  | None => "NaN"
  end.

(** What [<Gap value=... />] renders: a dash, or a signed time with the
    class [gap-positive], [gap-negative] or none. *)
Inductive gap_view : Type :=
| GapDash
| GapValue (className : string) (text : string).

Definition Gap (value : Js.num) : gap_view :=
  if bool_decide (value = Js.Null) || Js.isNaN value then GapDash
  else
    match value with
    | Js.Num v =>
        let sign := if 0 <? v then "+" else "" in
        let className :=
          if 0 <? v then "gap-positive" else if v <? 0 then "gap-negative" else "" in
        GapValue className (sign +:+ formatTime value)
    | Js.NaN | Js.Null | Js.Undefined => GapDash
    end.

Record time_row : Type := {
  time_label : string;
  time_value : string;
  row_gap : gap_view
}.

Inductive view : Type :=
| SectionSkeleton
| CompositePanel (sectionName : string) (label : string) (optimal : string)
    (fieldNote : option string) (text : string)
| LapPanel (sectionName : string) (rows : list time_row).

(** The value handed to the [Gap] of the "Optimal (All Drivers)" row. *)
Definition optimalGap (s : section) : Js.num :=
  Js.sub (driver_time_ms s) (best_possible_time_ms s).

(** The value handed to the [Gap] of the "My Best" row. *)
Definition bestLapGap (s : section) : Js.num :=
  Js.sub (driver_time_ms s) (best_lap_time_ms s).

Definition render (sec : option section) (isComposite : bool) (totalDrivers : Z)
    (compositeType : option string) : view :=
  match sec with
  | None => SectionSkeleton
  | Some s =>
      let driverTime := driver_time_ms s in
      let bestLapTime := best_lap_time_ms s in
      let bestPossibleTime := best_possible_time_ms s in
      if isComposite then
        let ofRace := bool_decide (compositeType = Some "race") in
        CompositePanel (section_name s)
          (if ofRace then "Optimal time (this race)" else "Optimal time across all drivers")
          (formatTime driverTime)
          (if 0 <? totalDrivers then
             Some (if ofRace then
                     "Best times from this race's " +:+ pretty totalDrivers +:+ " "
                     +:+ (if totalDrivers =? 1 then "driver" else "drivers")
                   else
                     "Out of " +:+ pretty totalDrivers +:+ " "
                     +:+ (if totalDrivers =? 1 then "Driver" else "Drivers")
                     +:+ " (all races)")
           else None)
          (match recommendation s with
           | Some r =>
               if String.eqb r "" then
                 "This represents the optimal performance for " +:+ section_name s
                 +:+ ", considering the fastest times across all drivers for this section."
               else r
           | None =>
               "This represents the optimal performance for " +:+ section_name s
               +:+ ", considering the fastest times across all drivers for this section."
           end)
      else
        LapPanel (section_name s)
          [ {| time_label := "Current Lap:";
               time_value := formatTime driverTime;
               row_gap := Gap Js.Null |};
            {| time_label := "My Best (" +:+ section_name s +:+ "):";
               time_value := formatTime bestLapTime;
               row_gap := Gap (Js.sub driverTime bestLapTime) |};
            {| time_label := "Optimal (All Drivers):";
               time_value := formatTime bestPossibleTime;
               row_gap := Gap (Js.sub driverTime bestPossibleTime) |} ]
  end.

End SectionPanel.

(** ** TotalLapTimeComparison: driver total against the composite total *)

Module TotalLapTimeComparison.

(** [formatTime] of this component, on a number: minutes are shown once the
    time reaches a minute. *)
Definition formatTime (ms : Z) : string :=
  let minutes := ms / 60000 in
  let seconds := Js.toFixed3 (Z.rem ms 60000) in
  if 0 <? minutes then pretty minutes +:+ ":" +:+ Js.padStart0 6 seconds
  else seconds.

Inductive gap_view : Type :=
| GapDash
| GapValue (className : string) (text : string).

Definition formatGap (ms : Js.num) : gap_view :=
  if bool_decide (ms = Js.Null) || bool_decide (ms = Js.Undefined) || Js.isNaN ms
  then GapDash
  else
    match ms with
    | Js.Num v =>
        let sign := if 0 <? v then "+" else "" in
        let className :=
          if 0 <? v then "gap-positive" else if v <? 0 then "gap-negative" else "" in
        GapValue className (sign +:+ Js.toFixed3 v)
    | Js.NaN | Js.Null | Js.Undefined => GapDash
    end.

(** Sum of all section times of the lap on screen. *)
Definition driverTotalTime (sections : list section) : Z :=
  foldl (λ sum s, sum + Js.or_zero (driver_time_ms s)) 0 sections.

(** The composite total: the lap's own times when the composite itself is
    on screen, else the best-case sections when they are loaded, else the
    [best_possible_time_ms] carried by the lap's sections. *)
Definition optimalTotalTime (sections : list section)
    (bestCaseSections : list best_case_section) (isComposite : bool) : Z :=
  if isComposite then
    foldl (λ sum s, sum + Js.or_zero (driver_time_ms s)) 0 sections
  else if 0 <? Z.of_nat (length bestCaseSections) then
    foldl (λ sum s, sum + Js.or_zero (best_time_ms s)) 0 bestCaseSections
  else
    foldl (λ sum s, sum + Js.or_zero (best_possible_time_ms s)) 0 sections.

Definition timeGap (sections : list section)
    (bestCaseSections : list best_case_section) (isComposite : bool) : Z :=
  driverTotalTime sections - optimalTotalTime sections bestCaseSections isComposite.

Record view : Type := {
  driverTotal : string;
  optimalTotal : string;
  gap : gap_view
}.

(** The component: nothing when both totals are 0, else the three rows. *)
Definition render (sections : list section)
    (bestCaseSections : list best_case_section) (isComposite : bool) : option view :=
  if (driverTotalTime sections =? 0)
     && (optimalTotalTime sections bestCaseSections isComposite =? 0) then None
  else
    Some {| driverTotal := formatTime (driverTotalTime sections);
            optimalTotal :=
              formatTime (optimalTotalTime sections bestCaseSections isComposite);
            gap := formatGap (Js.Num (timeGap sections bestCaseSections isComposite)) |}.

(** Whether some section of the lap, or of the best case, carries no time
    (the key is missing or [null]). *)
Definition unpopulated (sections : list section)
    (bestCaseSections : list best_case_section) : bool :=
  existsb (λ s, negb (Js.isNum (driver_time_ms s))) sections
  || existsb (λ s, negb (Js.isNum (best_time_ms s))) bestCaseSections.

End TotalLapTimeComparison.

(** ** useApi: the fetching hook behind every panel *)

Module UseApi.

(** How one [axios.get] ends: a 2xx answer with its body, a rejection with
    the [detail] of the error body if there is one, or a cancellation. *)
Inductive response (A : Type) : Type :=
| Ok (body : A)
| Failed (detail : option string)
| Cancelled.
Arguments Ok {A} body.
Arguments Failed {A} detail.
Arguments Cancelled {A}.

(** The three [useState] cells the hook returns. *)
Record state (A : Type) : Type := {
  data : option A;
  loading : bool;
  error : option string
}.
Arguments data {A} s.
Arguments loading {A} s.
Arguments error {A} s.

Definition initial {A : Type} : state A :=
  {| data := None; loading := false; error := None |}.

(** [if (!endpoint) { setData(null); return; }] *)
Definition noEndpoint {A : Type} (st : state A) : state A :=
  {| data := None; loading := loading st; error := error st |}.

(** [setLoading(true); setError(null);] before the request is sent. *)
Definition fetchStart {A : Type} (st : state A) : state A :=
  {| data := data st; loading := true; error := None |}.

(** The [try] / [catch] / [finally] once the request has ended. *)
Definition fetchEnd {A : Type} (resp : response A) (st : state A) : state A :=
  match resp with
  | Ok body => {| data := Some body; loading := false; error := error st |}
  | Failed detail =>
      {| data := data st; loading := false;
         error := Some (match detail with
                        | Some d => if String.eqb d "" then "Failed to fetch data." else d
                        | None => "Failed to fetch data."
                        end) |}
  | Cancelled => {| data := data st; loading := false; error := error st |}
  end.

Definition fetch {A : Type} (resp : response A) (st : state A) : state A :=
  fetchEnd resp (fetchStart st).

End UseApi.

(** ** DraggableRecommendationPanel: what is shown of a recommendation document

    Styling, icons, dividers and the drag position are left out; every
    block that carries text or a figure of the document is kept, in the
    order of the JSX. *)

Module DraggableRecommendationPanel.

(** A numeric field of a recommendation document: a number, [null], or a
    missing key. *)
Inductive stat : Type :=
| Stat (q : Q)
| StatNull
| StatUndefined.

(** [x !== undefined] *)
Definition defined (x : stat) : bool :=
  match x with
  | StatUndefined => false
  | Stat _ | StatNull => true
  end.

(** [ToBoolean] *)
Definition stat_truthy (x : stat) : bool :=
  match x with
  | Stat q => negb (Qeq_bool q 0)
  | StatNull | StatUndefined => false
  end.

(** [a || b] *)
Definition stat_or (a b : stat) : stat := if stat_truthy a then a else b.

(** [Number(x)]; [None] is [NaN]. *)
Definition toNumber (x : stat) : option Q :=
  match x with
  | Stat q => Some q
  | StatNull => Some 0%Q
  | StatUndefined => None
  end.

(** How a figure reaches the screen: [String(x)], [{x}], or
    [n.toFixed(digits)] of a number that may be [NaN]. *)
Inductive shown : Type :=
| AsString (x : stat)
| Interpolated (x : stat)
| ToFixed (digits : nat) (n : option Q).

(** Optional strings: [None] is a missing key or [null]. *)
Definition str_truthy (o : option string) : bool :=
  match o with
  | Some s => negb (String.eqb s "")
  | None => false
  end.

Definition str_or (a b : option string) : option string :=
  if str_truthy a then a else b.

(** [s.trim()] is empty. *)
Definition is_js_space (c : ascii) : bool :=
  let n := nat_of_ascii c in
  ((9 <=? n) && (n <=? 13))%nat || (n =? 32)%nat.

Fixpoint is_blank (s : string) : bool :=
  match s with
  | EmptyString => true
  | String c s' => is_js_space c && is_blank s'
  end.

(** [hay.includes(needle)] *)
Definition includes (hay needle : string) : bool :=
  match String.index 0 needle hay with
  | Some _ => true
  | None => false
  end.

(** [s.toLowerCase()] on ASCII letters. *)
Definition lower_ascii (c : ascii) : ascii :=
  let n := nat_of_ascii c in
  if ((65 <=? n) && (n <=? 90))%nat then ascii_of_nat (n + 32) else c.

Fixpoint toLowerCase (s : string) : string :=
  match s with
  | EmptyString => EmptyString
  | String c s' => String (lower_ascii c) (toLowerCase s')
  end.

(** *** The documents *)

Record weather_summary_t : Type := {
  avg_air_temp_celsius : stat;
  min_air_temp_celsius : stat;
  max_air_temp_celsius : stat;
  avg_track_temp_celsius : stat;
  avg_humidity_percent : stat;
  avg_wind_speed : stat;
  max_wind_speed : stat;
  rain_detected : option bool
}.

Record trends_t : Type := {
  consistency_trend : option string;
  improvement_trend : option string
}.

Record section_stats : Type := {
  consistency : option string;
  mean_time_s : stat;
  std_time_s : stat;
  min_time_s : stat;
  max_time_s : stat
}.

Record section_patterns_t : Type := {
  strengths : option (list string);
  weaknesses : option (list string);
  section_analysis : option (list (string * option section_stats))
}.

Record lap_stats : Type := {
  lap_count : stat;
  mean_lap_time_s : stat;
  std_lap_time_s : stat;
  consistency_score : stat;
  min_lap_time_s : stat;
  max_lap_time_s : stat;
  min_lap_number : stat;
  max_lap_number : stat
}.

Record recommendation_item : Type := {
  priority : stat;
  focus : option string;
  action : option string;
  data_evidence : option string;
  theory : option string
}.

(** [structured_data]: the coaching payload ([data_facts], [theories],
    [recommendations]) or the statistics of a weather or pattern document;
    [own_stats] are the lap statistics stored directly on it. *)
Record structured_data_t : Type := {
  data_facts : option (list (string * string));
  theories : option (list (string * string));
  recommendations : option (list (option recommendation_item));
  data_points : stat;
  consistency_analysis : option lap_stats;
  own_stats : lap_stats
}.

Record recommendation_doc : Type := {
  recommendation_text : option string;
  analysis_text : option string;
  structured_data : option structured_data_t;
  weather_summary : option weather_summary_t;
  trends : option trends_t;
  section_patterns : option section_patterns_t;
  confidence_score : stat
}.

(** The empty object [{}] that stands in for a missing sub-document. *)
Definition no_weather : weather_summary_t :=
  {| avg_air_temp_celsius := StatUndefined; min_air_temp_celsius := StatUndefined;
     max_air_temp_celsius := StatUndefined; avg_track_temp_celsius := StatUndefined;
     avg_humidity_percent := StatUndefined; avg_wind_speed := StatUndefined;
     max_wind_speed := StatUndefined; rain_detected := None |}.

Definition no_trends : trends_t :=
  {| consistency_trend := None; improvement_trend := None |}.

Definition no_patterns : section_patterns_t :=
  {| strengths := None; weaknesses := None; section_analysis := None |}.

Definition no_stats : lap_stats :=
  {| lap_count := StatUndefined; mean_lap_time_s := StatUndefined;
     std_lap_time_s := StatUndefined; consistency_score := StatUndefined;
     min_lap_time_s := StatUndefined; max_lap_time_s := StatUndefined;
     min_lap_number := StatUndefined; max_lap_number := StatUndefined |}.

(** The body of the recommendation endpoints: an array of documents, or
    something else. *)
Inductive payload : Type :=
| Documents (l : list recommendation_doc)
| NotAnArray.

Inductive rtype : Type :=
| TSection
| TWeather
| TPattern
| TCoaching.

#[global] Instance rtype_eq_dec : EqDecision rtype.
Proof. solve_decision. Defined.

(** *** What is rendered *)

(** [{x && <Elem/>}] for a numeric [x]: the element when [x] is truthy, the
    text "0" when it is 0 (React prints a number), nothing otherwise. *)
Inductive guarded (A : Type) : Type :=
| Element (a : A)
| ZeroText
| Nothing.
Arguments Element {A} a.
Arguments ZeroText {A}.
Arguments Nothing {A}.

Definition guard_stat {A : Type} (x : stat) (a : A) : guarded A :=
  match x with
  | Stat q => if Qeq_bool q 0 then ZeroText else Element a
  | StatNull | StatUndefined => Nothing
  end.

Record card : Type := {
  isCurrentSection : bool;
  card_priority : guarded shown;
  card_focus : option string;
  card_action : option string;
  card_data_evidence : option string;
  card_theory : option string
}.

Inductive weather_line : Type :=
| AirTemperature (avg : shown) (range : option (shown * shown))
| TrackTemperature (avg : shown)
| Humidity (avg : shown)
| WindSpeed (avg : shown) (max : option shown)
| NoRain.

Record section_line : Type := {
  sl_name : string;
  sl_consistency : string;
  sl_color : string;
  sl_caption : option (shown * option shown * option (shown * shown))
}.

Inductive block : Type :=
| Loading
| ErrorBox
| Chip (label color : string)
| KeyObservations (entries : list (string * string))
| Analysis (lines : list string)
| Recommendations (cards : list card)
| DefaultText (text : string)
| WeatherNarrative (text : string)
| WeatherConditions (lines : list weather_line)
| DataPoints (n : shown)
| LapsAnalyzed (n : shown)
| AverageLapTime (t : shown)
| StdDev (t : shown)
| ConsistencyScore (percent : shown)
| BestWorst (best : shown) (bestLap : option shown)
    (worst : shown) (worstLap : option shown) (range : guarded shown)
| Trends (consistency improvement : option string)
| Strengths (l : list string)
| Weaknesses (l : list string)
| SectionAnalysis (entries : list section_line)
| ConsistencyNote
| CoachingHint
| Confidence (percent : shown)
| StrayZero
| NoData.

Record view : Type := {
  title : string;
  blocks : list block
}.

(** [cond && x] inside a list of children. *)
Definition when {A : Type} (cond : bool) (x : A) : list A :=
  if cond then [x] else [].

Definition keep (o : option string) : option string :=
  if str_truthy o then o else None.

(** *** Coaching insights

    The keys of [data_facts] are shown as they are stored; their
    re-capitalisation for display is not modelled. *)

(** The filter that drops recommendations without content. *)
Definition validRecommendation (rec : option recommendation_item) : bool :=
  match rec with
  | None => false
  | Some r =>
      str_truthy (str_or (focus r) (str_or (action r) (str_or (data_evidence r) (theory r))))
  end.

Definition cardOf (sectionName : option string) (r : recommendation_item) : card :=
  let focus_ := match keep (focus r) with Some f => f | None => "" end in
  {| isCurrentSection :=
       match keep sectionName with
       | Some n => includes (toLowerCase focus_) (toLowerCase n)
       | None => false
       end;
     card_priority := guard_stat (priority r) (Interpolated (priority r));
     card_focus := keep (focus r);
     card_action := keep (action r);
     card_data_evidence := keep (data_evidence r);
     card_theory := keep (theory r) |}.

Definition coachingBlocks (sectionName : option string) (data : structured_data_t)
    : list block :=
  (match data_facts data with
   | Some entries => [KeyObservations entries]
   | None => []
   end)
  ++ (match theories data with
      | Some entries =>
          [Analysis (snd <$> List.filter (λ kv, negb (String.eqb (fst kv) "confidence")) entries)]
      | None => []
      end)
  ++ (match recommendations data with
      | Some recs =>
          let validRecommendations := List.filter validRecommendation recs in
          match validRecommendations with
          | [] => []
          | _ => [Recommendations (omap (fmap (cardOf sectionName)) validRecommendations)]
          end
      | None => []
      end).

(** *** Weather impact *)

Definition weatherNarrativeShown (r : recommendation_doc) : option string :=
  match recommendation_text r with
  | Some t =>
      if negb (String.eqb t "") && negb (is_blank t)
         && negb (includes t
              "While detailed correlation analysis requires time-aligned lap data")
         && negb (includes t "Air temperature averaged")
      then Some t else None
  | None => None
  end.

Definition fixed1 (x : stat) : shown := ToFixed 1 (toNumber x).
Definition fixed3 (x : stat) : shown := ToFixed 3 (toNumber x).

Definition weatherLines (ws : weather_summary_t) : list weather_line :=
  when (defined (avg_air_temp_celsius ws))
    (AirTemperature (fixed1 (avg_air_temp_celsius ws))
       (if defined (min_air_temp_celsius ws) && defined (max_air_temp_celsius ws)
        then Some (fixed1 (min_air_temp_celsius ws), fixed1 (max_air_temp_celsius ws))
        else None))
  ++ when (defined (avg_track_temp_celsius ws))
       (TrackTemperature (fixed1 (avg_track_temp_celsius ws)))
  ++ when (defined (avg_humidity_percent ws))
       (Humidity (fixed1 (avg_humidity_percent ws)))
  ++ when (defined (avg_wind_speed ws))
       (WindSpeed (fixed1 (avg_wind_speed ws))
          (if defined (max_wind_speed ws) then Some (fixed1 (max_wind_speed ws)) else None))
  ++ when (bool_decide (rain_detected ws = Some false)) NoRain.

Definition weatherBlocks (r : recommendation_doc) (data : structured_data_t) : list block :=
  let weatherSummary := default no_weather (weather_summary r) in
  (match weatherNarrativeShown r with
   | Some t => [WeatherNarrative t]
   | None => []
   end)
  ++ when (defined (avg_air_temp_celsius weatherSummary)
           || defined (avg_humidity_percent weatherSummary)
           || defined (avg_wind_speed weatherSummary))
       (WeatherConditions (weatherLines weatherSummary))
  ++ when (defined (data_points data)) (DataPoints (AsString (data_points data))).

(** *** Driver patterns *)

Definition scoreBlock (ca data : lap_stats) : list block :=
  let score :=
    if defined (consistency_score ca) then consistency_score ca
    else if defined (consistency_score data) then consistency_score data
    else StatUndefined in
  match score with
  | Stat q => when (Qle_bool 0 q) (ConsistencyScore (ToFixed 1 (Some (q * 100)%Q)))
  | StatNull | StatUndefined => []
  end.

(** [{(a || a') && (b || b') && <Range/>}] under "Worst Lap": the range
    line when both operands are truthy; otherwise the first falsy operand
    is what React is given, and it prints the number 0 as the text "0" and
    nothing for [null] or a missing key. *)
Definition rangeOf (ca data : lap_stats) : guarded shown :=
  let lo := stat_or (min_lap_time_s ca) (min_lap_time_s data) in
  let hi := stat_or (max_lap_time_s ca) (max_lap_time_s data) in
  match guard_stat lo tt with
  | Element _ =>
      guard_stat hi
        (ToFixed 3 (h ← toNumber hi; l ← toNumber lo; Some (h - l)%Q))
  | ZeroText => ZeroText
  | Nothing => Nothing
  end.

Definition sectionLine (entry : string * option section_stats) : option section_line :=
  match entry.2 with
  | None => None
  | Some sd =>
      let consistency_ := match keep (consistency sd) with Some c => c | None => "unknown" end in
      Some {| sl_name := entry.1;
              sl_consistency := consistency_;
              sl_color :=
                if String.eqb consistency_ "high" then "success.main"
                else if String.eqb consistency_ "moderate" then "warning.main"
                else "error.main";
              sl_caption :=
                if defined (mean_time_s sd) then
                  Some (fixed3 (mean_time_s sd),
                        (if defined (std_time_s sd) then Some (fixed3 (std_time_s sd)) else None),
                        (if defined (min_time_s sd) && defined (max_time_s sd)
                         then Some (fixed3 (min_time_s sd), fixed3 (max_time_s sd))
                         else None))
                else None |}
  end.

Definition nonEmpty {A : Type} (o : option (list A)) : bool :=
  match o with
  | Some (_ :: _) => true
  | Some [] | None => false
  end.

Definition patternBlocks (r : recommendation_doc) (data : structured_data_t) : list block :=
  let trends_ := default no_trends (trends r) in
  let sectionPatterns := default no_patterns (section_patterns r) in
  let ca := default no_stats (consistency_analysis data) in
  let own := own_stats data in
  when (defined (lap_count ca) || defined (lap_count own))
    (LapsAnalyzed (AsString (stat_or (lap_count ca) (lap_count own))))
  ++ when (defined (mean_lap_time_s ca) || defined (mean_lap_time_s own))
       (AverageLapTime (fixed3 (stat_or (mean_lap_time_s ca) (mean_lap_time_s own))))
  ++ when (defined (std_lap_time_s ca) || defined (std_lap_time_s own))
       (StdDev (fixed3 (stat_or (std_lap_time_s ca) (std_lap_time_s own))))
  ++ scoreBlock ca own
  ++ when ((defined (min_lap_time_s ca) && defined (max_lap_time_s ca))
           || (defined (min_lap_time_s own) && defined (max_lap_time_s own)))
       (BestWorst
          (fixed3 (stat_or (min_lap_time_s ca) (min_lap_time_s own)))
          (if defined (min_lap_number ca) || defined (min_lap_number own)
           then Some (Interpolated (stat_or (min_lap_number ca) (min_lap_number own)))
           else None)
          (fixed3 (stat_or (max_lap_time_s ca) (max_lap_time_s own)))
          (if defined (max_lap_number ca) || defined (max_lap_number own)
           then Some (Interpolated (stat_or (max_lap_number ca) (max_lap_number own)))
           else None)
          (rangeOf ca own))
  ++ when (str_truthy (consistency_trend trends_) || str_truthy (improvement_trend trends_))
       (Trends (keep (consistency_trend trends_)) (keep (improvement_trend trends_)))
  ++ when (nonEmpty (strengths sectionPatterns))
       (Strengths (default [] (strengths sectionPatterns)))
  ++ when (nonEmpty (weaknesses sectionPatterns))
       (Weaknesses (default [] (weaknesses sectionPatterns)))
  ++ when (nonEmpty (section_analysis sectionPatterns))
       (SectionAnalysis (omap sectionLine (default [] (section_analysis sectionPatterns))))
  ++ when (defined (std_lap_time_s ca)) ConsistencyNote
  ++ when (negb (nonEmpty (strengths sectionPatterns))
           && negb (nonEmpty (weaknesses sectionPatterns))
           && negb (str_truthy (consistency_trend trends_))
           && negb (str_truthy (improvement_trend trends_)))
       CoachingHint.

(** *** The panel *)

Definition getTitle (ty : rtype) (sectionName : option string) : string :=
  match ty with
  | TSection =>
      "Section: " +:+ match keep sectionName with Some n => n | None => "N/A" end
  | TWeather => "Weather Impact Analysis"
  | TPattern => "Driver Pattern Analysis"
  | TCoaching => "Coaching Insights"
  end.

Definition chipOf (ty : rtype) : block :=
  match ty with
  | TSection => Chip "Section Analysis" "primary"
  | TWeather => Chip "Weather Analysis" "secondary"
  | TPattern => Chip "Pattern Analysis" "warning"
  | TCoaching => Chip "Coaching Analysis" "success"
  end.

(** Everything inside [{recommendation && ( ... )}]. *)
Definition documentBlocks (ty : rtype) (sectionName : option string)
    (r : recommendation_doc) : list block :=
  [chipOf ty]
  ++ (match ty, structured_data r with
      | TCoaching, Some data => coachingBlocks sectionName data
      | _, _ => []
      end)
  ++ (match ty with
      | TSection =>
          [DefaultText
             (match str_or (recommendation_text r) (analysis_text r) with
              | Some t => if String.eqb t "" then "No recommendation available" else t
              | None => "No recommendation available"
              end)]
      | TWeather | TPattern | TCoaching => []
      end)
  ++ (match ty, structured_data r with
      | TWeather, Some data => weatherBlocks r data
      | TPattern, Some data => patternBlocks r data
      | _, _ => []
      end)
  ++ (match guard_stat (confidence_score r)
              (Confidence (ToFixed 1 (q ← toNumber (confidence_score r); Some (q * 100)%Q))) with
      | Element b => [b]
      | ZeroText => [StrayZero]
      | Nothing => []
      end).

(** [recommendations && Array.isArray(recommendations) &&
    recommendations.length > 0 ? recommendations[0] : null] *)
Definition recommendationOf (data : option payload) : option recommendation_doc :=
  match data with
  | Some (Documents (r :: _)) => Some r
  | Some (Documents []) | Some NotAnArray | None => None
  end.

Definition render (recommendationType : option rtype) (sectionName : option string)
    (api : UseApi.state payload) : option view :=
  match recommendationType with
  | None => None
  | Some ty =>
      let recommendation := recommendationOf (UseApi.data api) in
      Some {| title := getTitle ty sectionName;
              blocks :=
                when (UseApi.loading api) Loading
                ++ when (str_truthy (UseApi.error api)) ErrorBox
                ++ (match recommendation with
                    | Some r => documentBlocks ty sectionName r
                    | None => []
                    end)
                ++ when (negb (UseApi.loading api) && negb (str_truthy (UseApi.error api))
                         && negb (bool_decide (is_Some recommendation)))
                     NoData |}
  end.

(** *** Narrative and figures *)

(** The free-text fields of a document: [recommendation_text] and
    [analysis_text] on every kind, and for coaching insights the whole
    generated payload in [structured_data]. *)
Definition withNarrative (t a : option string) (r : recommendation_doc)
    : recommendation_doc :=
  {| recommendation_text := t; analysis_text := a;
     structured_data := structured_data r; weather_summary := weather_summary r;
     trends := trends r; section_patterns := section_patterns r;
     confidence_score := confidence_score r |}.

(** The document as it is served when the narrative was omitted. *)
Definition withoutNarrative (ty : rtype) (r : recommendation_doc) : recommendation_doc :=
  {| recommendation_text := None; analysis_text := None;
     structured_data :=
       match ty with
       | TCoaching => None
       | TSection | TWeather | TPattern => structured_data r
       end;
     weather_summary := weather_summary r;
     trends := trends r; section_patterns := section_patterns r;
     confidence_score := confidence_score r |}.



(** *** A text field that is not a string

    [recommendation_text] comes out of a JSON payload, so it may hold a
    value of another type.  The weather panel is the one place where the
    panel calls a string method on it. *)





End DraggableRecommendationPanel.

(** ** The recommendation endpoints *)

Module RecommendationApi.
Import DraggableRecommendationPanel.

(** The four URLs the panel can ask for. *)
Inductive endpoint : Type :=
| SectionRecommendation (lapSectionId : RaceSelector.value)
| WeatherImpact (raceId : RaceSelector.value)
| PatternAnalysis (raceId vehicleId : RaceSelector.value)
| CoachingInsights (raceId vehicleId : RaceSelector.value).

(** [x && ...] on an id that may be [null]. *)
Definition given (x : option RaceSelector.value) : option RaceSelector.value :=
  match x with
  | Some v => if RaceSelector.truthy v then Some v else None
  | None => None
  end.

(** The panel's choice of endpoint from its props. *)
Definition endpointOf (recommendationType : option rtype)
    (lapSectionId raceId vehicleId : option RaceSelector.value) : option endpoint :=
  match recommendationType with
  | Some TSection => SectionRecommendation <$> given lapSectionId
  | Some TWeather => WeatherImpact <$> given raceId
  | Some TPattern =>
      r ← given raceId; v ← given vehicleId; Some (PatternAnalysis r v)
  | Some TCoaching =>
      r ← given raceId; v ← given vehicleId; Some (CoachingInsights r v)
  | None => None
  end.

End RecommendationApi.

(** ** The batch aggregation rules

    The batch pipeline that derives the composites is not among the sources;
    what follows is its specification, written out as functions. *)

Module Batch.

(** Modelled from the spec: the section time record of the pipeline (not
    among the sources), §3: (track, race, driver, lap, section_name,
    elapsed_time), immutable once ingested. *)
Record SectionTime : Type := {
  track : Z;
  race : Z;
  driver : Z;
  lap : Z;
  section_name : string;
  elapsed_time : Z
}.

#[global] Instance SectionTime_eq_dec : EqDecision SectionTime.
Proof. solve_decision. Defined.

(** Modelled from the spec: one entry of the best-case composite (the
    builder is not among the sources), §3: the minimum elapsed time of a
    section plus the identity of the lap achieving it. *)
Record BestCase : Type := {
  min_time : Z;
  by_driver : Z;
  on_lap : Z
}.

Section Builder.

(** Which records count as valid observations; the spec leaves this to the
    ingestion step. *)
Variable valid : SectionTime → bool.

(** Modelled from the spec: taking one record into account in the composite
    builder (not among the sources), §4.1: keep, per section name, the
    minimum observed time and the (driver, lap) that achieved it. *)
Definition observe (m : gmap string BestCase) (r : SectionTime) : gmap string BestCase :=
  if valid r then
    match m !! section_name r with
    | Some b =>
        if elapsed_time r <? min_time b then
          <[section_name r :=
              {| min_time := elapsed_time r; by_driver := driver r; on_lap := lap r |}]> m
        else m
    | None =>
        <[section_name r :=
            {| min_time := elapsed_time r; by_driver := driver r; on_lap := lap r |}]> m
    end
  else m.

(** Modelled from the spec: the best-case composite builder (not among the
    sources), §4.1: from all section-time records of one race, the minimum
    per section name with its (driver, lap). *)
Definition composite (records : list SectionTime) : gmap string BestCase :=
  foldl observe ∅ records.

(** Modelled from the spec: what "the composite's entry for a section is
    the true minimum of the valid recorded times" means, §8. *)
Definition is_minimum_of (records : list SectionTime) (s : string) (b : BestCase) : Prop :=
  (∀ r, r ∈ records → valid r = true → section_name r = s → min_time b <= elapsed_time r)
  ∧ (∃ r, r ∈ records ∧ valid r = true ∧ section_name r = s
          ∧ elapsed_time r = min_time b ∧ driver r = by_driver b ∧ lap r = on_lap b).

(** Modelled from the spec: the derived composite record of one race (the
    builder is not among the sources), §4.1 and §7: the per-section
    minimums, the sections flagged for having no valid observation, and the
    mark that the record is partial. *)
Record Derived : Type := {
  minima : gmap string BestCase;
  flagged : list string;
  partial : bool
}.

(** Modelled from the spec: the composite builder's record for one race
    (not among the sources), §4.1 and §7: the composite over the sections
    that were observed; of the sections the race's input is documented to
    have, those without an entry are flagged, and a record with a flagged
    section is marked as partial. *)
Definition build (expected : list string) (records : list SectionTime) : Derived :=
  let m := composite records in
  let missing := filter (λ s, m !! s = None) expected in
  {| minima := m;
     flagged := missing;
     partial := match missing with [] => false | _ :: _ => true end |}.

(** Modelled from the spec: one output of the section gap analyzer (not
    among the sources), §4.2: for a driver's time in a section, its gap to
    the composite's minimum of that section. *)
Record SectionGap : Type := {
  gap_driver : Z;
  gap_lap : Z;
  gap_section : string;
  gap_ms : Z
}.

(** Modelled from the spec: the section gap analyzer on one race (not among
    the sources), §4.2: gap = driver's time − composite's minimum for that
    section, for every valid record whose section has a minimum. *)
Definition gaps (records : list SectionTime) : list SectionGap :=
  omap (λ r,
          if valid r then
            b ← composite records !! section_name r;
            Some {| gap_driver := driver r; gap_lap := lap r;
                    gap_section := section_name r;
                    gap_ms := elapsed_time r - min_time b |}
          else None)
       records.

End Builder.

(** Modelled from the spec: the raw records of one race, identified by its
    track and race (the ingestion step is not among the sources), §4.1. *)
Definition race_records (k : Z * Z) (raw : list SectionTime) : list SectionTime :=
  filter (λ r, (track r, race r) = k) raw.



End Batch.

(** ** PlaybackControls: the previous / play / next row under the section panel *)

Module PlaybackControls.

Record view : Type := {
  previousDisabled : bool;
  nextDisabled : bool;
  playTitle : string;
  counter : string
}.

Definition render (currentSectionIndex totalSections : Z) (isPlaying : bool) : view :=
  {| previousDisabled := currentSectionIndex =? 0;
     nextDisabled := totalSections - 1 <=? currentSectionIndex;
     playTitle := if isPlaying then "Pause Playback" else "Play Through Circuit";
     counter :=
       if 0 <? totalSections then
         pretty (currentSectionIndex + 1) +:+ " / " +:+ pretty totalSections
       else "- / -" |}.

End PlaybackControls.

(** ** LapReview: what is derived from the playback state on each render *)

Module LapReviewView.

(** [sections[currentSectionIndex]]; out of range is [undefined]. *)
Definition currentSection (sections : list section) (st : LapReview.playback)
    : option section :=
  if LapReview.currentSectionIndex st <? 0 then None
  else sections !! Z.to_nat (LapReview.currentSectionIndex st).

(** The object [{}] the [reduce] fills with [acc[section.section_name] =
    section]: its own properties, and the section that an assignment under
    the name ["__proto__"] has made its prototype, if there was one (that
    assignment sets the prototype and creates no own property). *)
Record dict : Type := {
  own : gmap string best_case_section;
  proto : option best_case_section
}.

(** The property names every plain object inherits from [Object.prototype],
    besides ["__proto__"]. *)
Definition objectPrototypeNames : list string :=
  [ "constructor"; "hasOwnProperty"; "isPrototypeOf"; "propertyIsEnumerable";
    "toLocaleString"; "toString"; "valueOf"; "__defineGetter__"; "__defineSetter__";
    "__lookupGetter__"; "__lookupSetter__" ].

(** What [obj[name]] evaluates to: a best-case section, something built in
    ([Object.prototype] or one of its members), the property [name] of the
    section that is the prototype ([Field s name] stands for [s[name]]), or
    [undefined]. *)
Inductive looked : Type :=
| TheSection (s : best_case_section)
| Builtin
| Field (s : best_case_section) (name : string)
| Undefined.

(** [acc[section.section_name] = section] *)
Definition assign (acc : dict) (s : best_case_section) : dict :=
  if String.eqb (bc_section_name s) "__proto__"
  then {| own := own acc; proto := Some s |}
  else {| own := <[bc_section_name s := s]> (own acc); proto := proto acc |}.

(** The [reduce] that indexes the best-case sections by section name. *)
Definition bestCaseDict (bestCaseSections : list best_case_section) : dict :=
  foldl assign {| own := ∅; proto := None |} bestCaseSections.

(** [bestCaseDict[name]]: an own property first, then the prototype chain. *)
Definition get (d : dict) (name : string) : looked :=
  match own d !! name with
  | Some s => TheSection s
  | None =>
      if String.eqb name "__proto__" then
        match proto d with
        | Some s => TheSection s
        | None => Builtin
        end
      else
        match proto d with
        | Some s => Field s name
        | None => if bool_decide (name ∈ objectPrototypeNames) then Builtin else Undefined
        end
  end.

(** [currentSection ? bestCaseDict[currentSection.section_name] : null];
    [None] is [null]. *)
Definition currentBestCase (sections : list section)
    (bestCaseSections : list best_case_section) (st : LapReview.playback)
    : option looked :=
  s ← currentSection sections st;
  Some (get (bestCaseDict bestCaseSections) (section_name s)).

(** [currentSection?.id || null] *)
Definition currentLapSectionId (sections : list section) (st : LapReview.playback)
    : option Z :=
  s ← currentSection sections st;
  i ← section_id s;
  if i =? 0 then None else Some i.

(** The playback row as LapReview wires it: index and length of the
    section list, and the play state. *)
Definition controls (sections : list section) (st : LapReview.playback)
    : PlaybackControls.view :=
  PlaybackControls.render (LapReview.currentSectionIndex st) (LapReview.len sections)
    (LapReview.isPlaying st).

(** *** The section list over time

    [sections] is [lapData?.sections || []] of what the hook holds.  A new
    selection resets the playback at once, but the list is replaced only
    when the answer to the new request arrives, or when the hook's data is
    cleared. *)
Inductive event : Type :=
| Did (a : LapReview.action)
| SectionsReplaced (sections : list section).

Record screen : Type := {
  held : list section;
  playback_of : LapReview.playback
}.

Definition sessionStep (c : screen) (e : event) : screen :=
  match e with
  | Did a =>
      {| held := held c; playback_of := LapReview.step (held c) (playback_of c) a |}
  | SectionsReplaced l => {| held := l; playback_of := playback_of c |}
  end.

Definition session (c : screen) (evs : list event) : screen := foldl sessionStep c evs.

(** Every replacement of the list brings at least one section and comes
    right after the reset of a new selection, before the user or the timer
    has acted again; [fresh] tells whether the reset has just happened. *)
Fixpoint prompt (fresh : bool) (evs : list event) : bool :=
  match evs with
  | [] => true
  | Did a :: evs' =>
      prompt (match a with LapReview.SelectionChanged => true | _ => false end) evs'
  | SectionsReplaced l :: evs' =>
      fresh && (match l with [] => false | _ :: _ => true end) && prompt false evs'
  end.

End LapReviewView.

(** ** LapReview: what is fetched and offered for a selection *)

Module LapReviewData.

(** The three URLs LapReview itself asks for; [raceId] is the optional
    [?race_id=] query. *)
Inductive endpoint : Type :=
| BestCaseSectionsOf (trackId : RaceSelector.value) (raceId : option RaceSelector.value)
| LapSectionsOf (lapId : RaceSelector.value)
| BestCaseOf (trackId : RaceSelector.value) (raceId : option RaceSelector.value).

(** [selection?.lapId] *)
Definition lapId (selection : option RaceSelector.selection) : option RaceSelector.value :=
  s ← selection; RaceSelector.lapId s.

(** [selection?.isComposite] as a condition. *)
Definition isComposite (selection : option RaceSelector.selection) : bool :=
  match selection with
  | Some s => RaceSelector.sel_isComposite s
  | None => false
  end.

(** [selection?.trackId || selectedTrackId] *)
Definition trackId (selection : option RaceSelector.selection)
    (selectedTrackId : option RaceSelector.value) : option RaceSelector.value :=
  match selection with
  | Some s =>
      if RaceSelector.truthy (RaceSelector.trackId s) then Some (RaceSelector.trackId s)
      else selectedTrackId
  | None => selectedTrackId
  end.

(** [selection?.raceId] *)
Definition raceId (selection : option RaceSelector.selection) : option RaceSelector.value :=
  s ← selection; RaceSelector.raceId s.

(** [selection?.driverId] *)
Definition driverId (selection : option RaceSelector.selection) : option RaceSelector.value :=
  s ← selection; RaceSelector.driverId s.

Definition sectionsEndpoint (selection : option RaceSelector.selection)
    (selectedTrackId : option RaceSelector.value) : option endpoint :=
  if isComposite selection then
    t ← RecommendationApi.given (trackId selection selectedTrackId);
    Some (BestCaseSectionsOf t (RecommendationApi.given (raceId selection)))
  else
    l ← RecommendationApi.given (lapId selection);
    Some (LapSectionsOf l).

Definition bestCaseEndpoint (selection : option RaceSelector.selection)
    (selectedTrackId : option RaceSelector.value) : option endpoint :=
  match RecommendationApi.given (trackId selection selectedTrackId) with
  | Some t =>
      if negb (isComposite selection)
      then Some (BestCaseOf t (RecommendationApi.given (raceId selection)))
      else None
  | None => None
  end.

(** The AI analysis card is shown when [trackId && (lapId || isComposite)]. *)
Definition toggleShown (selection : option RaceSelector.selection)
    (selectedTrackId : option RaceSelector.value) : bool :=
  bool_decide (is_Some (RecommendationApi.given (trackId selection selectedTrackId)))
  && (bool_decide (is_Some (RecommendationApi.given (lapId selection)))
      || isComposite selection).

(** Its toggle is [disabled={isComposite || !lapId}]. *)
Definition toggleDisabled (selection : option RaceSelector.selection) : bool :=
  isComposite selection
  || negb (bool_decide (is_Some (RecommendationApi.given (lapId selection)))).

(** The endpoint the recommendation panel asks for, given the props
    LapReview hands it: the lap section id only for the section type, the
    race and the driver of the selection. *)
Definition panelEndpoint
    (activeRecommendationType : option DraggableRecommendationPanel.rtype)
    (currentLapSectionId : option Z) (selection : option RaceSelector.selection)
    : option RecommendationApi.endpoint :=
  RecommendationApi.endpointOf activeRecommendationType
    (if bool_decide (activeRecommendationType = Some DraggableRecommendationPanel.TSection)
     then RaceSelector.VNum <$> currentLapSectionId else None)
    (raceId selection) (driverId selection).

(** The three blocks of the panel that tell the state of the request. *)
Definition requestBlock (b : DraggableRecommendationPanel.block) : bool :=
  match b with
  | DraggableRecommendationPanel.Loading
  | DraggableRecommendationPanel.ErrorBox
  | DraggableRecommendationPanel.NoData => true
  | _ => false
  end.

(** The two things that set [activeRecommendationType]: the toggle, which
    reports the clicked type, or [null] when the active button is clicked
    again, and the close button of the panel. *)
Inductive panelEvent : Type :=
| ToggleChange (newType : option DraggableRecommendationPanel.rtype)
| ClosePanel.

(** [RecommendationToggle.handleTypeChange] ([if (newType !== null)
    onTypeChange(newType)]) and the panel's [onClose]. *)
Definition panelStep (active : option DraggableRecommendationPanel.rtype)
    (e : panelEvent) : option DraggableRecommendationPanel.rtype :=
  match e with
  | ToggleChange (Some ty) => Some ty
  | ToggleChange None => active
  | ClosePanel => None
  end.

End LapReviewData.

(** ** RaceSelector: what the rendered form lets the user choose

    The four [Select]s of the form: when each is disabled, and the values
    of its [MenuItem]s.  A [Select] reports a change only while it is
    enabled, and only to the value of one of its enabled items. *)

Module RaceSelectorForm.
Import RaceSelector.

(** One entry of [/api/tracks/:id/races], as far as the form reads it. *)
Record race : Type := { race_id : value; race_number : Z }.

(** What the form reads besides the state cells and [fetched]: the races
    of the track and the [loading] flags of the three [useApi] hooks. *)
Record ui : Type := {
  races : option (list race);
  tracksLoading : bool;
  racesLoading : bool;
  contextLoading : bool
}.

Section WithParseInt.

Variable parseIntStr : string → option Z.

(** [raceContext?.drivers || []] *)
Definition driversOf (d : fetched) : list driver :=
  default [] (ctx ← raceContext d; drivers ctx).

(** [drivers.find(d => d.id === parseInt(selectedDriver))?.laps || []] *)
Definition lapsOf (d : fetched) (st : state) : list lap :=
  default []
    (dr ← List.find
           (λ x, bool_decide (Some (driver_id x) = parseInt parseIntStr (selectedDriver st)))
           (driversOf d);
     laps dr).

(** [disabled={tracksLoading || !tracks || tracks.length === 0}] *)
Definition trackSelectDisabled (u : ui) (d : fetched) : bool :=
  tracksLoading u
  || match tracks d with
     | Some (_ :: _) => false
     | Some [] | None => true
     end.

(** The empty item and [String(track.id)] for every track. *)
Definition trackItems (d : fetched) : list value :=
  empty :: ((λ t, VStr (pretty (track_id t))) <$> default [] (tracks d)).

(** [disabled={!selectedTrack || racesLoading}] *)
Definition raceSelectDisabled (u : ui) (st : state) : bool :=
  negb (truthy (selectedTrack st)) || racesLoading u.

(** The empty item and [race.id] for every race. *)
Definition raceItems (u : ui) : list value :=
  empty :: (race_id <$> default [] (races u)).

(** [disabled={!selectedTrack || contextLoading}] *)
Definition driverSelectDisabled (u : ui) (st : state) : bool :=
  negb (truthy (selectedTrack st)) || contextLoading u.

(** The empty item, ['composite'] once a track is chosen, and [driver.id]
    for every driver once a race is chosen (the fourth item, "Select a race
    to view individual drivers", is itself disabled). *)
Definition driverItems (d : fetched) (st : state) : list value :=
  empty
  :: (if truthy (selectedTrack st) then [VStr "composite"] else [])
  ++ (if truthy (selectedRace st)
      then (λ x, VNum (driver_id x)) <$> driversOf d
      else []).

(** The lap [Select] is rendered under [{!isComposite && ...}]. *)
Definition lapSelectShown (st : state) : bool := negb (isComposite st).

(** [disabled={!selectedDriver || laps.length === 0}] *)
Definition lapSelectDisabled (d : fetched) (st : state) : bool :=
  negb (truthy (selectedDriver st))
  || match lapsOf d st with
     | [] => true
     | _ :: _ => false
     end.

(** The empty item and [lap.id] for every lap of the chosen driver. *)
Definition lapItems (d : fetched) (st : state) : list value :=
  empty :: (lap_id <$> lapsOf d st).

(** Whether the form, as rendered for [c] and [u], can produce the event. *)
Definition offered (u : ui) (c : config) (e : event) : bool :=
  match e with
  | TrackChange v =>
      negb (trackSelectDisabled u (data c)) && bool_decide (v ∈ trackItems (data c))
  | RaceChange v =>
      negb (raceSelectDisabled u (sel c)) && bool_decide (v ∈ raceItems u)
  | DriverChange v =>
      negb (driverSelectDisabled u (sel c))
      && bool_decide (v ∈ driverItems (data c) (sel c))
  | LapChange v =>
      lapSelectShown (sel c) && negb (lapSelectDisabled (data c) (sel c))
      && bool_decide (v ∈ lapItems (data c) (sel c))
  | DataArrived _ => true
  end.

(** A session: at every step the form is rendered for the current state
    and for what the hooks hold then, and the next event is one it offers. *)
Fixpoint session (c : config) (tr : list (ui * event)) : bool :=
  match tr with
  | [] => true
  | (u, e) :: tr' => offered u c e && session (step parseIntStr c e).1 tr'
  end.

End WithParseInt.

(** The cascade: a lap is chosen only under a driver, a driver only under a
    race, a race only under a track; the composite needs a track and
    excludes a driver and a lap. *)
Definition cascaded (st : state) : Prop :=
  (truthy (selectedLap st) = true → truthy (selectedDriver st) = true)
  ∧ (truthy (selectedDriver st) = true → truthy (selectedRace st) = true)
  ∧ (truthy (selectedRace st) = true → truthy (selectedTrack st) = true)
  ∧ (isComposite st = true →
     truthy (selectedTrack st) = true ∧ selectedDriver st = empty ∧ selectedLap st = empty).

End RaceSelectorForm.

(** ** DraggableRecommendationPanel: dragging the panel by its header

    Only the three state cells of the drag are modelled here.  The
    coordinates of a mouse event and [window.innerWidth] are integers, so
    every value the handlers compute is an integer too. *)

Module RecommendationPanelDrag.

Record point : Type := { x : Z; y : Z }.

Record state : Type := {
  position : point;
  isDragging : bool;
  dragStart : point
}.

(** [useState({ x: window.innerWidth - 450, y: 100 })], [useState(false)],
    [useState({ x: 0, y: 0 })] *)
Definition initial (innerWidth : Z) : state :=
  {| position := {| x := innerWidth - 450; y := 100 |};
     isDragging := false;
     dragStart := {| x := 0; y := 0 |} |}.

(** [onHandle] is [e.target.closest('.drag-handle')]. *)
Inductive event : Type :=
| MouseDown (onHandle : bool) (client : point)
| MouseMove (client : point)
| MouseUp.

Definition handleMouseDown (onHandle : bool) (client : point) (st : state) : state :=
  if onHandle then
    {| position := position st;
       isDragging := true;
       dragStart := {| x := x client - x (position st);
                       y := y client - y (position st) |} |}
  else st.

Definition handleMouseMove (client : point) (st : state) : state :=
  if isDragging st then
    {| position := {| x := x client - x (dragStart st);
                      y := y client - y (dragStart st) |};
       isDragging := isDragging st;
       dragStart := dragStart st |}
  else st.

Definition handleMouseUp (st : state) : state :=
  {| position := position st; isDragging := false; dragStart := dragStart st |}.

(** [onMouseDown] sits on the panel; the [mousemove] and [mouseup]
    listeners are on the document only while [isDragging]. *)
Definition step (st : state) (e : event) : state :=
  match e with
  | MouseDown onHandle client => handleMouseDown onHandle client st
  | MouseMove client => if isDragging st then handleMouseMove client st else st
  | MouseUp => if isDragging st then handleMouseUp st else st
  end.

Definition run (st : state) (es : list event) : state := foldl step st es.

End RecommendationPanelDrag.

(** ** Arithmetic on screen coordinates

    Sizes and positions read from [getBoundingClientRect] and zoom factors
    are doubles.  They are modelled as rationals, and the four operations
    are a parameter of the models below: what is proved of a clamped value
    holds for every choice of them, so whatever the rounding. *)

Module JsFloat.

Record ops : Type := {
  add : Q → Q → Q;
  sub : Q → Q → Q;
  mul : Q → Q → Q;
  div : Q → Q → Q
}.

(** The operations without rounding. *)
Definition exact : ops :=
  {| add := Qplus; sub := Qminus; mul := Qmult; div := Qdiv |}.

(** What the zoom buttons use of the multiplication: a factor above 1
    does not make a non-negative number smaller, a factor below 1 does
    not make it larger. *)
Definition scales (fl : ops) : Prop :=
  ∀ s k : Q, (0 <= s)%Q →
    ((1 <= k)%Q → (s <= mul fl s k)%Q) ∧ ((0 <= k)%Q → (k <= 1)%Q → (mul fl s k <= s)%Q).

End JsFloat.

(** ** DraggableSectionPanel: dragging and resizing the section panel *)

Module DraggableSectionPanel.

(** A CSS length of the panel: ['auto'] or a number of pixels. *)
Inductive dim : Type :=
| Auto
| Px (q : Q).

Record size_t : Type := { width : dim; height : dim }.

Record point : Type := { x : Q; y : Q }.

(** [getBoundingClientRect()] of the container. *)
Record rect : Type := { left : Q; top : Q; rect_width : Q; rect_height : Q }.

(** The [resizeStart] cell. *)
Record grip : Type := { grip_x : Q; grip_y : Q; grip_width : Q; grip_height : Q }.

Record state : Type := {
  position : point;
  size : size_t;
  isDragging : bool;
  isResizing : bool;
  dragStart : point;
  resizeStart : grip
}.

Definition initial : state :=
  {| position := {| x := 50; y := 50 |};
     size := {| width := Px 450; height := Auto |};
     isDragging := false;
     isResizing := false;
     dragStart := {| x := 0; y := 0 |};
     resizeStart := {| grip_x := 0; grip_y := 0; grip_width := 0; grip_height := 0 |} |}.

(** The effect that runs once after mounting: what [localStorage] holds
    under [sectionPanelPosition] and [sectionPanelSize] ([None] when the
    key is absent or does not parse) replaces the defaults. *)
Definition mount (savedPos : option point) (savedSize : option size_t) : state :=
  {| position := default (position initial) savedPos;
     size := default (size initial) savedSize;
     isDragging := false;
     isResizing := false;
     dragStart := dragStart initial;
     resizeStart := resizeStart initial |}.

(** What the size effect writes to [localStorage] after the size changed:
    [if (size.width !== 'auto' && size.height !== 'auto')]. *)
Definition saved (s : size_t) : option size_t :=
  match width s, height s with
  | Px _, Px _ => Some s
  | _, _ => None
  end.

(** Where the mouse went down: on the resize handle, on a button, input
    or link (or inside one), or anywhere else on the panel. *)
Inductive target : Type :=
| ResizeHandle
| Control
| Elsewhere.

(** [container] is [containerRef.current?.getBoundingClientRect()]. *)
Inductive event : Type :=
| MouseDown (t : target) (client : point) (container : option rect)
| MouseMove (client : point) (container : option rect) (innerWidth innerHeight : Q)
| MouseUp.

Section WithFloat.

Variable fl : JsFloat.ops.

(** A press on the resize handle is taken by the handle's own
    [onMouseDown], which stops the propagation and does what the
    [isResizeHandle] branch of [handleMouseDown] does. *)
Definition handleMouseDown (t : target) (client : point) (container : option rect)
    (st : state) : state :=
  match t with
  | ResizeHandle =>
      {| position := position st; size := size st;
         isDragging := isDragging st; isResizing := true;
         dragStart := dragStart st;
         resizeStart :=
           match container with
           | Some r => {| grip_x := x client; grip_y := y client;
                          grip_width := rect_width r; grip_height := rect_height r |}
           | None => resizeStart st
           end |}
  | Control => st
  | Elsewhere =>
      {| position := position st; size := size st;
         isDragging := true; isResizing := isResizing st;
         dragStart :=
           match container with
           | Some r => {| x := JsFloat.sub fl (x client) (left r);
                          y := JsFloat.sub fl (y client) (top r) |}
           | None => dragStart st
           end;
         resizeStart := resizeStart st |}
  end.

Definition handleMouseMove (client : point) (container : option rect)
    (innerWidth innerHeight : Q) (st : state) : state :=
  match container with
  | Some containerRect =>
      if isResizing st then
        let deltaX := JsFloat.sub fl (x client) (grip_x (resizeStart st)) in
        let deltaY := JsFloat.sub fl (y client) (grip_y (resizeStart st)) in
        let newWidth :=
          Qmax 350 (Qmin 800 (JsFloat.add fl (grip_width (resizeStart st)) deltaX)) in
        let newHeight :=
          Qmax 300 (Qmin 1000 (JsFloat.add fl (grip_height (resizeStart st)) deltaY)) in
        {| position := position st;
           size := {| width := Px newWidth; height := Px newHeight |};
           isDragging := isDragging st; isResizing := isResizing st;
           dragStart := dragStart st; resizeStart := resizeStart st |}
      else if isDragging st then
        let newX := JsFloat.sub fl (x client) (x (dragStart st)) in
        let newY := JsFloat.sub fl (y client) (y (dragStart st)) in
        let maxX := JsFloat.sub fl innerWidth (rect_width containerRect) in
        let maxY := JsFloat.sub fl innerHeight (rect_height containerRect) in
        {| position := {| x := Qmax 0 (Qmin maxX newX); y := Qmax 0 (Qmin maxY newY) |};
           size := size st;
           isDragging := isDragging st; isResizing := isResizing st;
           dragStart := dragStart st; resizeStart := resizeStart st |}
      else st
  | None => st
  end.

Definition handleMouseUp (st : state) : state :=
  {| position := position st; size := size st;
     isDragging := false; isResizing := false;
     dragStart := dragStart st; resizeStart := resizeStart st |}.

(** The document listeners exist only while dragging or resizing. *)
Definition step (st : state) (e : event) : state :=
  match e with
  | MouseDown t client container => handleMouseDown t client container st
  | MouseMove client container innerWidth innerHeight =>
      if isDragging st || isResizing st
      then handleMouseMove client container innerWidth innerHeight st
      else st
  | MouseUp => if isDragging st || isResizing st then handleMouseUp st else st
  end.

Definition run (st : state) (es : list event) : state := foldl step st es.

End WithFloat.

(** A size set by resizing: both lengths in pixels, within the limits. *)
Definition resized (s : size_t) : Prop :=
  ∃ w h, s = {| width := Px w; height := Px h |}
         ∧ (350 <= w)%Q ∧ (w <= 800)%Q ∧ (300 <= h)%Q ∧ (h <= 1000)%Q.

(** The sizes the panel is meant to have: the default one, or a resized one. *)
Definition wellSized (s : size_t) : Prop :=
  s = size initial ∨ resized s.

End DraggableSectionPanel.

(** ** InteractiveTrackMap: zooming and panning the map *)

Module InteractiveTrackMap.

Record point : Type := { x : Q; y : Q }.

Record state : Type := {
  scale : Q;
  pan : point;
  isDragging : bool;
  dragStart : point
}.

(** [useState(1)], [useState({ x: 0, y: 0 })], [useState(false)],
    [useState({ x: 0, y: 0 })] *)
Definition initial : state :=
  {| scale := 1; pan := {| x := 0; y := 0 |};
     isDragging := false; dragStart := {| x := 0; y := 0 |} |}.

(** [refs] holds the top left corners of the container and of the image
    when both refs are set. *)
Inductive event : Type :=
| Wheel (deltaY : Q) (client : point) (refs : option (point * point))
| MouseDown (button : Z) (client : point)
| MouseMove (client : point)
| MouseUp
| ZoomIn
| ZoomOut
| Reset.

Section WithFloat.

Variable fl : JsFloat.ops.

Definition handleWheel (deltaY : Q) (client : point) (refs : option (point * point))
    (st : state) : state :=
  let delta := if Qle_bool deltaY 0 then 11 # 10 else 9 # 10 in
  let newScale := Qmax (1 # 2) (Qmin 3 (JsFloat.mul fl (scale st) delta)) in
  {| scale := newScale;
     pan :=
       match refs with
       | Some (rect, imageRect) =>
           let mouseX := JsFloat.sub fl (x client) (x rect) in
           let mouseY := JsFloat.sub fl (y client) (y rect) in
           let imageX := JsFloat.sub fl mouseX (x imageRect) in
           let imageY := JsFloat.sub fl mouseY (y imageRect) in
           let scaleChange := JsFloat.div fl newScale (scale st) in
           {| x := JsFloat.sub fl (x (pan st))
                     (JsFloat.mul fl (JsFloat.sub fl imageX (x (pan st)))
                        (JsFloat.sub fl scaleChange 1));
              y := JsFloat.sub fl (y (pan st))
                     (JsFloat.mul fl (JsFloat.sub fl imageY (y (pan st)))
                        (JsFloat.sub fl scaleChange 1)) |}
       | None => pan st
       end;
     isDragging := isDragging st;
     dragStart := dragStart st |}.

(** [if (e.button !== 0) return;] *)
Definition handleMouseDown (button : Z) (client : point) (st : state) : state :=
  if button =? 0 then
    {| scale := scale st; pan := pan st; isDragging := true;
       dragStart := {| x := JsFloat.sub fl (x client) (x (pan st));
                       y := JsFloat.sub fl (y client) (y (pan st)) |} |}
  else st.

Definition handleMouseMove (client : point) (st : state) : state :=
  {| scale := scale st;
     pan := {| x := JsFloat.sub fl (x client) (x (dragStart st));
               y := JsFloat.sub fl (y client) (y (dragStart st)) |};
     isDragging := isDragging st; dragStart := dragStart st |}.

Definition handleMouseUp (st : state) : state :=
  {| scale := scale st; pan := pan st; isDragging := false; dragStart := dragStart st |}.

Definition handleReset (st : state) : state :=
  {| scale := 1; pan := {| x := 0; y := 0 |};
     isDragging := isDragging st; dragStart := dragStart st |}.

(** The "+" button: [setScale(Math.min(3, scale * 1.2))]. *)
Definition zoomIn (st : state) : state :=
  {| scale := Qmin 3 (JsFloat.mul fl (scale st) (12 # 10));
     pan := pan st; isDragging := isDragging st; dragStart := dragStart st |}.

(** The "-" button: [setScale(Math.max(0.5, scale * 0.8))]. *)
Definition zoomOut (st : state) : state :=
  {| scale := Qmax (1 # 2) (JsFloat.mul fl (scale st) (8 # 10));
     pan := pan st; isDragging := isDragging st; dragStart := dragStart st |}.

Definition step (st : state) (e : event) : state :=
  match e with
  | Wheel deltaY client refs => handleWheel deltaY client refs st
  | MouseDown button client => handleMouseDown button client st
  | MouseMove client => if isDragging st then handleMouseMove client st else st
  | MouseUp => if isDragging st then handleMouseUp st else st
  | ZoomIn => zoomIn st
  | ZoomOut => zoomOut st
  | Reset => handleReset st
  end.

Definition run (st : state) (es : list event) : state := foldl step st es.

End WithFloat.

(** The zoom range of the map. *)
Definition zoom_in_range (st : state) : Prop :=
  (1 # 2 <= scale st)%Q ∧ (scale st <= 3)%Q.

End InteractiveTrackMap.

(** ** TrackMap: the map drawn from [/api/tracks/:id/map-data]

    The markers and the labels of the sections are left out. *)

Module TrackMap.

Record map_section : Type := {
  name : string;
  path : option string;
  color : option string
}.

(** The body of [/map-data]; a key that is missing is [None]. *)
Record track_data : Type := {
  outline_path : option string;
  sections : option (list map_section);
  track_name : option string
}.

(** One section path as it is drawn. *)
Record drawn : Type := {
  drawn_name : string;
  isCurrent : bool;
  isHovered : bool;
  stroke : string;
  strokeWidth : string
}.

Inductive view : Type :=
| LoadingView
| ErrorView (message : string)
| SelectTrack
| NoMapData (title : string)
| Map (title : option string) (paths : list drawn) (marker : bool).

(** [trackId ? `/api/tracks/${trackId}/map-data` : null] *)
Definition endpointOf (trackId : option RaceSelector.value) : option RaceSelector.value :=
  RecommendationApi.given trackId.

(** [<ErrorMessage message={error} />]: [message || 'Could not load the
    requested data.'] *)
Definition ErrorMessage (message : option string) : string :=
  match DraggableRecommendationPanel.keep message with
  | Some m => m
  | None => "Could not load the requested data."
  end.

Definition draw (currentSectionName hoveredSectionName : option string)
    (s : map_section) : drawn :=
  let isCurrent_ := bool_decide (currentSectionName = Some (name s)) in
  let isHovered_ := bool_decide (hoveredSectionName = Some (name s)) in
  {| drawn_name := name s;
     isCurrent := isCurrent_;
     isHovered := isHovered_;
     stroke := match DraggableRecommendationPanel.keep (color s) with
               | Some c => c
               | None => "#555555"
               end;
     strokeWidth := if isCurrent_ || isHovered_ then "14" else "12" |}.

Definition render (api : UseApi.state track_data)
    (currentSectionName hoveredSectionName : option string) : view :=
  if UseApi.loading api then LoadingView
  else if DraggableRecommendationPanel.str_truthy (UseApi.error api)
  then ErrorView (ErrorMessage (UseApi.error api))
  else
    match UseApi.data api with
    | None => SelectTrack
    | Some trackData =>
        let sections_ := default [] (sections trackData) in
        let hasMapData :=
          DraggableRecommendationPanel.str_truthy (outline_path trackData)
          && negb (bool_decide (length sections_ = 0%nat)) in
        if negb hasMapData then
          NoMapData (match DraggableRecommendationPanel.keep (track_name trackData) with
                     | Some n => n
                     | None => "Track Map"
                     end)
        else
          Map (DraggableRecommendationPanel.keep (track_name trackData))
            (draw currentSectionName hoveredSectionName <$> sections_)
            (DraggableRecommendationPanel.str_truthy currentSectionName
             && bool_decide
                  (is_Some (List.find (λ s, bool_decide (Some (name s) = currentSectionName))
                              sections_)))
    end.

(** An empty result as the body of [/map-data] ([[]] or [{}]): none of
    the keys the component destructures is there. *)
Definition emptyBody : track_data :=
  {| outline_path := None; sections := None; track_name := None |}.

End TrackMap.

(** ** The percentages of the recommendation panel *)

Module PanelFigures.
Import DraggableRecommendationPanel.

(** What is expected of a figure block of the document [r]: a consistency
    score comes from a non-negative number, the confidence from the
    document's [confidence_score] when that is a number other than 0, the
    stray "0" in its place from a [confidence_score] of 0, a range
    under "Worst Lap" from two numbers other than 0, and a stray "0" in its
    place from a best or worst time of 0. *)
Definition percent_ok (r : recommendation_doc) (b : block) : Prop :=
  match b with
  | ConsistencyScore p => ∃ q, p = ToFixed 1 (Some (q * 100)%Q) ∧ (0 <= q)%Q
  | Confidence p =>
      ∃ q, confidence_score r = Stat q ∧ p = ToFixed 1 (Some (q * 100)%Q)
           ∧ ¬ (q == 0)%Q
  | StrayZero => ∃ q, confidence_score r = Stat q ∧ (q == 0)%Q
  | BestWorst _ _ _ _ (Element g) =>
      ∃ l h, g = ToFixed 3 (Some (h - l)%Q) ∧ ¬ (l == 0)%Q ∧ ¬ (h == 0)%Q
  | BestWorst best _ worst _ ZeroText =>
      ∃ q, (q == 0)%Q ∧ (best = ToFixed 3 (Some q) ∨ worst = ToFixed 3 (Some q))
  | _ => True
  end.

End PanelFigures.

(** ** useApi over the life of a component *)

Module UseApiRun.

(** One run of the hook's effect: with an endpoint the request is sent and
    ends with [resp]; without one ([None]) only the data is cleared. *)
Definition round {A : Type} (st : UseApi.state A) (r : option (UseApi.response A))
    : UseApi.state A :=
  match r with
  | Some resp => UseApi.fetch resp st
  | None => UseApi.noEndpoint st
  end.

Definition run {A : Type} (st : UseApi.state A) (rs : list (option (UseApi.response A)))
    : UseApi.state A :=
  foldl round st rs.

(** The requests that were sent, in order. *)
Definition sent {A : Type} (rs : list (option (UseApi.response A)))
    : list (UseApi.response A) :=
  omap id rs.

Definition failed {A : Type} (resp : UseApi.response A) : bool :=
  match resp with
  | UseApi.Failed _ => true
  | UseApi.Ok _ | UseApi.Cancelled => false
  end.

End UseApiRun.

(** ** InteractiveTrackMap and TrackMap (PDF image): loading the map image

    Both components ask axios for [/api/tracks/:id/map-data] when
    [trackId] changes and keep the body and the URL of the image in two
    state cells. *)

Module MapImage.

(** The body of [/map-data], as far as the two components read it. *)
Record map_data : Type := {
  rendering_method : option string;
  image_url : option string;
  track_name : option string
}.

(** How the request ends: with a body ([None] for a [null] body) or with
    a rejection. *)
Inductive outcome : Type :=
| Loaded (body : option map_data)
| Rejected.

(** The [trackData] and [imageUrl] cells. *)
Record state : Type := {
  trackData : option map_data;
  imageUrl : option string
}.

(** [useState(null)], [useState('')] *)
Definition initial : state := {| trackData := None; imageUrl := Some "" |}.

(** [response.data.rendering_method === 'pdf_image_direct' &&
    response.data.image_url] *)
Definition usesPdfImage (d : map_data) : bool :=
  bool_decide (rendering_method d = Some "pdf_image_direct")
  && DraggableRecommendationPanel.str_truthy (image_url d).

Section WithApiUrl.

(** The module constant [API_URL]. *)
Variable API_URL : string.

(** InteractiveTrackMap: the [then] and [catch] of its request.  On a
    [null] body [setTrackData(null)] has run when reading
    [response.data.rendering_method] throws, and the [catch] only logs. *)
Definition interactiveLoaded (o : outcome) (st : state) : state :=
  match o with
  | Loaded (Some d) =>
      {| trackData := Some d;
         imageUrl := if usesPdfImage d
                     then Some (API_URL +:+ default "" (image_url d))
                     else imageUrl st |}
  | Loaded None => {| trackData := None; imageUrl := imageUrl st |}
  | Rejected => st
  end.

(** TrackMap (PDF image): the same, with [setImageUrl(null)] in the
    [else] branch. *)
Definition pdfLoaded (o : outcome) (st : state) : state :=
  match o with
  | Loaded (Some d) =>
      {| trackData := Some d;
         imageUrl := if usesPdfImage d
                     then Some (API_URL +:+ default "" (image_url d))
                     else None |}
  | Loaded None => {| trackData := None; imageUrl := imageUrl st |}
  | Rejected => st
  end.

(** The effect on a change of [trackId]: [if (!trackId) return;], else
    the request, which ends with [o]. *)
Definition interactiveEffect (st : state) (e : option RaceSelector.value * outcome) : state :=
  match RecommendationApi.given e.1 with
  | Some _ => interactiveLoaded e.2 st
  | None => st
  end.

Definition pdfEffect (st : state) (e : option RaceSelector.value * outcome) : state :=
  match RecommendationApi.given e.1 with
  | Some _ => pdfLoaded e.2 st
  | None => st
  end.

End WithApiUrl.

(** The image is on screen unless [!imageUrl || !trackData], which gives
    the "Loading track map..." placeholder. *)
Definition shown (st : state) : bool :=
  DraggableRecommendationPanel.str_truthy (imageUrl st)
  && bool_decide (is_Some (trackData st)).

(** What both components return: the image once [imageUrl && trackData],
    else the "Loading track map..." placeholder. *)
Inductive view : Type :=
| Placeholder (text : string)
| Image (src alt : string).

Definition render (st : state) : view :=
  match DraggableRecommendationPanel.keep (imageUrl st), trackData st with
  | Some url, Some d =>
      Image url (default "Track Map" (DraggableRecommendationPanel.keep (track_name d)))
  | _, _ => Placeholder "Loading track map..."
  end.

(** An empty result as the body of [/map-data] ([[]] or [{}]): none of
    the keys the components read is there. *)
Definition emptyBody : map_data :=
  {| rendering_method := None; image_url := None; track_name := None |}.

End MapImage.

(** ** Sample data *)

(** A lap of three sections, used to run the state machines on. *)
Definition lap3 : list section :=
  [ {| section_id := Some 11; section_name := "S1"; driver_time_ms := Js.Num 34500;
       best_lap_time_ms := Js.Num 34400; best_possible_time_ms := Js.Num 34200;
       recommendation := None |};
    {| section_id := Some 12; section_name := "S2"; driver_time_ms := Js.Num 28700;
       best_lap_time_ms := Js.Num 28700; best_possible_time_ms := Js.Num 28700;
       recommendation := None |};
    {| section_id := Some 13; section_name := "S3"; driver_time_ms := Js.Num 32000;
       best_lap_time_ms := Js.Num 31900; best_possible_time_ms := Js.Num 31300;
       recommendation := None |} ].

(** The same lap when the second section has no recorded time, and when it
    is not listed at all. *)
Definition lap3_s2_empty : list section :=
  [ {| section_id := Some 11; section_name := "S1"; driver_time_ms := Js.Num 34500;
       best_lap_time_ms := Js.Num 34400; best_possible_time_ms := Js.Num 34200;
       recommendation := None |};
    {| section_id := Some 12; section_name := "S2"; driver_time_ms := Js.Null;
       best_lap_time_ms := Js.Null; best_possible_time_ms := Js.Null;
       recommendation := None |};
    {| section_id := Some 13; section_name := "S3"; driver_time_ms := Js.Num 32000;
       best_lap_time_ms := Js.Num 31900; best_possible_time_ms := Js.Num 31300;
       recommendation := None |} ].

Definition lap3_s2_absent : list section :=
  [ {| section_id := Some 11; section_name := "S1"; driver_time_ms := Js.Num 34500;
       best_lap_time_ms := Js.Num 34400; best_possible_time_ms := Js.Num 34200;
       recommendation := None |};
    {| section_id := Some 13; section_name := "S3"; driver_time_ms := Js.Num 32000;
       best_lap_time_ms := Js.Num 31900; best_possible_time_ms := Js.Num 31300;
       recommendation := None |} ].

(** The best case of the same race: one minimum per section. *)
Definition best3 : list best_case_section :=
  [ {| bc_section_name := "S1"; best_time_ms := Js.Num 34200 |};
    {| bc_section_name := "S2"; best_time_ms := Js.Num 28700 |};
    {| bc_section_name := "S3"; best_time_ms := Js.Num 31300 |} ].

(** The same best case when the second section has no recorded time, and
    when it is not listed at all. *)
Definition best3_s2_empty : list best_case_section :=
  [ {| bc_section_name := "S1"; best_time_ms := Js.Num 34200 |};
    {| bc_section_name := "S2"; best_time_ms := Js.Null |};
    {| bc_section_name := "S3"; best_time_ms := Js.Num 31300 |} ].

Definition best3_s2_absent : list best_case_section :=
  [ {| bc_section_name := "S1"; best_time_ms := Js.Num 34200 |};
    {| bc_section_name := "S3"; best_time_ms := Js.Num 31300 |} ].

(** A weather document with its narrative, and a pattern document. *)
Definition weather_doc : DraggableRecommendationPanel.recommendation_doc :=
  {| DraggableRecommendationPanel.recommendation_text :=
       Some "Lap times fell as the track warmed up.";
     DraggableRecommendationPanel.analysis_text := None;
     DraggableRecommendationPanel.structured_data :=
       Some {| DraggableRecommendationPanel.data_facts := None;
               DraggableRecommendationPanel.theories := None;
               DraggableRecommendationPanel.recommendations := None;
               DraggableRecommendationPanel.data_points :=
                 DraggableRecommendationPanel.Stat 412;
               DraggableRecommendationPanel.consistency_analysis := None;
               DraggableRecommendationPanel.own_stats :=
                 DraggableRecommendationPanel.no_stats |};
     DraggableRecommendationPanel.weather_summary :=
       Some {| DraggableRecommendationPanel.avg_air_temp_celsius :=
                 DraggableRecommendationPanel.Stat (47 # 2);
               DraggableRecommendationPanel.min_air_temp_celsius :=
                 DraggableRecommendationPanel.Stat 21;
               DraggableRecommendationPanel.max_air_temp_celsius :=
                 DraggableRecommendationPanel.Stat 26;
               DraggableRecommendationPanel.avg_track_temp_celsius :=
                 DraggableRecommendationPanel.StatUndefined;
               DraggableRecommendationPanel.avg_humidity_percent :=
                 DraggableRecommendationPanel.Stat 55;
               DraggableRecommendationPanel.avg_wind_speed :=
                 DraggableRecommendationPanel.StatUndefined;
               DraggableRecommendationPanel.max_wind_speed :=
                 DraggableRecommendationPanel.StatUndefined;
               DraggableRecommendationPanel.rain_detected := Some false |};
     DraggableRecommendationPanel.trends := None;
     DraggableRecommendationPanel.section_patterns := None;
     DraggableRecommendationPanel.confidence_score :=
       DraggableRecommendationPanel.StatUndefined |}.

(** A weather document served without narrative whose only aggregates are
    the track temperature and the number of data rows behind it; and the
    same document when the air temperature is known too. *)
Definition track_temp_doc : DraggableRecommendationPanel.recommendation_doc :=
  {| DraggableRecommendationPanel.recommendation_text := None;
     DraggableRecommendationPanel.analysis_text := None;
     DraggableRecommendationPanel.structured_data :=
       Some {| DraggableRecommendationPanel.data_facts := None;
               DraggableRecommendationPanel.theories := None;
               DraggableRecommendationPanel.recommendations := None;
               DraggableRecommendationPanel.data_points :=
                 DraggableRecommendationPanel.StatUndefined;
               DraggableRecommendationPanel.consistency_analysis := None;
               DraggableRecommendationPanel.own_stats :=
                 DraggableRecommendationPanel.no_stats |};
     DraggableRecommendationPanel.weather_summary :=
       Some {| DraggableRecommendationPanel.avg_air_temp_celsius :=
                 DraggableRecommendationPanel.StatUndefined;
               DraggableRecommendationPanel.min_air_temp_celsius :=
                 DraggableRecommendationPanel.StatUndefined;
               DraggableRecommendationPanel.max_air_temp_celsius :=
                 DraggableRecommendationPanel.StatUndefined;
               DraggableRecommendationPanel.avg_track_temp_celsius :=
                 DraggableRecommendationPanel.Stat 31;
               DraggableRecommendationPanel.avg_humidity_percent :=
                 DraggableRecommendationPanel.StatUndefined;
               DraggableRecommendationPanel.avg_wind_speed :=
                 DraggableRecommendationPanel.StatUndefined;
               DraggableRecommendationPanel.max_wind_speed :=
                 DraggableRecommendationPanel.Stat 12;
               DraggableRecommendationPanel.rain_detected := None |};
     DraggableRecommendationPanel.trends := None;
     DraggableRecommendationPanel.section_patterns := None;
     DraggableRecommendationPanel.confidence_score :=
       DraggableRecommendationPanel.StatUndefined |}.

(** The spec's worked example: drivers 1, 2 and 3 over two laps of
    "Section 1" (34.2 / 35.0, 34.5 / 34.8, 34.9 / 34.6 seconds), plus one
    record without a time. *)
Definition example_race : list Batch.SectionTime :=
  [ {| Batch.track := 7; Batch.race := 1; Batch.driver := 1; Batch.lap := 1;
       Batch.section_name := "Section 1"; Batch.elapsed_time := 34200 |};
    {| Batch.track := 7; Batch.race := 1; Batch.driver := 1; Batch.lap := 2;
       Batch.section_name := "Section 1"; Batch.elapsed_time := 35000 |};
    {| Batch.track := 7; Batch.race := 1; Batch.driver := 2; Batch.lap := 1;
       Batch.section_name := "Section 1"; Batch.elapsed_time := 34500 |};
    {| Batch.track := 7; Batch.race := 1; Batch.driver := 2; Batch.lap := 2;
       Batch.section_name := "Section 1"; Batch.elapsed_time := 34800 |};
    {| Batch.track := 7; Batch.race := 1; Batch.driver := 3; Batch.lap := 1;
       Batch.section_name := "Section 1"; Batch.elapsed_time := 34900 |};
    {| Batch.track := 7; Batch.race := 1; Batch.driver := 3; Batch.lap := 2;
       Batch.section_name := "Section 1"; Batch.elapsed_time := 34600 |};
    {| Batch.track := 7; Batch.race := 1; Batch.driver := 3; Batch.lap := 3;
       Batch.section_name := "Section 2"; Batch.elapsed_time := 0 |} ].

(** A record is a valid observation when it carries a positive time. *)
Definition has_time (r : Batch.SectionTime) : bool := 0 <? Batch.elapsed_time r.

(** [parseInt] on the track ids that occur in the examples. *)
Definition parseInt_sample (s : string) : option Z :=
  if String.eqb s "7" then Some 7 else None.

(** What the selector has fetched once track 7 and its first race are loaded. *)
Definition fetched_sample : RaceSelector.fetched :=
  {| RaceSelector.tracks :=
       Some [ {| RaceSelector.track_id := 7; RaceSelector.track_name := "VIR" |} ];
     RaceSelector.raceContext :=
       Some {| RaceSelector.ctx_track_name := None;
               RaceSelector.drivers :=
                 Some [ {| RaceSelector.driver_id := 42;
                           RaceSelector.laps :=
                             Some [ {| RaceSelector.lap_id := RaceSelector.VStr "3|42|5";
                                       RaceSelector.lap_number := 5 |} ] |} ] |} |}.

(** What the form reads while nothing is loading and track 7 has one race. *)
Definition ui_sample : RaceSelectorForm.ui :=
  {| RaceSelectorForm.races :=
       Some [ {| RaceSelectorForm.race_id := RaceSelector.VNum 3;
                 RaceSelectorForm.race_number := 1 |} ];
     RaceSelectorForm.tracksLoading := false;
     RaceSelectorForm.racesLoading := false;
     RaceSelectorForm.contextLoading := false |}.

(** Choosing track 7, its race, driver 42 and that driver's lap. *)
Definition session_sample : list (RaceSelectorForm.ui * RaceSelector.event) :=
  [ (ui_sample, RaceSelector.TrackChange (RaceSelector.VStr "7"));
    (ui_sample, RaceSelector.RaceChange (RaceSelector.VNum 3));
    (ui_sample, RaceSelector.DriverChange (RaceSelector.VNum 42));
    (ui_sample, RaceSelector.LapChange (RaceSelector.VStr "3|42|5")) ].

(** The container of the section panel at its default place. *)
Definition container_sample : DraggableSectionPanel.rect :=
  {| DraggableSectionPanel.left := 50; DraggableSectionPanel.top := 50;
     DraggableSectionPanel.rect_width := 450; DraggableSectionPanel.rect_height := 320 |}.

(** A map of two sections, loaded. *)
Definition map_sample : UseApi.state TrackMap.track_data :=
  {| UseApi.data :=
       Some {| TrackMap.outline_path := Some "M 0 0 L 10 10";
               TrackMap.sections :=
                 Some [ {| TrackMap.name := "S1"; TrackMap.path := Some "M 0 0 L 5 5";
                           TrackMap.color := Some "#ff0000" |};
                        {| TrackMap.name := "S2"; TrackMap.path := Some "M 5 5 L 10 10";
                           TrackMap.color := None |} ];
               TrackMap.track_name := Some "VIR" |};
     UseApi.loading := false;
     UseApi.error := None |}.

(** The payload of a coaching document: one empty slot, one recommendation
    with a focus only, and one without any content. *)
Definition coaching_sample : DraggableRecommendationPanel.structured_data_t :=
  {| DraggableRecommendationPanel.data_facts := None;
     DraggableRecommendationPanel.theories := None;
     DraggableRecommendationPanel.recommendations :=
       Some [ None;
              Some {| DraggableRecommendationPanel.priority :=
                        DraggableRecommendationPanel.Stat 1;
                      DraggableRecommendationPanel.focus := Some "Brake later into S2";
                      DraggableRecommendationPanel.action := None;
                      DraggableRecommendationPanel.data_evidence := None;
                      DraggableRecommendationPanel.theory := None |};
              Some {| DraggableRecommendationPanel.priority :=
                        DraggableRecommendationPanel.Stat 2;
                      DraggableRecommendationPanel.focus := None;
                      DraggableRecommendationPanel.action := Some "";
                      DraggableRecommendationPanel.data_evidence := None;
                      DraggableRecommendationPanel.theory := None |} ];
     DraggableRecommendationPanel.data_points := DraggableRecommendationPanel.StatUndefined;
     DraggableRecommendationPanel.consistency_analysis := None;
     DraggableRecommendationPanel.own_stats := DraggableRecommendationPanel.no_stats |}.

(** The statistics stored with [weather_doc]. *)
Definition weather_data_sample : DraggableRecommendationPanel.structured_data_t :=
  {| DraggableRecommendationPanel.data_facts := None;
     DraggableRecommendationPanel.theories := None;
     DraggableRecommendationPanel.recommendations := None;
     DraggableRecommendationPanel.data_points := DraggableRecommendationPanel.Stat 412;
     DraggableRecommendationPanel.consistency_analysis := None;
     DraggableRecommendationPanel.own_stats := DraggableRecommendationPanel.no_stats |}.

(* ===================================================================== *)
(** * Part II: theorems *)
(* ===================================================================== *)

(** Case analysis on membership in an explicit list of callbacks or blocks;
    closes the goal when every element is a different constructor. *)
Ltac elem_of_cases H :=
  repeat (apply elem_of_cons in H as [H|H]; [try discriminate|]);
  try (by apply elem_of_nil in H).

(** ** LapReview playback *)

Section PlaybackFacts.
Import LapReview.
Variable sections : list section.

Lemma findIndex_from_bounds {A : Type} (p : A → bool) (l : list A) (i : Z) :
  findIndex_from p l i = -1 ∨
  i <= findIndex_from p l i < i + Z.of_nat (length l).
Proof.
  revert i. induction l as [|x l IH]; intros i; simpl.
  - by left.
  - destruct (p x).
    + right. lia.
    + destruct (IH (i + 1)) as [->|H]; [by left|right; lia].
Qed.

Lemma step_in_range (st : playback) (a : action) :
  in_range sections st → in_range sections (step sections st a).
Proof.
  unfold in_range. intros Hst. destruct a as [|d|n| |]; simpl.
  - unfold handlePlayPause.
    destruct (len sections =? 0); [done|].
    destruct (isPlaying st); simpl; [done|].
    destruct (Z.leb_spec (len sections - 1) (currentSectionIndex st)); lia.
  - unfold handleStep; simpl.
    destruct (Z.leb_spec 0 (currentSectionIndex st + d));
      destruct (Z.ltb_spec (currentSectionIndex st + d) (len sections)); simpl; lia.
  - unfold handleSectionClick, findIndex.
    destruct (findIndex_from_bounds
                (λ s, String.eqb (section_name s) n) sections 0) as [->|H].
    + done.
    + destruct (Z.eqb_spec (findIndex_from
          (λ s, String.eqb (section_name s) n) sections 0) (-1)); simpl; [done|].
      unfold len. lia.
  - unfold tick.
    destruct (isPlaying st && (0 <? len sections)); [|done].
    destruct (Z.leb_spec (len sections - 1) (currentSectionIndex st)); simpl; lia.
  - lia.
Qed.

Lemma run_in_range (acts : list action) (st : playback) :
  in_range sections st → in_range sections (run sections acts st).
Proof.
  unfold run. revert st. induction acts as [|a acts IH]; intros st Hst; simpl.
  - done.
  - apply IH, step_in_range, Hst.
Qed.

Lemma ticks_while_paused (k : nat) (st : playback) :
  isPlaying st = false → run sections (replicate k Tick) st = st.
Proof.
  intros Hp. unfold run. induction k as [|k IH]; simpl; [done|].
  replace (tick sections st) with st; [done|].
  unfold tick. by rewrite Hp.
Qed.

(** Left alone, a running playback walks to the last section and stops there. *)
Lemma ticks_stop_at_the_end (k : nat) (st : playback) :
  in_range sections st → isPlaying st = true →
  len sections - 1 - currentSectionIndex st < Z.of_nat k →
  run sections (replicate k Tick) st
  = {| currentSectionIndex := len sections - 1; isPlaying := false |}.
Proof.
  revert st. induction k as [|k IH]; intros st Hst Hp Hk.
  - unfold in_range in Hst. lia.
  - change (run sections (replicate (S k) Tick) st)
      with (run sections (replicate k Tick) (tick sections st)).
    unfold in_range in Hst. unfold tick. rewrite Hp.
    destruct (Z.ltb_spec 0 (len sections)); [simpl|lia].
    destruct (Z.leb_spec (len sections - 1) (currentSectionIndex st)).
    + rewrite ticks_while_paused by done. f_equal. lia.
    + apply IH; [unfold in_range; simpl; lia|done|simpl; lia].
Qed.

End PlaybackFacts.

Example playback_runs_to_the_end :
  LapReview.run lap3 [LapReview.PlayPause; LapReview.Tick; LapReview.Tick; LapReview.Tick]
    LapReview.initial
  = {| LapReview.currentSectionIndex := 2; LapReview.isPlaying := false |}.
Proof. reflexivity. Qed.

Example playback_click_unknown_section :
  LapReview.run lap3 [LapReview.Step 1; LapReview.SectionClick "S9"] LapReview.initial
  = {| LapReview.currentSectionIndex := 1; LapReview.isPlaying := false |}.
Proof. reflexivity. Qed.

(** C9. In the LapReview playback, over a non-empty section list every
    sequence of play/pause, previous/next, section-click and timer-tick
    actions (and resets on a new selection) keeps the current section index
    between 0 and [sections.length - 1]; a running playback left to its
    timer ends at the last section with playback stopped; a tick at the last
    section stops playback and does not wrap (before the last section it
    advances by one and keeps playing); stepping past either end leaves the
    index unchanged; and pressing play while paused at the last section
    restarts from index 0. *)
Theorem playback_index_stays_in_range
    (sections : list section) (acts : list LapReview.action) (st : LapReview.playback) :
  sections ≠ [] →
  LapReview.in_range sections st →
  LapReview.in_range sections LapReview.initial
  ∧ LapReview.in_range sections (LapReview.run sections acts st)
  ∧ (LapReview.isPlaying st = true →
     LapReview.run sections
       (replicate (Z.to_nat (LapReview.len sections - LapReview.currentSectionIndex st))
          LapReview.Tick) st
     = {| LapReview.currentSectionIndex := LapReview.len sections - 1;
          LapReview.isPlaying := false |})
  ∧ (∀ s, LapReview.isPlaying s = true →
          LapReview.currentSectionIndex s = LapReview.len sections - 1 →
          LapReview.tick sections s
          = {| LapReview.currentSectionIndex := LapReview.len sections - 1;
               LapReview.isPlaying := false |})
  ∧ (∀ s, LapReview.isPlaying s = true →
          LapReview.currentSectionIndex s < LapReview.len sections - 1 →
          LapReview.tick sections s
          = {| LapReview.currentSectionIndex := LapReview.currentSectionIndex s + 1;
               LapReview.isPlaying := true |})
  ∧ (∀ s, LapReview.currentSectionIndex s = LapReview.len sections - 1 →
          LapReview.currentSectionIndex (LapReview.handleStep sections 1 s)
          = LapReview.len sections - 1)
  ∧ (∀ s, LapReview.currentSectionIndex s = 0 →
          LapReview.currentSectionIndex (LapReview.handleStep sections (-1) s) = 0)
  ∧ (∀ s, LapReview.isPlaying s = false →
          LapReview.currentSectionIndex s = LapReview.len sections - 1 →
          LapReview.handlePlayPause sections s
          = {| LapReview.currentSectionIndex := 0; LapReview.isPlaying := true |}).
Proof.
  intros Hne Hst.
  assert (Hlen : 0 < LapReview.len sections).
  { unfold LapReview.len. destruct sections; [done|simpl; lia]. }
  split_and!.
  - unfold LapReview.in_range; simpl. lia.
  - by apply run_in_range.
  - intros Hp. apply ticks_stop_at_the_end; [done|done|].
    unfold LapReview.in_range in Hst. lia.
  - intros s Hp Hi. unfold LapReview.tick. rewrite Hp.
    destruct (Z.ltb_spec 0 (LapReview.len sections)); [simpl|lia].
    destruct (Z.leb_spec (LapReview.len sections - 1) (LapReview.currentSectionIndex s));
      [by rewrite Hi|lia].
  - intros s Hp Hi. unfold LapReview.tick. rewrite Hp.
    destruct (Z.ltb_spec 0 (LapReview.len sections)); [simpl|lia].
    destruct (Z.leb_spec (LapReview.len sections - 1) (LapReview.currentSectionIndex s));
      [lia|done].
  - intros s Hi. unfold LapReview.handleStep; simpl. rewrite Hi.
    destruct (Z.ltb_spec (LapReview.len sections - 1 + 1) (LapReview.len sections));
      [lia|]. by rewrite andb_false_r.
  - intros s Hi. unfold LapReview.handleStep; simpl. by rewrite Hi.
  - intros s Hp Hi. unfold LapReview.handlePlayPause. rewrite Hp.
    destruct (Z.eqb_spec (LapReview.len sections) 0); [lia|].
    destruct (Z.leb_spec (LapReview.len sections - 1) (LapReview.currentSectionIndex s));
      [done|lia].
Qed.

Lemma playback_index_stays_in_range_witness :
  lap3 ≠ [] ∧ LapReview.in_range lap3 LapReview.initial
  ∧ LapReview.in_range lap3
      (LapReview.run lap3
         [LapReview.PlayPause; LapReview.Tick; LapReview.Tick; LapReview.Tick;
          LapReview.Step 1; LapReview.Step (-1); LapReview.SectionClick "S3";
          LapReview.PlayPause; LapReview.Tick; LapReview.SelectionChanged;
          LapReview.Step 1]
         LapReview.initial).
Proof.
  assert (H1 : lap3 ≠ []) by discriminate.
  assert (H2 : LapReview.in_range lap3 LapReview.initial)
    by (unfold LapReview.in_range, LapReview.len; simpl; lia).
  split; [exact H1|]. split; [exact H2|].
  exact (proj1 (proj2 (playback_index_stays_in_range lap3
    [LapReview.PlayPause; LapReview.Tick; LapReview.Tick; LapReview.Tick;
     LapReview.Step 1; LapReview.Step (-1); LapReview.SectionClick "S3";
     LapReview.PlayPause; LapReview.Tick; LapReview.SelectionChanged;
     LapReview.Step 1]
    LapReview.initial H1 H2))).
Defined.

(** ** RaceSelector *)

Section SelectorFacts.
Import RaceSelector.
Variable parseIntStr : string → option Z.

Lemma notifyTrackName_no_selection (name : option string) (s : option selection) :
  onSelectionChange s ∉ notifyTrackName name.
Proof.
  unfold notifyTrackName. intros H.
  destruct name as [n|]; [destruct (String.eqb n "")|]; elem_of_cases H.
Qed.

(** After a track or race change the effect has nothing to report. *)
Lemma effect_after_reset (d : fetched) (t r : value) :
  effect parseIntStr d
    {| selectedTrack := t; selectedRace := r; selectedDriver := empty;
       selectedLap := empty; isComposite := false |} = [].
Proof.
  unfold effect; simpl. by rewrite !andb_false_r.
Qed.

(** Whatever the effect reports mirrors the state cells, and they are filled in. *)
Lemma effect_complete (d : fetched) (st : state) (s : selection) :
  onSelectionChange (Some s) ∈ effect parseIntStr d st →
  complete s ∧ trackId s = selectedTrack st ∧ sel_isComposite s = isComposite st.
Proof.
  unfold effect.
  destruct (isComposite st) eqn:Hc; simpl.
  - destruct (truthy (selectedTrack st)) eqn:Ht; simpl.
    + rewrite elem_of_cons. intros [Heq|Hin].
      * injection Heq as ->. split; [left|]; simpl; auto.
      * by apply notifyTrackName_no_selection in Hin.
    + rewrite elem_of_nil. tauto.
  - destruct (truthy (selectedTrack st)) eqn:Ht; simpl;
      [|rewrite elem_of_nil; tauto].
    destruct (truthy (selectedRace st)) eqn:Hr; simpl;
      [|rewrite elem_of_nil; tauto].
    destruct (truthy (selectedDriver st)) eqn:Hd; simpl;
      [|rewrite elem_of_nil; tauto].
    destruct (truthy (selectedLap st)) eqn:Hl; simpl;
      [|rewrite elem_of_nil; tauto].
    rewrite elem_of_cons. intros [Heq|Hin].
    + injection Heq as ->. split; [right; simpl|simpl; auto].
      split_and!; [done|done|by eexists|by eexists|by eexists].
    + by apply notifyTrackName_no_selection in Hin.
Qed.

(** The handlers themselves only ever clear the parent's selection. *)
Lemma handle_only_clears (d : fetched) (e : event) (st : state) (s : selection) :
  onSelectionChange (Some s) ∉ (handle parseIntStr d e st).2.
Proof.
  destruct e as [v|v|v|v|d']; simpl.
  - rewrite elem_of_cons. intros [?|Hin]; [done|].
    destruct (truthy v).
    + rewrite elem_of_cons in Hin. destruct Hin as [?|Hin]; [done|].
      by apply notifyTrackName_no_selection in Hin.
    + elem_of_cases Hin.
  - intros H. elem_of_cases H.
  - unfold handleDriverChange. intros H. case_bool_decide; simpl in H; elem_of_cases H.
  - rewrite elem_of_nil. tauto.
  - rewrite elem_of_nil. tauto.
Qed.

Lemma step_complete (c : config) (e : event) (s : selection) :
  onSelectionChange (Some s) ∈ (step parseIntStr c e).2 → complete s.
Proof.
  unfold step.
  pose proof (handle_only_clears (data c) e (sel c) s) as Hh.
  destruct (handle parseIntStr (data c) e (sel c)) as [st' cbs]; simpl in *.
  rewrite elem_of_app. intros [Hin|Hin]; [done|].
  destruct (match e with DataArrived _ => true | _ => bool_decide (st' ≠ sel c) end).
  - by apply effect_complete in Hin as [? _].
  - by apply elem_of_nil in Hin.
Qed.

Lemma run_complete (es : list event) (c : config) (s : selection) :
  onSelectionChange (Some s) ∈ (run parseIntStr c es).2 → complete s.
Proof.
  revert c. induction es as [|e es IH]; intros c; simpl.
  - rewrite elem_of_nil. tauto.
  - pose proof (step_complete c e s) as Hs.
    destruct (step parseIntStr c e) as [c1 cbs1].
    specialize (IH c1).
    destruct (run parseIntStr c1 es) as [c2 cbs2]; simpl in *.
    rewrite elem_of_app. tauto.
Qed.

End SelectorFacts.

Example selector_mount_is_silent :
  (RaceSelector.mount parseInt_sample fetched_sample).2 = [].
Proof. reflexivity. Qed.

Example selector_full_selection :
  (RaceSelector.run parseInt_sample
     {| RaceSelector.data := fetched_sample; RaceSelector.sel := RaceSelector.initial |}
     [ RaceSelector.TrackChange (RaceSelector.VStr "7");
       RaceSelector.RaceChange (RaceSelector.VNum 3);
       RaceSelector.DriverChange (RaceSelector.VNum 42);
       RaceSelector.LapChange (RaceSelector.VStr "3|42|5") ]).2
  = [ RaceSelector.onSelectionChange None;
      RaceSelector.onTrackChange (Some (RaceSelector.VStr "7"));
      RaceSelector.onTrackNameChange "VIR";
      RaceSelector.onSelectionChange None;
      RaceSelector.onSelectionChange None;
      RaceSelector.onSelectionChange (Some
        {| RaceSelector.trackId := RaceSelector.VStr "7";
           RaceSelector.raceId := Some (RaceSelector.VNum 3);
           RaceSelector.driverId := Some (RaceSelector.VNum 42);
           RaceSelector.lapId := Some (RaceSelector.VStr "3|42|5");
           RaceSelector.lapNumber := Some 5;
           RaceSelector.sel_isComposite := false |});
      RaceSelector.onTrackNameChange "VIR" ].
Proof. by vm_compute. Qed.

Example selector_composite_then_track_change :
  (RaceSelector.run parseInt_sample
     {| RaceSelector.data := fetched_sample; RaceSelector.sel := RaceSelector.initial |}
     [ RaceSelector.TrackChange (RaceSelector.VStr "7");
       RaceSelector.DriverChange (RaceSelector.VStr "composite");
       RaceSelector.TrackChange (RaceSelector.VStr "") ]).2
  = [ RaceSelector.onSelectionChange None;
      RaceSelector.onTrackChange (Some (RaceSelector.VStr "7"));
      RaceSelector.onTrackNameChange "VIR";
      RaceSelector.onSelectionChange (Some
        {| RaceSelector.trackId := RaceSelector.VStr "7";
           RaceSelector.raceId := None;
           RaceSelector.driverId := None;
           RaceSelector.lapId := None;
           RaceSelector.lapNumber := None;
           RaceSelector.sel_isComposite := true |});
      RaceSelector.onTrackNameChange "VIR";
      RaceSelector.onSelectionChange None;
      RaceSelector.onTrackChange None;
      RaceSelector.onTrackNameChange "" ].
Proof. by vm_compute. Qed.

(** C10. In RaceSelector, changing the track sets race, driver and lap back
    to empty and the composite flag to false and the first thing the parent
    hears is a null selection (and no non-null one in that step); changing
    the race does the same for driver, lap and the composite flag and the
    parent hears exactly a null selection; and over any sequence of events,
    from any state, every non-null selection the parent receives is either
    the composite of a chosen track or has track, race, driver and lap all
    chosen. *)
Theorem selector_emits_only_complete_selections
    (parseIntStr : string → option Z) (c : RaceSelector.config)
    (v : RaceSelector.value) (es : list RaceSelector.event) :
  (RaceSelector.sel (RaceSelector.step parseIntStr c (RaceSelector.TrackChange v)).1
   = {| RaceSelector.selectedTrack := v;
        RaceSelector.selectedRace := RaceSelector.empty;
        RaceSelector.selectedDriver := RaceSelector.empty;
        RaceSelector.selectedLap := RaceSelector.empty;
        RaceSelector.isComposite := false |}
   ∧ head (RaceSelector.step parseIntStr c (RaceSelector.TrackChange v)).2
     = Some (RaceSelector.onSelectionChange None)
   ∧ ∀ s, RaceSelector.onSelectionChange (Some s)
          ∉ (RaceSelector.step parseIntStr c (RaceSelector.TrackChange v)).2)
  ∧ (RaceSelector.step parseIntStr c (RaceSelector.RaceChange v)
     = ({| RaceSelector.data := RaceSelector.data c;
           RaceSelector.sel :=
             {| RaceSelector.selectedTrack := RaceSelector.selectedTrack (RaceSelector.sel c);
                RaceSelector.selectedRace := v;
                RaceSelector.selectedDriver := RaceSelector.empty;
                RaceSelector.selectedLap := RaceSelector.empty;
                RaceSelector.isComposite := false |} |},
        [RaceSelector.onSelectionChange None]))
  ∧ (∀ s, RaceSelector.onSelectionChange (Some s) ∈ (RaceSelector.run parseIntStr c es).2 →
          RaceSelector.complete s).
Proof.
  split_and!.
  - done.
  - done.
  - intros s. unfold RaceSelector.step; simpl.
    rewrite effect_after_reset.
    replace (if bool_decide _ then [] else []) with (@nil RaceSelector.callback)
      by (by case_bool_decide).
    rewrite app_nil_r.
    apply (handle_only_clears parseIntStr (RaceSelector.data c)
             (RaceSelector.TrackChange v) (RaceSelector.sel c) s).
  - unfold RaceSelector.step; simpl. rewrite effect_after_reset.
    by case_bool_decide.
  - intros s. apply run_complete.
Qed.

Lemma selector_emits_only_complete_selections_witness :
  RaceSelector.complete
    {| RaceSelector.trackId := RaceSelector.VStr "7";
       RaceSelector.raceId := Some (RaceSelector.VNum 3);
       RaceSelector.driverId := Some (RaceSelector.VNum 42);
       RaceSelector.lapId := Some (RaceSelector.VStr "3|42|5");
       RaceSelector.lapNumber := Some 5;
       RaceSelector.sel_isComposite := false |}.
Proof.
  apply (proj2 (proj2 (selector_emits_only_complete_selections parseInt_sample
           {| RaceSelector.data := fetched_sample; RaceSelector.sel := RaceSelector.initial |}
           (RaceSelector.VStr "7")
           [ RaceSelector.TrackChange (RaceSelector.VStr "7");
             RaceSelector.RaceChange (RaceSelector.VNum 3);
             RaceSelector.DriverChange (RaceSelector.VNum 42);
             RaceSelector.LapChange (RaceSelector.VStr "3|42|5") ]))).
  vm_compute. do 5 apply list_elem_of_further. apply list_elem_of_here.
Defined.

(** ** Section and lap totals *)

Section TotalsFacts.
Context {A : Type}.
Variable f : A → Js.num.

(** A [reduce] that adds [x || 0] is the sum of the numeric values. *)
Lemma foldl_or_zero (l : list A) (acc : Z) :
  foldl (λ sum x, sum + Js.or_zero (f x)) acc l
  = acc + sumZ (Js.or_zero ∘ f <$> l).
Proof.
  revert acc. induction l as [|x l IH]; intros acc.
  - unfold sumZ; simpl. lia.
  - rewrite fmap_cons. cbn [foldl]. rewrite IH. unfold sumZ. cbn [foldr].
    change ((Js.or_zero ∘ f) x) with (Js.or_zero (f x)). lia.
Qed.

Lemma sumZ_all_numbers (l : list A) (vs : list Z) :
  f <$> l = Js.Num <$> vs → sumZ (Js.or_zero ∘ f <$> l) = sumZ vs.
Proof.
  revert vs. induction l as [|x l IH]; intros [|v vs] Heq; try done.
  rewrite !fmap_cons in Heq. injection Heq as Hx Hl.
  rewrite fmap_cons. unfold sumZ in *. cbn [foldr].
  change ((Js.or_zero ∘ f) x) with (Js.or_zero (f x)).
  by rewrite Hx, (IH vs Hl).
Qed.

(** Entries without a number add nothing. *)
Lemma sumZ_filter_isNum (l : list A) :
  sumZ (Js.or_zero ∘ f <$> filter (λ x, Js.isNum (f x) = true) l)
  = sumZ (Js.or_zero ∘ f <$> l).
Proof.
  induction l as [|x l IH]; [done|].
  rewrite filter_cons. destruct (decide (Js.isNum (f x) = true)) as [Hn|Hn].
  - rewrite !fmap_cons. unfold sumZ in *. cbn [foldr]. by rewrite IH.
  - rewrite IH, fmap_cons. unfold sumZ. cbn [foldr].
    change ((Js.or_zero ∘ f) x) with (Js.or_zero (f x)).
    destruct (f x); simpl in *; try done; lia.
Qed.

End TotalsFacts.

(** *** How times and gaps are printed *)

Lemma string_length_app (s1 s2 : string) :
  String.length (s1 +:+ s2) = (String.length s1 + String.length s2)%nat.
Proof. induction s1 as [|c s1 IH]; simpl; [done|by rewrite IH]. Qed.

Lemma string_app_assoc (s1 s2 s3 : string) :
  (s1 +:+ s2) +:+ s3 = s1 +:+ (s2 +:+ s3).
Proof.
  induction s1 as [|c s1 IH]; [done|].
  change (String c ((s1 +:+ s2) +:+ s3) = String c (s1 +:+ s2 +:+ s3)).
  by rewrite IH.
Qed.

(** Two strings that end in tails of the same length are equal only if
    the tails are, and what precedes them. *)
Lemma string_app_inj_tail (s1 s2 t1 t2 : string) :
  String.length t1 = String.length t2 →
  s1 +:+ t1 = s2 +:+ t2 → s1 = s2 ∧ t1 = t2.
Proof.
  intros Hlen. revert s2. induction s1 as [|c s1 IH]; intros [|c2 s2] Heq;
    change (String ?c ?s +:+ ?t) with (String c (s +:+ t)) in Heq;
    change ("" +:+ ?t) with t in Heq.
  - done.
  - exfalso. apply (f_equal String.length) in Heq. simpl in Heq.
    rewrite string_length_app in Heq. lia.
  - exfalso. apply (f_equal String.length) in Heq. simpl in Heq.
    rewrite string_length_app in Heq. lia.
  - injection Heq as -> Heq. destruct (IH s2 Heq) as [-> ->]. done.
Qed.

Lemma pad3_length (n : Z) : 0 <= n < 1000 → String.length (Js.pad3 n) = 3%nat.
Proof.
  intros Hn.
  assert (Hall : Forall (λ k, String.length (Js.pad3 k) = 3%nat) (seqZ 0 1000)).
  { apply (bool_decide_unpack _). by vm_compute. }
  rewrite Forall_forall in Hall. apply Hall, elem_of_seqZ. lia.
Qed.

Lemma pad3_inj (n m : Z) :
  0 <= n < 1000 → 0 <= m < 1000 → Js.pad3 n = Js.pad3 m → n = m.
Proof.
  intros Hn Hm Heq.
  assert (Hnodup : NoDup (Js.pad3 <$> seqZ 0 1000)).
  { apply (bool_decide_unpack _). by vm_compute. }
  assert (Hlook : ∀ k, 0 <= k < 1000 →
            (Js.pad3 <$> seqZ 0 1000) !! Z.to_nat k = Some (Js.pad3 k)).
  { intros k Hk. rewrite list_lookup_fmap, lookup_seqZ_lt by lia.
    simpl. f_equal. f_equal. lia. }
  pose proof (proj1 (NoDup_alt _) Hnodup (Z.to_nat n) (Z.to_nat m) (Js.pad3 n)
                (Hlook n Hn)) as Hij.
  rewrite Heq in Hij. specialize (Hij (Hlook m Hm)). lia.
Qed.

(** The decimal numeral of a number that is not negative carries no sign. *)
Lemma pretty_nonneg_no_dash (q : Z) (s : string) : 0 <= q → pretty q ≠ "-" +:+ s.
Proof.
  intros Hq. destruct q as [|p|p]; [done| |lia].
  unfold pretty, pretty_Z, pretty, pretty_positive, pretty, pretty_N.
  case_decide; [done|]. by apply pretty_N_go_ne_dash.
Qed.

Lemma seconds_length (n : Z) :
  0 <= n < 60 →
  String.length (pretty n) = 1%nat ∨ String.length (pretty n) = 2%nat.
Proof.
  intros Hn.
  assert (Hall : Forall (λ k, String.length (pretty k) = 1%nat
                              ∨ String.length (pretty k) = 2%nat) (seqZ 0 60)).
  { apply (bool_decide_unpack _). by vm_compute. }
  rewrite Forall_forall in Hall. apply Hall, elem_of_seqZ. lia.
Qed.

Lemma toFixed3_length_under_a_minute (r : Z) :
  0 <= r < 60000 →
  String.length (Js.toFixed3 r) = 5%nat ∨ String.length (Js.toFixed3 r) = 6%nat.
Proof.
  intros Hr. unfold Js.toFixed3.
  destruct (Z.ltb_spec r 0); [lia|]. rewrite Z.abs_eq by lia.
  rewrite !string_length_app, pad3_length by (apply Z.mod_pos_bound; lia). simpl.
  destruct (seconds_length (r / 1000)) as [->| ->]; [|lia|lia].
  split; [apply Z.div_pos; lia|apply Z.div_lt_upper_bound; lia].
Qed.

Lemma toFixed3_negative (v : Z) :
  v < 0 → Js.toFixed3 v = "-" +:+ Js.toFixed3 (- v).
Proof.
  intros Hv. unfold Js.toFixed3.
  destruct (Z.ltb_spec v 0); [|lia]. destruct (Z.ltb_spec (- v) 0); [lia|].
  by rewrite Z.abs_opp.
Qed.

(** Different times are printed differently: the printed text determines
    the number of milliseconds. *)
Lemma toFixed3_inj (g g' : Z) : Js.toFixed3 g = Js.toFixed3 g' → g = g'.
Proof.
  unfold Js.toFixed3. intros Heq.
  assert (Hr : ∀ x, 0 <= Z.abs x mod 1000 < 1000) by (intros x; apply Z.mod_pos_bound; lia).
  rewrite <- !(string_app_assoc _ (pretty _)) in Heq.
  apply string_app_inj_tail in Heq as [Hhead Htail];
    [|by rewrite !string_length_app, !pad3_length by apply Hr].
  injection Htail as Htail. apply pad3_inj in Htail; [|apply Hr..].
  assert (Habs : Z.abs g / 1000 = Z.abs g' / 1000 → Z.abs g = Z.abs g').
  { intros Hdiv. rewrite (Z.div_mod (Z.abs g) 1000), (Z.div_mod (Z.abs g') 1000) by lia.
    by rewrite Hdiv, Htail. }
  destruct (Z.ltb_spec g 0), (Z.ltb_spec g' 0); simpl in Hhead.
  - injection Hhead as Hhead. specialize (Habs (inj pretty _ _ Hhead)). lia.
  - symmetry in Hhead. apply pretty_nonneg_no_dash in Hhead; [done|].
    apply Z.div_pos; lia.
  - apply pretty_nonneg_no_dash in Hhead; [done|]. apply Z.div_pos; lia.
  - specialize (Habs (inj pretty _ _ Hhead)). lia.
Qed.

(** What [<Gap/>] shows for a number of milliseconds. *)
Lemma Gap_cases (v : Z) :
  (0 < v → SectionPanel.Gap (Js.Num v)
           = SectionPanel.GapValue "gap-positive" ("+" +:+ Js.toFixed3 v))
  ∧ (v < 0 → SectionPanel.Gap (Js.Num v)
             = SectionPanel.GapValue "gap-negative" ("-" +:+ Js.toFixed3 (- v)))
  ∧ (v = 0 → SectionPanel.Gap (Js.Num v) = SectionPanel.GapValue "" "0.000").
Proof.
  unfold SectionPanel.Gap, SectionPanel.formatTime. simpl. split_and!.
  - intros Hv. by destruct (Z.ltb_spec 0 v); [|lia].
  - intros Hv. destruct (Z.ltb_spec 0 v); [lia|]. destruct (Z.ltb_spec v 0); [|lia].
    by rewrite toFixed3_negative.
  - by intros ->.
Qed.

Lemma Gap_inj (v w : Z) :
  SectionPanel.Gap (Js.Num v) = SectionPanel.Gap (Js.Num w) → v = w.
Proof.
  unfold SectionPanel.Gap, SectionPanel.formatTime. simpl.
  destruct (Z.ltb_spec 0 v), (Z.ltb_spec 0 w);
    destruct (Z.ltb_spec v 0), (Z.ltb_spec w 0); try lia;
    intros Heq; try discriminate Heq;
    injection Heq as Heq; by apply toFixed3_inj.
Qed.

(** What [formatGap] shows for a number of milliseconds. *)
Lemma formatGap_cases (v : Z) :
  (0 < v → TotalLapTimeComparison.formatGap (Js.Num v)
           = TotalLapTimeComparison.GapValue "gap-positive" ("+" +:+ Js.toFixed3 v))
  ∧ (v < 0 → TotalLapTimeComparison.formatGap (Js.Num v)
             = TotalLapTimeComparison.GapValue "gap-negative" ("-" +:+ Js.toFixed3 (- v)))
  ∧ (v = 0 → TotalLapTimeComparison.formatGap (Js.Num v)
             = TotalLapTimeComparison.GapValue "" "0.000").
Proof.
  unfold TotalLapTimeComparison.formatGap. simpl. split_and!.
  - intros Hv. by destruct (Z.ltb_spec 0 v); [|lia].
  - intros Hv. destruct (Z.ltb_spec 0 v); [lia|]. destruct (Z.ltb_spec v 0); [|lia].
    by rewrite toFixed3_negative.
  - by intros ->.
Qed.

Lemma formatGap_inj (v w : Z) :
  TotalLapTimeComparison.formatGap (Js.Num v) = TotalLapTimeComparison.formatGap (Js.Num w) →
  v = w.
Proof.
  unfold TotalLapTimeComparison.formatGap. simpl.
  destruct (Z.ltb_spec 0 v), (Z.ltb_spec 0 w);
    destruct (Z.ltb_spec v 0), (Z.ltb_spec w 0); try lia;
    intros Heq; try discriminate Heq;
    injection Heq as Heq; by apply toFixed3_inj.
Qed.

(** With best-case sections loaded, the composite total is their sum. *)
Lemma optimalTotalTime_best_case
    (sections : list section) (bestCaseSections : list best_case_section) :
  bestCaseSections ≠ [] →
  TotalLapTimeComparison.optimalTotalTime sections bestCaseSections false
  = sumZ (Js.or_zero ∘ best_time_ms <$> bestCaseSections).
Proof.
  intros Hne. unfold TotalLapTimeComparison.optimalTotalTime.
  destruct bestCaseSections as [|x l]; [done|].
  replace (0 <? Z.of_nat (length (x :: l))) with true
    by (symmetry; apply Z.ltb_lt; simpl; lia).
  by rewrite foldl_or_zero.
Qed.

Example toFixed3_samples :
  Js.toFixed3 0 = "0.000" ∧ Js.toFixed3 450 = "0.450" ∧ Js.toFixed3 (-5) = "-0.005"
  ∧ Js.toFixed3 34200 = "34.200".
Proof. by vm_compute. Qed.

Example section_panel_s1 :
  SectionPanel.render (lap3 !! 0%nat) false 0 None
  = SectionPanel.LapPanel "S1"
      [ {| SectionPanel.time_label := "Current Lap:";
           SectionPanel.time_value := "34.500";
           SectionPanel.row_gap := SectionPanel.GapDash |};
        {| SectionPanel.time_label := "My Best (S1):";
           SectionPanel.time_value := "34.400";
           SectionPanel.row_gap := SectionPanel.GapValue "gap-positive" "+0.100" |};
        {| SectionPanel.time_label := "Optimal (All Drivers):";
           SectionPanel.time_value := "34.200";
           SectionPanel.row_gap := SectionPanel.GapValue "gap-positive" "+0.300" |} ].
Proof. by vm_compute. Qed.

Example total_lap_comparison_lap3 :
  TotalLapTimeComparison.render lap3 best3 false
  = Some {| TotalLapTimeComparison.driverTotal := "1:35.200";
            TotalLapTimeComparison.optimalTotal := "1:34.200";
            TotalLapTimeComparison.gap :=
              TotalLapTimeComparison.GapValue "gap-positive" "+1.000" |}.
Proof. by vm_compute. Qed.

(** C2. The gap reported for a section is the driver's section time minus
    the composite's time of that section.  The third row of the section
    panel, "Optimal (All Drivers):", shows the composite's time and, next to
    it, the difference [d - b]: with "+" and the class [gap-positive] when
    the driver is slower, with "-" and [gap-negative] when faster, and as
    "0.000" with no sign and no class when the two times are equal; the
    printed gap determines the difference, so no other difference is shown
    the same way.  The lap comparison does the same with the sum of the
    driver's section times and the sum of the composite's section minimums:
    it shows both totals and their difference, exactly 0 when they are
    equal, and shows nothing only when both totals are 0. *)
Theorem reported_gap_is_driver_minus_composite
    (s : section) (d b : Z) (totalDrivers : Z) (compositeType : option string)
    (sections : list section) (bestCaseSections : list best_case_section) :
  driver_time_ms s = Js.Num d →
  best_possible_time_ms s = Js.Num b →
  (∃ r1 r2 g,
     SectionPanel.render (Some s) false totalDrivers compositeType
     = SectionPanel.LapPanel (section_name s)
         [ r1; r2;
           {| SectionPanel.time_label := "Optimal (All Drivers):";
              SectionPanel.time_value := Js.toFixed3 b;
              SectionPanel.row_gap := g |} ]
     ∧ (b < d → g = SectionPanel.GapValue "gap-positive" ("+" +:+ Js.toFixed3 (d - b)))
     ∧ (d < b → g = SectionPanel.GapValue "gap-negative" ("-" +:+ Js.toFixed3 (b - d)))
     ∧ (d = b → g = SectionPanel.GapValue "" "0.000")
     ∧ (∀ v, SectionPanel.Gap (Js.Num v) = g → v = d - b))
  ∧ (∀ ds bs,
       driver_time_ms <$> sections = Js.Num <$> ds →
       best_time_ms <$> bestCaseSections = Js.Num <$> bs →
       bestCaseSections ≠ [] →
       (sumZ ds = 0 ∧ sumZ bs = 0 →
        TotalLapTimeComparison.render sections bestCaseSections false = None)
       ∧ (¬ (sumZ ds = 0 ∧ sumZ bs = 0) →
          ∃ g,
            TotalLapTimeComparison.render sections bestCaseSections false
            = Some {| TotalLapTimeComparison.driverTotal :=
                        TotalLapTimeComparison.formatTime (sumZ ds);
                      TotalLapTimeComparison.optimalTotal :=
                        TotalLapTimeComparison.formatTime (sumZ bs);
                      TotalLapTimeComparison.gap := g |}
            ∧ (sumZ bs < sumZ ds →
               g = TotalLapTimeComparison.GapValue "gap-positive"
                     ("+" +:+ Js.toFixed3 (sumZ ds - sumZ bs)))
            ∧ (sumZ ds < sumZ bs →
               g = TotalLapTimeComparison.GapValue "gap-negative"
                     ("-" +:+ Js.toFixed3 (sumZ bs - sumZ ds)))
            ∧ (sumZ ds = sumZ bs → g = TotalLapTimeComparison.GapValue "" "0.000")
            ∧ (∀ v, TotalLapTimeComparison.formatGap (Js.Num v) = g →
                    v = sumZ ds - sumZ bs))).
Proof.
  intros Hd Hb. split.
  - exists {| SectionPanel.time_label := "Current Lap:";
              SectionPanel.time_value := Js.toFixed3 d;
              SectionPanel.row_gap := SectionPanel.GapDash |},
           {| SectionPanel.time_label := "My Best (" +:+ section_name s +:+ "):";
              SectionPanel.time_value := SectionPanel.formatTime (best_lap_time_ms s);
              SectionPanel.row_gap :=
                SectionPanel.Gap (Js.sub (Js.Num d) (best_lap_time_ms s)) |},
           (SectionPanel.Gap (Js.Num (d - b))).
    destruct (Gap_cases (d - b)) as (Hpos & Hneg & Hzero).
    split_and!.
    + unfold SectionPanel.render. by rewrite Hd, Hb.
    + intros Hlt. apply Hpos. lia.
    + intros Hlt. rewrite Hneg by lia. by replace (- (d - b)) with (b - d) by lia.
    + intros Heq. apply Hzero. lia.
    + intros v. apply Gap_inj.
  - intros ds bs Hds Hbs Hne.
    assert (HD : TotalLapTimeComparison.driverTotalTime sections = sumZ ds).
    { unfold TotalLapTimeComparison.driverTotalTime.
      rewrite foldl_or_zero. simpl. by apply sumZ_all_numbers. }
    assert (HO : TotalLapTimeComparison.optimalTotalTime sections bestCaseSections false
                 = sumZ bs).
    { rewrite optimalTotalTime_best_case by done. by apply sumZ_all_numbers. }
    unfold TotalLapTimeComparison.render, TotalLapTimeComparison.timeGap.
    rewrite HD, HO. split.
    + intros [-> ->]. done.
    + intros Hnz.
      destruct (Z.eqb_spec (sumZ ds) 0) as [H0|H0];
        destruct (Z.eqb_spec (sumZ bs) 0) as [H1|H1]; try (exfalso; by apply Hnz);
        cbn [andb];
        (exists (TotalLapTimeComparison.formatGap (Js.Num (sumZ ds - sumZ bs)));
         destruct (formatGap_cases (sumZ ds - sumZ bs)) as (Hpos & Hneg & Hzero);
         split_and!;
         [ done
         | intros Hlt; apply Hpos; lia
         | intros Hlt; rewrite Hneg by lia;
           by replace (- (sumZ ds - sumZ bs)) with (sumZ bs - sumZ ds) by lia
         | intros Heq; apply Hzero; lia
         | intros v; apply formatGap_inj ]).
Qed.

Lemma reported_gap_is_driver_minus_composite_witness :
  (∃ r1 r2 g,
     SectionPanel.render
       (Some {| section_id := Some 11; section_name := "S1";
                driver_time_ms := Js.Num 34500; best_lap_time_ms := Js.Num 34400;
                best_possible_time_ms := Js.Num 34200; recommendation := None |})
       false 0 None
     = SectionPanel.LapPanel "S1"
         [ r1; r2;
           {| SectionPanel.time_label := "Optimal (All Drivers):";
              SectionPanel.time_value := Js.toFixed3 34200;
              SectionPanel.row_gap := g |} ]
     ∧ g = SectionPanel.GapValue "gap-positive" ("+" +:+ Js.toFixed3 (34500 - 34200)))
  ∧ (∃ g,
       TotalLapTimeComparison.render lap3 best3 false
       = Some {| TotalLapTimeComparison.driverTotal :=
                   TotalLapTimeComparison.formatTime (sumZ [34500; 28700; 32000]);
                 TotalLapTimeComparison.optimalTotal :=
                   TotalLapTimeComparison.formatTime (sumZ [34200; 28700; 31300]);
                 TotalLapTimeComparison.gap := g |}
       ∧ g = TotalLapTimeComparison.GapValue "gap-positive"
               ("+" +:+ Js.toFixed3 (sumZ [34500; 28700; 32000] - sumZ [34200; 28700; 31300]))).
Proof.
  destruct (reported_gap_is_driver_minus_composite
    {| section_id := Some 11; section_name := "S1";
       driver_time_ms := Js.Num 34500; best_lap_time_ms := Js.Num 34400;
       best_possible_time_ms := Js.Num 34200; recommendation := None |}
    34500 34200 0 None lap3 best3 eq_refl eq_refl) as [Hsec Hlap].
  split.
  - destruct Hsec as (r1 & r2 & g & Hrender & Hpos & _).
    exists r1, r2, g. split; [exact Hrender|]. apply Hpos. lia.
  - destruct (Hlap [34500; 28700; 32000] [34200; 28700; 31300]) as [_ Hshown];
      [reflexivity|reflexivity|discriminate|].
    destruct Hshown as (g & Hrender & Hpos & _).
    + intros [H0 _]. vm_compute in H0. discriminate H0.
    + exists g. split; [exact Hrender|]. apply Hpos. vm_compute. reflexivity.
Defined.

(** C3. The composite total lap time is the sum of the per-section composite
    minimums: of the best-case sections when they are loaded, of the
    composite's own section times when the composite is on screen, and of
    the sections' best possible times otherwise. *)
Theorem composite_total_is_sum_of_section_minimums
    (sections : list section) (bestCaseSections : list best_case_section) :
  (bestCaseSections ≠ [] →
   TotalLapTimeComparison.optimalTotalTime sections bestCaseSections false
   = sumZ (Js.or_zero ∘ best_time_ms <$> bestCaseSections))
  ∧ (∀ mins, bestCaseSections ≠ [] →
       best_time_ms <$> bestCaseSections = Js.Num <$> mins →
       TotalLapTimeComparison.optimalTotalTime sections bestCaseSections false = sumZ mins)
  ∧ TotalLapTimeComparison.optimalTotalTime sections bestCaseSections true
    = sumZ (Js.or_zero ∘ driver_time_ms <$> sections)
  ∧ (∀ mins, driver_time_ms <$> sections = Js.Num <$> mins →
       TotalLapTimeComparison.optimalTotalTime sections bestCaseSections true = sumZ mins)
  ∧ TotalLapTimeComparison.optimalTotalTime sections [] false
    = sumZ (Js.or_zero ∘ best_possible_time_ms <$> sections)
  ∧ (∀ mins, best_possible_time_ms <$> sections = Js.Num <$> mins →
       TotalLapTimeComparison.optimalTotalTime sections [] false = sumZ mins).
Proof.
  pose proof (optimalTotalTime_best_case sections bestCaseSections)
    as Hbc.
  split_and!.
  - exact Hbc.
  - intros mins Hne Hnum. rewrite (Hbc Hne). by apply sumZ_all_numbers.
  - unfold TotalLapTimeComparison.optimalTotalTime. by rewrite foldl_or_zero.
  - intros mins Hnum. unfold TotalLapTimeComparison.optimalTotalTime.
    rewrite foldl_or_zero. simpl. by apply sumZ_all_numbers.
  - unfold TotalLapTimeComparison.optimalTotalTime. simpl. by rewrite foldl_or_zero.
  - intros mins Hnum. unfold TotalLapTimeComparison.optimalTotalTime. simpl.
    rewrite foldl_or_zero. simpl. by apply sumZ_all_numbers.
Qed.

Lemma composite_total_is_sum_of_section_minimums_witness :
  TotalLapTimeComparison.optimalTotalTime lap3 best3 false = sumZ [34200; 28700; 31300].
Proof.
  apply (proj1 (proj2 (composite_total_is_sum_of_section_minimums lap3 best3))
           [34200; 28700; 31300]).
  - discriminate.
  - reflexivity.
Defined.

Example composite_total_best3 :
  TotalLapTimeComparison.optimalTotalTime lap3 best3 false = 34200 + 28700 + 31300.
Proof. reflexivity. Qed.

Example total_lap_comparison_empty_section :
  TotalLapTimeComparison.render lap3_s2_empty best3_s2_empty false
  = Some {| TotalLapTimeComparison.driverTotal := "1:06.500";
            TotalLapTimeComparison.optimalTotal := "1:05.500";
            TotalLapTimeComparison.gap :=
              TotalLapTimeComparison.GapValue "gap-positive" "+1.000" |}
  ∧ TotalLapTimeComparison.render lap3_s2_absent best3_s2_absent false
    = TotalLapTimeComparison.render lap3_s2_empty best3_s2_empty false.
Proof. by vm_compute. Qed.

(** ** Recommendation panel *)

Section PanelFacts.
Import DraggableRecommendationPanel.



(** The pattern blocks never read the narrative, and none of them is one. *)
Lemma patternBlocks_withNarrative (t a : option string) (r : recommendation_doc)
    (data : structured_data_t) :
  patternBlocks (withNarrative t a r) data = patternBlocks r data.
Proof. reflexivity. Qed.








End PanelFacts.

Example weather_panel_with_narrative :
  DraggableRecommendationPanel.documentBlocks DraggableRecommendationPanel.TWeather None
    weather_doc
  = [ DraggableRecommendationPanel.Chip "Weather Analysis" "secondary";
      DraggableRecommendationPanel.WeatherNarrative "Lap times fell as the track warmed up.";
      DraggableRecommendationPanel.WeatherConditions
        [ DraggableRecommendationPanel.AirTemperature
            (DraggableRecommendationPanel.ToFixed 1 (Some (47 # 2)))
            (Some (DraggableRecommendationPanel.ToFixed 1 (Some 21%Q),
                   DraggableRecommendationPanel.ToFixed 1 (Some 26%Q)));
          DraggableRecommendationPanel.Humidity
            (DraggableRecommendationPanel.ToFixed 1 (Some 55%Q));
          DraggableRecommendationPanel.NoRain ];
      DraggableRecommendationPanel.DataPoints
        (DraggableRecommendationPanel.AsString (DraggableRecommendationPanel.Stat 412)) ].
Proof. reflexivity. Qed.

Example weather_panel_without_narrative :
  DraggableRecommendationPanel.documentBlocks DraggableRecommendationPanel.TWeather None
    (DraggableRecommendationPanel.withoutNarrative DraggableRecommendationPanel.TWeather
       weather_doc)
  = [ DraggableRecommendationPanel.Chip "Weather Analysis" "secondary";
      DraggableRecommendationPanel.WeatherConditions
        [ DraggableRecommendationPanel.AirTemperature
            (DraggableRecommendationPanel.ToFixed 1 (Some (47 # 2)))
            (Some (DraggableRecommendationPanel.ToFixed 1 (Some 21%Q),
                   DraggableRecommendationPanel.ToFixed 1 (Some 26%Q)));
          DraggableRecommendationPanel.Humidity
            (DraggableRecommendationPanel.ToFixed 1 (Some 55%Q));
          DraggableRecommendationPanel.NoRain ];
      DraggableRecommendationPanel.DataPoints
        (DraggableRecommendationPanel.AsString (DraggableRecommendationPanel.Stat 412)) ].
Proof. reflexivity. Qed.

(** *** The figures that are served *)

Section ServedFacts.
Import DraggableRecommendationPanel.






End ServedFacts.

Example weather_panel_track_temperature_only :
  DraggableRecommendationPanel.documentBlocks DraggableRecommendationPanel.TWeather None
    track_temp_doc
  = [ DraggableRecommendationPanel.Chip "Weather Analysis" "secondary" ].
Proof. reflexivity. Qed.




(** *** What a document renders to *)

Lemma failed_fetch_error_truthy {A : Type} (detail : option string) (st : UseApi.state A) :
  DraggableRecommendationPanel.str_truthy (UseApi.error (UseApi.fetch (UseApi.Failed detail) st))
  = true.
Proof.
  simpl. destruct detail as [d|]; [|done].
  destruct (String.eqb_spec d "") as [->|Hd]; [done|].
  simpl. by destruct (String.eqb_spec d "").
Qed.

Section DocumentBlocksFacts.
Import DraggableRecommendationPanel.

Lemma Forall_when {A : Type} (P : A → Prop) (c : bool) (x : A) :
  P x → Forall P (when c x).
Proof. intros Hx. unfold when. destruct c; [by constructor|constructor]. Qed.

Lemma weatherBlocks_no_request_block (r : recommendation_doc) (data : structured_data_t) :
  Forall (λ b, LapReviewData.requestBlock b = false) (weatherBlocks r data).
Proof.
  unfold weatherBlocks. cbv zeta. repeat (apply Forall_app; split).
  - destruct (weatherNarrativeShown r); by repeat constructor.
  - by apply Forall_when.
  - by apply Forall_when.
Qed.

Lemma patternBlocks_no_request_block (r : recommendation_doc) (data : structured_data_t) :
  Forall (λ b, LapReviewData.requestBlock b = false) (patternBlocks r data).
Proof.
  unfold patternBlocks. cbv zeta. repeat (apply Forall_app; split);
    try (by apply Forall_when).
  unfold scoreBlock.
  destruct (if defined _ then _ else _); [|constructor|constructor].
  by apply Forall_when.
Qed.

Lemma coachingBlocks_no_request_block (sectionName : option string)
    (data : structured_data_t) :
  Forall (λ b, LapReviewData.requestBlock b = false) (coachingBlocks sectionName data).
Proof.
  unfold coachingBlocks. repeat (apply Forall_app; split).
  - destruct (data_facts data); by repeat constructor.
  - destruct (theories data); by repeat constructor.
  - destruct (recommendations data) as [recs|]; [|constructor].
    destruct (List.filter validRecommendation recs); by repeat constructor.
Qed.

(** Nothing a document renders to can be mistaken for the state of the
    request. *)
Lemma documentBlocks_no_request_block (ty : rtype) (sectionName : option string)
    (r : recommendation_doc) :
  Forall (λ b, LapReviewData.requestBlock b = false) (documentBlocks ty sectionName r).
Proof.
  unfold documentBlocks. repeat (apply Forall_app; split).
  - repeat constructor. by destruct ty.
  - destruct ty, (structured_data r); try constructor.
    apply coachingBlocks_no_request_block.
  - destruct ty; by repeat constructor.
  - destruct ty, (structured_data r); try constructor.
    + apply weatherBlocks_no_request_block.
    + apply patternBlocks_no_request_block.
  - unfold guard_stat. destruct (confidence_score r) as [q| |]; try constructor.
    destruct (Qeq_bool q 0); by repeat constructor.
Qed.

End DocumentBlocksFacts.

(** ** Reading an entity that does not exist *)

Example weather_of_race_3_is_served :
  DraggableRecommendationPanel.render (Some DraggableRecommendationPanel.TWeather) None
    (UseApi.fetch (UseApi.Ok (DraggableRecommendationPanel.Documents [weather_doc]))
       UseApi.initial)
  = Some {| DraggableRecommendationPanel.title := "Weather Impact Analysis";
            DraggableRecommendationPanel.blocks :=
              DraggableRecommendationPanel.documentBlocks
                DraggableRecommendationPanel.TWeather None weather_doc |}.
Proof. reflexivity. Qed.





(** ** Best-case composite *)

Section CompositeFacts.
Import Batch.
Variable valid : SectionTime → bool.

Lemma composite_snoc (records : list SectionTime) (r : SectionTime) :
  composite valid (records ++ [r]) = observe valid (composite valid records) r.
Proof. unfold composite. by rewrite foldl_app. Qed.

(** The builder's invariant: each entry is the minimum of the valid records
    of its section seen so far, and a section without an entry has had no
    valid record. *)
Lemma composite_spec (records : list SectionTime) (s : string) :
  match composite valid records !! s with
  | Some b => is_minimum_of valid records s b
  | None => ∀ r, r ∈ records → valid r = true → section_name r ≠ s
  end.
Proof.
  induction records as [|r records IH] using rev_ind.
  - unfold composite; simpl. rewrite lookup_empty. intros r Hr.
    by apply elem_of_nil in Hr.
  - rewrite composite_snoc. unfold observe.
    destruct (valid r) eqn:Hv.
    + destruct (decide (section_name r = s)) as [Hs|Hs].
      * (* the new record belongs to section [s] *)
        rewrite Hs.
        destruct (composite valid records !! s) as [b|] eqn:Hb.
        -- destruct IH as [Hmin (r0 & Hin0 & Hv0 & Hs0 & Ht0 & Hd0 & Hl0)].
           destruct (Z.ltb_spec (elapsed_time r) (min_time b)) as [Hlt|Hge].
           ++ rewrite lookup_insert_eq. split; simpl.
              ** intros r' Hr' Hv' Hs'. apply elem_of_app in Hr' as [Hr'|Hr'].
                 --- specialize (Hmin r' Hr' Hv' Hs'). lia.
                 --- apply list_elem_of_singleton in Hr'. subst r'. lia.
              ** exists r. rewrite elem_of_app, list_elem_of_singleton. auto 10.
           ++ rewrite Hb. split.
              ** intros r' Hr' Hv' Hs'. apply elem_of_app in Hr' as [Hr'|Hr'].
                 --- by apply Hmin.
                 --- apply list_elem_of_singleton in Hr'. by subst r'.
              ** exists r0. rewrite elem_of_app. auto 10.
        -- rewrite lookup_insert_eq. split; simpl.
           ++ intros r' Hr' Hv' Hs'. apply elem_of_app in Hr' as [Hr'|Hr'].
              ** by destruct (IH r' Hr' Hv').
              ** apply list_elem_of_singleton in Hr'. subst r'. lia.
           ++ exists r. rewrite elem_of_app, list_elem_of_singleton. auto 10.
      * (* it belongs to another section: the entry of [s] is untouched *)
        assert (Hsame : ∀ m', (match composite valid records !! section_name r with
                    | Some b => if elapsed_time r <? min_time b
                                then <[section_name r := m']> (composite valid records)
                                else composite valid records
                    | None => <[section_name r := m']> (composite valid records)
                    end) !! s = composite valid records !! s).
        { intros m'. destruct (composite valid records !! section_name r) as [b|];
            [destruct (elapsed_time r <? min_time b)|]; by rewrite ?lookup_insert_ne. }
        rewrite Hsame.
        destruct (composite valid records !! s) as [b|].
        -- destruct IH as [Hmin (r0 & Hin0 & Hrest)]. split.
           ++ intros r' Hr' Hv' Hs'. apply elem_of_app in Hr' as [Hr'|Hr'].
              ** by apply Hmin.
              ** apply list_elem_of_singleton in Hr'. by subst r'.
           ++ exists r0. rewrite elem_of_app. auto.
        -- intros r' Hr' Hv'. apply elem_of_app in Hr' as [Hr'|Hr'].
           ++ by apply IH.
           ++ apply list_elem_of_singleton in Hr'. by subst r'.
    + (* an invalid record changes nothing *)
      destruct (composite valid records !! s) as [b|].
      * destruct IH as [Hmin (r0 & Hin0 & Hrest)]. split.
        -- intros r' Hr' Hv' Hs'. apply elem_of_app in Hr' as [Hr'|Hr'].
           ++ by apply Hmin.
           ++ apply list_elem_of_singleton in Hr'. subst r'. congruence.
        -- exists r0. rewrite elem_of_app. auto.
      * intros r' Hr' Hv'. apply elem_of_app in Hr' as [Hr'|Hr'].
        -- by apply IH.
        -- apply list_elem_of_singleton in Hr'. subst r'. congruence.
Qed.

End CompositeFacts.

Example composite_of_example_race :
  Batch.composite has_time (Batch.race_records (7, 1) example_race) !! "Section 1"
  = Some {| Batch.min_time := 34200; Batch.by_driver := 1; Batch.on_lap := 1 |}
  ∧ Batch.composite has_time (Batch.race_records (7, 1) example_race) !! "Section 2" = None.
Proof. by vm_compute. Qed.

(** C1. For every race and every section name with at least one valid
    recorded observation in that race, the best-case composite has an entry
    for the section; its time is the minimum elapsed time among all valid
    records of that section (all drivers, all laps), and its (driver, lap)
    is that of a record which achieved this minimum. *)
Theorem composite_is_minimum_per_section
    (valid : Batch.SectionTime → bool) (raw : list Batch.SectionTime)
    (k : Z * Z) (s : string) :
  (∃ r, r ∈ Batch.race_records k raw ∧ valid r = true ∧ Batch.section_name r = s) →
  ∃ b, Batch.composite valid (Batch.race_records k raw) !! s = Some b
       ∧ Batch.is_minimum_of valid (Batch.race_records k raw) s b.
Proof.
  intros (r & Hin & Hv & Hs).
  pose proof (composite_spec valid (Batch.race_records k raw) s) as Hspec.
  destruct (Batch.composite valid (Batch.race_records k raw) !! s) as [b|].
  - by exists b.
  - by destruct (Hspec r Hin Hv).
Qed.

Lemma composite_is_minimum_per_section_witness :
  ∃ b, Batch.composite has_time (Batch.race_records (7, 1) example_race) !! "Section 1" = Some b
       ∧ Batch.is_minimum_of has_time (Batch.race_records (7, 1) example_race) "Section 1" b.
Proof.
  apply (composite_is_minimum_per_section has_time example_race (7, 1) "Section 1").
  exists {| Batch.track := 7; Batch.race := 1; Batch.driver := 2; Batch.lap := 1;
            Batch.section_name := "Section 1"; Batch.elapsed_time := 34500 |}.
  split; [|split; reflexivity].
  vm_compute. do 2 apply list_elem_of_further. apply list_elem_of_here.
Defined.

(** *** Sections without a valid observation *)


Section PartialFacts.
Import Batch.
Variable valid : SectionTime → bool.






End PartialFacts.

Example build_example_race :
  Batch.build has_time ["Section 1"; "Section 2"] (Batch.race_records (7, 1) example_race)
  = {| Batch.minima :=
         {[ "Section 1" :=
              {| Batch.min_time := 34200; Batch.by_driver := 1; Batch.on_lap := 1 |} ]};
       Batch.flagged := ["Section 2"];
       Batch.partial := true |}.
Proof. by vm_compute. Qed.

Example gaps_example_race :
  Batch.gap_ms <$> Batch.gaps has_time (Batch.race_records (7, 1) example_race)
  = [0; 800; 300; 600; 700; 400].
Proof. by vm_compute. Qed.




(* ===================================================================== *)
(** * Part III: further properties of the components *)
(* ===================================================================== *)

(** ** Playback controls and the current section *)

Section PlaybackViewFacts.
Import LapReview LapReviewView.
Variable sections : list section.

Lemma findIndex_from_found {A : Type} (p : A → bool) (l : list A) (i : Z) :
  findIndex_from p l i ≠ -1 → 0 <= i →
  ∃ x, l !! Z.to_nat (findIndex_from p l i - i) = Some x ∧ p x = true
       ∧ ∀ j y, (j < Z.to_nat (findIndex_from p l i - i))%nat → l !! j = Some y → p y = false.
Proof.
  revert i. induction l as [|x l IH]; intros i Hne Hi; simpl in *; [done|].
  destruct (p x) eqn:Hp.
  - exists x. rewrite Z.sub_diag. simpl. split_and!; [done|done|]. intros j y Hj. lia.
  - destruct (IH (i + 1) Hne ltac:(lia)) as (y & Hy & Hpy & Hfirst).
    pose proof (findIndex_from_bounds p l (i + 1)) as [?|Hb]; [done|].
    replace (Z.to_nat (findIndex_from p l (i + 1) - i))
      with (S (Z.to_nat (findIndex_from p l (i + 1) - (i + 1)))) by lia.
    exists y. split_and!; [done|done|].
    intros [|j] z Hj Hz; simpl in Hz.
    + by injection Hz as <-.
    + apply (Hfirst j z); [lia|done].
Qed.

Lemma findIndex_from_none {A : Type} (p : A → bool) (l : list A) (i : Z) :
  0 <= i → (findIndex_from p l i = -1 ↔ ∀ x, x ∈ l → p x = false).
Proof.
  revert i. induction l as [|x l IH]; intros i Hi; simpl.
  - split; [|done]. intros _ x Hx. by apply elem_of_nil in Hx.
  - destruct (p x) eqn:Hp.
    + split; [lia|]. intros Hall. rewrite (Hall x) in Hp by apply list_elem_of_here. done.
    + rewrite (IH (i + 1)) by lia. split.
      * intros Hall y Hy. apply elem_of_cons in Hy as [->|Hy]; [done|by apply Hall].
      * intros Hall y Hy. apply Hall. by apply list_elem_of_further.
Qed.

Lemma currentSection_in_range (st : playback) :
  in_range sections st → is_Some (currentSection sections st).
Proof.
  unfold in_range, currentSection, len. intros Hst.
  destruct (Z.ltb_spec (currentSectionIndex st) 0); [lia|].
  apply lookup_lt_is_Some. lia.
Qed.

End PlaybackViewFacts.

(** X1. For a playback state within the section list, the Next button is
    disabled exactly when [handleStep(1)] would leave the index where it
    is, and enabled exactly when it moves the index forward by one; the
    same holds for Previous and [handleStep(-1)]. *)
Theorem playback_buttons_match_steps (sections : list section) (st : LapReview.playback) :
  LapReview.in_range sections st →
  (PlaybackControls.nextDisabled (LapReviewView.controls sections st) = true
   ↔ LapReview.currentSectionIndex (LapReview.handleStep sections 1 st)
     = LapReview.currentSectionIndex st)
  ∧ (PlaybackControls.nextDisabled (LapReviewView.controls sections st) = false
     ↔ LapReview.currentSectionIndex (LapReview.handleStep sections 1 st)
       = LapReview.currentSectionIndex st + 1)
  ∧ (PlaybackControls.previousDisabled (LapReviewView.controls sections st) = true
     ↔ LapReview.currentSectionIndex (LapReview.handleStep sections (-1) st)
       = LapReview.currentSectionIndex st)
  ∧ (PlaybackControls.previousDisabled (LapReviewView.controls sections st) = false
     ↔ LapReview.currentSectionIndex (LapReview.handleStep sections (-1) st)
       = LapReview.currentSectionIndex st - 1).
Proof.
  unfold LapReview.in_range, LapReviewView.controls, PlaybackControls.render,
    LapReview.handleStep; simpl. intros Hst.
  destruct (Z.leb_spec (LapReview.len sections - 1) (LapReview.currentSectionIndex st));
    destruct (Z.eqb_spec (LapReview.currentSectionIndex st) 0);
    destruct (Z.leb_spec 0 (LapReview.currentSectionIndex st + 1));
    destruct (Z.ltb_spec (LapReview.currentSectionIndex st + 1) (LapReview.len sections));
    destruct (Z.leb_spec 0 (LapReview.currentSectionIndex st + -1));
    destruct (Z.ltb_spec (LapReview.currentSectionIndex st + -1) (LapReview.len sections));
    simpl; split_and!; split; intros; try done; lia.
Qed.

Lemma playback_buttons_match_steps_witness :
  PlaybackControls.nextDisabled
    (LapReviewView.controls lap3
       {| LapReview.currentSectionIndex := 2; LapReview.isPlaying := false |}) = true
  ↔ LapReview.currentSectionIndex
      (LapReview.handleStep lap3 1
         {| LapReview.currentSectionIndex := 2; LapReview.isPlaying := false |})
    = 2.
Proof.
  apply (playback_buttons_match_steps lap3
           {| LapReview.currentSectionIndex := 2; LapReview.isPlaying := false |}).
  unfold LapReview.in_range, LapReview.len; simpl; lia.
Defined.

Lemma session_in_range (evs : list LapReviewView.event) (fresh : bool)
    (c : LapReviewView.screen) :
  LapReview.in_range (LapReviewView.held c) (LapReviewView.playback_of c) →
  (fresh = true → LapReview.currentSectionIndex (LapReviewView.playback_of c) = 0) →
  LapReviewView.prompt fresh evs = true →
  LapReview.in_range (LapReviewView.held (LapReviewView.session c evs))
    (LapReviewView.playback_of (LapReviewView.session c evs)).
Proof.
  revert fresh c. induction evs as [|e evs IH]; intros fresh c Hc Hfresh Hp; [done|].
  destruct e as [a|l]; cbn [LapReviewView.prompt] in Hp.
  - apply (IH (match a with LapReview.SelectionChanged => true | _ => false end));
      [| |done].
    + by apply step_in_range.
    + by destruct a.
  - apply andb_true_iff in Hp as [Hp Hrest]. apply andb_true_iff in Hp as [Hf Hl].
    apply (IH false); [|done|done].
    cbn [LapReviewView.sessionStep LapReviewView.held LapReviewView.playback_of].
    unfold LapReview.in_range, LapReview.len. rewrite (Hfresh Hf).
    destruct l; [done|]. simpl. lia.
Qed.

(** The index is left pointing outside the list when the sections of a new
    selection arrive late: with the three sections of the old lap still on
    screen, the user steps to the third after the reset; the new lap's two
    sections then leave [sections[2]] undefined. *)
Example late_sections_leave_no_current_section :
  LapReviewView.currentSection
    (LapReviewView.held
       (LapReviewView.session
          {| LapReviewView.held := lap3; LapReviewView.playback_of := LapReview.initial |}
          [ LapReviewView.Did LapReview.SelectionChanged;
            LapReviewView.Did (LapReview.Step 1); LapReviewView.Did (LapReview.Step 1);
            LapReviewView.SectionsReplaced lap3_s2_absent ]))
    (LapReviewView.playback_of
       (LapReviewView.session
          {| LapReviewView.held := lap3; LapReviewView.playback_of := LapReview.initial |}
          [ LapReviewView.Did LapReview.SelectionChanged;
            LapReviewView.Did (LapReview.Step 1); LapReviewView.Did (LapReview.Step 1);
            LapReviewView.SectionsReplaced lap3_s2_absent ]))
  = None.
Proof. reflexivity. Qed.

(** X2. As long as every new section list has at least one section and
    arrives right after the reset that its selection caused, before the
    user or the timer has acted again, the index points at a section of the
    list on screen: starting within the list, after every such sequence of
    play/pause, steps, section clicks, timer ticks, selection changes and
    replacements of the list, [sections[currentSectionIndex]] is defined and
    the counter reads [k / n] with [1 <= k <= n].  (When the sections of a
    new selection arrive only after further steps, the index can be left
    outside the new list.) *)
Theorem current_section_always_defined
    (c : LapReviewView.screen) (evs : list LapReviewView.event) :
  let c' := LapReviewView.session c evs in
  LapReview.in_range (LapReviewView.held c) (LapReviewView.playback_of c) →
  LapReviewView.prompt false evs = true →
  is_Some (LapReviewView.currentSection (LapReviewView.held c')
             (LapReviewView.playback_of c'))
  ∧ ∃ k, PlaybackControls.counter
           (LapReviewView.controls (LapReviewView.held c') (LapReviewView.playback_of c'))
         = pretty k +:+ " / " +:+ pretty (LapReview.len (LapReviewView.held c'))
         ∧ 1 <= k <= LapReview.len (LapReviewView.held c').
Proof.
  intros c' Hc Hp.
  assert (Hrun : LapReview.in_range (LapReviewView.held c') (LapReviewView.playback_of c')).
  { by apply (session_in_range evs false). }
  split; [by apply currentSection_in_range|].
  exists (LapReview.currentSectionIndex (LapReviewView.playback_of c') + 1).
  unfold LapReview.in_range in Hrun.
  unfold LapReviewView.controls, PlaybackControls.render; simpl.
  destruct (Z.ltb_spec 0 (LapReview.len (LapReviewView.held c'))); [|lia].
  split; [done|lia].
Qed.

Lemma current_section_always_defined_witness :
  is_Some
    (LapReviewView.currentSection
       (LapReviewView.held
          (LapReviewView.session
             {| LapReviewView.held := lap3; LapReviewView.playback_of := LapReview.initial |}
             [ LapReviewView.Did LapReview.PlayPause; LapReviewView.Did LapReview.Tick;
               LapReviewView.Did (LapReview.Step 1);
               LapReviewView.Did LapReview.SelectionChanged;
               LapReviewView.SectionsReplaced lap3_s2_absent;
               LapReviewView.Did (LapReview.Step 1) ]))
       (LapReviewView.playback_of
          (LapReviewView.session
             {| LapReviewView.held := lap3; LapReviewView.playback_of := LapReview.initial |}
             [ LapReviewView.Did LapReview.PlayPause; LapReviewView.Did LapReview.Tick;
               LapReviewView.Did (LapReview.Step 1);
               LapReviewView.Did LapReview.SelectionChanged;
               LapReviewView.SectionsReplaced lap3_s2_absent;
               LapReviewView.Did (LapReview.Step 1) ]))).
Proof.
  apply (current_section_always_defined
           {| LapReviewView.held := lap3; LapReviewView.playback_of := LapReview.initial |}
           [ LapReviewView.Did LapReview.PlayPause; LapReviewView.Did LapReview.Tick;
             LapReviewView.Did (LapReview.Step 1);
             LapReviewView.Did LapReview.SelectionChanged;
             LapReviewView.SectionsReplaced lap3_s2_absent;
             LapReviewView.Did (LapReview.Step 1) ]).
  - unfold LapReview.in_range, LapReview.len; simpl; lia.
  - reflexivity.
Defined.

(** X3. A click on a section of the map makes the first section of the lap
    with that name the current one and pauses playback; a click on a name
    the lap does not have changes nothing. *)
Theorem section_click_selects_named_section
    (sections : list section) (sectionName : string) (st : LapReview.playback) :
  ((∃ s, s ∈ sections ∧ section_name s = sectionName) →
   ∃ s, LapReviewView.currentSection sections
          (LapReview.handleSectionClick sections sectionName st) = Some s
        ∧ section_name s = sectionName
        ∧ LapReview.isPlaying (LapReview.handleSectionClick sections sectionName st) = false
        ∧ ∀ j s', (Z.of_nat j < LapReview.currentSectionIndex
                                  (LapReview.handleSectionClick sections sectionName st)) →
                  sections !! j = Some s' → section_name s' ≠ sectionName)
  ∧ ((∀ s, s ∈ sections → section_name s ≠ sectionName) →
     LapReview.handleSectionClick sections sectionName st = st).
Proof.
  unfold LapReview.handleSectionClick, LapReview.findIndex.
  set (p := λ s : section, String.eqb (section_name s) sectionName).
  split.
  - intros (s0 & Hin & Hname).
    assert (Hne : LapReview.findIndex_from p sections 0 ≠ -1).
    { intros Hnone.
      pose proof (proj1 (findIndex_from_none p sections 0 ltac:(lia)) Hnone s0 Hin) as Hp.
      unfold p in Hp. apply String.eqb_neq in Hp. done. }
    destruct (findIndex_from_found p sections 0 Hne ltac:(lia)) as (x & Hx & Hpx & Hfirst).
    pose proof (findIndex_from_bounds p sections 0) as [?|Hb]; [done|].
    destruct (Z.eqb_spec (LapReview.findIndex_from p sections 0) (-1)); [done|].
    exists x. unfold LapReviewView.currentSection; simpl.
    destruct (Z.ltb_spec (LapReview.findIndex_from p sections 0) 0); [lia|].
    rewrite Z.sub_0_r in Hx, Hfirst.
    split_and!; [done|by apply String.eqb_eq|done|].
    intros j s' Hj Hs'. specialize (Hfirst j s' ltac:(lia) Hs').
    by apply String.eqb_neq.
  - intros Hall.
    assert (Hnone : LapReview.findIndex_from p sections 0 = -1).
    { apply (proj2 (findIndex_from_none p sections 0 ltac:(lia))).
      intros s Hs. apply String.eqb_neq. by apply Hall. }
    by rewrite Hnone.
Qed.

Lemma section_click_selects_named_section_witness :
  ∃ s, LapReviewView.currentSection lap3
         (LapReview.handleSectionClick lap3 "S3" LapReview.initial) = Some s
       ∧ section_name s = "S3".
Proof.
  destruct (proj1 (section_click_selects_named_section lap3 "S3" LapReview.initial))
    as (s & Hs & Hn & _).
  - exists {| section_id := Some 13; section_name := "S3"; driver_time_ms := Js.Num 32000;
              best_lap_time_ms := Js.Num 31900; best_possible_time_ms := Js.Num 31300;
              recommendation := None |}.
    split; [|reflexivity].
    do 2 apply list_elem_of_further. apply list_elem_of_here.
  - by exists s.
Defined.

(** ** The best-case dictionary *)

Section BestCaseDictFacts.
Import LapReviewView.

Lemma bestCaseDict_snoc (l : list best_case_section) (s : best_case_section) :
  bestCaseDict (l ++ [s]) = assign (bestCaseDict l) s.
Proof. unfold bestCaseDict. by rewrite foldl_app. Qed.

(** The own properties: the last section of each name other than
    ["__proto__"]. *)
Lemma bestCaseDict_own (l : list best_case_section) (n : string) :
  own (bestCaseDict l) !! n
  = if String.eqb n "__proto__" then None
    else last (filter (λ s, bc_section_name s = n) l).
Proof.
  induction l as [|s l IH] using rev_ind.
  - simpl. rewrite lookup_empty. by destruct (String.eqb n "__proto__").
  - rewrite bestCaseDict_snoc, filter_app, filter_cons, filter_nil. unfold assign.
    destruct (String.eqb_spec (bc_section_name s) "__proto__") as [Hp|Hp]; simpl.
    + rewrite IH. destruct (String.eqb_spec n "__proto__") as [Hn|Hn]; [done|].
      destruct (decide (bc_section_name s = n)) as [Hs|Hs]; [congruence|].
      by rewrite app_nil_r.
    + destruct (decide (bc_section_name s = n)) as [Hs|Hs].
      * rewrite Hs, lookup_insert_eq, last_snoc.
        by destruct (String.eqb_spec n "__proto__") as [Hn|Hn]; [congruence|].
      * rewrite lookup_insert_ne by done. by rewrite IH, app_nil_r.
Qed.

(** The prototype: the last section named ["__proto__"], if any. *)
Lemma bestCaseDict_proto (l : list best_case_section) :
  proto (bestCaseDict l) = last (filter (λ s, bc_section_name s = "__proto__") l).
Proof.
  induction l as [|s l IH] using rev_ind; [done|].
  rewrite bestCaseDict_snoc, filter_app, filter_cons, filter_nil. unfold assign.
  destruct (String.eqb_spec (bc_section_name s) "__proto__") as [Hp|Hp]; simpl.
  - destruct (decide (bc_section_name s = "__proto__")); [|done]. by rewrite last_snoc.
  - destruct (decide (bc_section_name s = "__proto__")); [done|]. by rewrite IH, app_nil_r.
Qed.

Lemma last_filter_None {A : Type} (P : A → Prop) `{!∀ x, Decision (P x)} (l : list A) :
  last (filter P l) = None ↔ ∀ x, x ∈ l → ¬ P x.
Proof.
  rewrite last_None. split.
  - intros Hnil x Hx HP.
    assert (Hin : x ∈ filter P l) by (by apply list_elem_of_filter).
    rewrite Hnil in Hin. by apply elem_of_nil in Hin.
  - intros Hall. destruct (filter P l) as [|x l'] eqn:Hf; [done|].
    assert (Hin : x ∈ filter P l) by (rewrite Hf; apply list_elem_of_here).
    apply list_elem_of_filter in Hin as [HP Hin]. by destruct (Hall x Hin).
Qed.

Lemma last_filter_NoDup (l : list best_case_section) (s : best_case_section) :
  NoDup (bc_section_name <$> l) → s ∈ l →
  last (filter (λ x, bc_section_name x = bc_section_name s) l) = Some s.
Proof.
  induction l as [|x l IH] using rev_ind; intros Hnodup Hs.
  - by apply elem_of_nil in Hs.
  - rewrite fmap_app in Hnodup. apply NoDup_app in Hnodup as (Hl & Hdisj & _).
    rewrite filter_app, filter_cons, filter_nil.
    apply elem_of_app in Hs as [Hs|Hs].
    + destruct (decide (bc_section_name x = bc_section_name s)) as [Heq|Hne].
      * exfalso. apply (Hdisj (bc_section_name s)).
        -- apply list_elem_of_fmap. by exists s.
        -- rewrite <- Heq. simpl. apply list_elem_of_here.
      * rewrite app_nil_r. by apply IH.
    + apply list_elem_of_singleton in Hs. subst x.
      destruct (decide (bc_section_name s = bc_section_name s)); [|done].
      by rewrite last_snoc.
Qed.

End BestCaseDictFacts.

(** X4. What LapReview finds in the object it reduces the best-case
    sections into, for a name other than ["__proto__"]: when a best-case
    section has that name, the last such section; when none has and no
    section is named ["__proto__"], [undefined] unless the name is one that
    every object inherits ([constructor], [toString], ...), in which case
    the lookup yields that built-in member although no best-case section
    has the name.  When the names are distinct and none is ["__proto__"],
    every best-case section is found under its own name. *)
Theorem best_case_dict_lookup
    (bestCaseSections : list best_case_section) (n : string) :
  n ≠ "__proto__" →
  (∀ s, last (filter (λ s, bc_section_name s = n) bestCaseSections) = Some s →
        LapReviewView.get (LapReviewView.bestCaseDict bestCaseSections) n
        = LapReviewView.TheSection s)
  ∧ ((∀ s, s ∈ bestCaseSections →
           bc_section_name s ≠ n ∧ bc_section_name s ≠ "__proto__") →
     LapReviewView.get (LapReviewView.bestCaseDict bestCaseSections) n
     = if bool_decide (n ∈ LapReviewView.objectPrototypeNames)
       then LapReviewView.Builtin else LapReviewView.Undefined)
  ∧ (NoDup (bc_section_name <$> bestCaseSections) →
     ∀ s, s ∈ bestCaseSections → bc_section_name s ≠ "__proto__" →
          LapReviewView.get (LapReviewView.bestCaseDict bestCaseSections)
            (bc_section_name s)
          = LapReviewView.TheSection s).
Proof.
  intros Hn. split_and!.
  - intros s Hs. unfold LapReviewView.get. rewrite bestCaseDict_own.
    destruct (String.eqb_spec n "__proto__"); [done|]. by rewrite Hs.
  - intros Hall. unfold LapReviewView.get. rewrite bestCaseDict_own, bestCaseDict_proto.
    destruct (String.eqb_spec n "__proto__"); [done|].
    rewrite (proj2 (last_filter_None (λ s, bc_section_name s = n) bestCaseSections))
      by (intros s Hs; by destruct (Hall s Hs)).
    by rewrite (proj2 (last_filter_None (λ s, bc_section_name s = "__proto__")
                         bestCaseSections))
      by (intros s Hs; by destruct (Hall s Hs)).
  - intros Hnodup s Hs Hp. unfold LapReviewView.get. rewrite bestCaseDict_own.
    destruct (String.eqb_spec (bc_section_name s) "__proto__"); [done|].
    by rewrite (last_filter_NoDup _ _ Hnodup Hs).
Qed.

Lemma best_case_dict_lookup_witness :
  LapReviewView.get (LapReviewView.bestCaseDict best3) "constructor"
  = LapReviewView.Builtin.
Proof.
  apply (proj1 (proj2 (best_case_dict_lookup best3 "constructor" ltac:(discriminate)))).
  intros s Hs. elem_of_cases Hs; subst s; split; discriminate.
Defined.

Example current_best_case_of_lap3 :
  LapReviewView.currentBestCase lap3 best3
    {| LapReview.currentSectionIndex := 1; LapReview.isPlaying := false |}
  = Some (LapReviewView.TheSection {| bc_section_name := "S2"; best_time_ms := Js.Num 28700 |}).
Proof. by vm_compute. Qed.

(** ** How times and gaps are printed *)

(** X5. Below a minute the total lap time is printed as plain seconds with
    three decimals; from a minute on it is printed as minutes, a colon, and
    the seconds zero-padded to two digits before the point (six characters
    in all). *)
Theorem total_time_shows_padded_seconds (ms : Z) :
  0 <= ms →
  (ms < 60000 → TotalLapTimeComparison.formatTime ms = Js.toFixed3 ms)
  ∧ (60000 <= ms →
     ∃ sec, TotalLapTimeComparison.formatTime ms
            = pretty (ms / 60000) +:+ ":" +:+ sec
            ∧ String.length sec = 6%nat
            ∧ (sec = Js.toFixed3 (ms mod 60000)
               ∨ sec = "0" +:+ Js.toFixed3 (ms mod 60000))).
Proof.
  intros Hms. unfold TotalLapTimeComparison.formatTime.
  rewrite Z.rem_mod_nonneg by lia.
  split.
  - intros Hlt. rewrite Z.div_small by lia. simpl. by rewrite Z.mod_small by lia.
  - intros Hge.
    assert (Hmin : 0 < ms / 60000) by (apply Z.div_str_pos; lia).
    destruct (Z.ltb_spec 0 (ms / 60000)); [|lia].
    exists (Js.padStart0 6 (Js.toFixed3 (ms mod 60000))).
    split; [done|]. unfold Js.padStart0. rewrite string_length_app.
    destruct (toFixed3_length_under_a_minute (ms mod 60000)) as [Hlen|Hlen];
      [apply Z.mod_pos_bound; lia| |]; rewrite Hlen.
    + split; [reflexivity|by right].
    + split; [reflexivity|by left].
Qed.

Lemma total_time_shows_padded_seconds_witness :
  ∃ sec, TotalLapTimeComparison.formatTime 65500 = pretty (65500 / 60000) +:+ ":" +:+ sec
         ∧ String.length sec = 6%nat
         ∧ (sec = Js.toFixed3 (65500 mod 60000)
            ∨ sec = "0" +:+ Js.toFixed3 (65500 mod 60000)).
Proof.
  apply (total_time_shows_padded_seconds 65500); lia.
Defined.

(** X27. TotalLapTimeComparison adds up the driver total and the
    composite total over the sections that carry a time only: dropping the
    sections without a numeric time from the lap and from the best case
    changes neither total nor what is rendered (as long as one best-case
    section with a time remains); and the component renders its three
    figures for every input except when both totals are 0. *)
Theorem totals_skip_sections_without_time
    (sections : list section) (bestCaseSections : list best_case_section)
    (isComposite : bool) :
  let sections' := filter (λ s, Js.isNum (driver_time_ms s) = true) sections in
  let bestCaseSections' :=
    filter (λ s, Js.isNum (best_time_ms s) = true) bestCaseSections in
  TotalLapTimeComparison.driverTotalTime sections
  = TotalLapTimeComparison.driverTotalTime sections'
  ∧ TotalLapTimeComparison.optimalTotalTime sections bestCaseSections true
    = TotalLapTimeComparison.optimalTotalTime sections' bestCaseSections' true
  ∧ (bestCaseSections' ≠ [] →
     TotalLapTimeComparison.optimalTotalTime sections bestCaseSections false
     = TotalLapTimeComparison.optimalTotalTime sections' bestCaseSections' false)
  ∧ (bestCaseSections' ≠ [] ∨ isComposite = true →
     TotalLapTimeComparison.render sections bestCaseSections isComposite
     = TotalLapTimeComparison.render sections' bestCaseSections' isComposite)
  ∧ (TotalLapTimeComparison.render sections bestCaseSections isComposite = None
     ↔ TotalLapTimeComparison.driverTotalTime sections = 0
       ∧ TotalLapTimeComparison.optimalTotalTime sections bestCaseSections isComposite = 0).
Proof.
  intros sections' bestCaseSections'.
  assert (Hd : TotalLapTimeComparison.driverTotalTime sections
               = TotalLapTimeComparison.driverTotalTime sections').
  { unfold TotalLapTimeComparison.driverTotalTime, sections'.
    by rewrite !foldl_or_zero, sumZ_filter_isNum. }
  assert (Hc : TotalLapTimeComparison.optimalTotalTime sections bestCaseSections true
               = TotalLapTimeComparison.optimalTotalTime sections' bestCaseSections' true).
  { exact Hd. }
  assert (Hb : bestCaseSections' ≠ [] →
     TotalLapTimeComparison.optimalTotalTime sections bestCaseSections false
     = TotalLapTimeComparison.optimalTotalTime sections' bestCaseSections' false).
  { intros Hne.
    pose proof (optimalTotalTime_best_case sections bestCaseSections) as H1.
    pose proof (optimalTotalTime_best_case sections' bestCaseSections' Hne) as H2.
    rewrite H2, H1.
    - unfold bestCaseSections'. by rewrite sumZ_filter_isNum.
    - intros ->. by apply Hne. }
  split_and!; [exact Hd|exact Hc|exact Hb| |].
  - intros Hor. unfold TotalLapTimeComparison.render, TotalLapTimeComparison.timeGap.
    rewrite <- Hd.
    replace (TotalLapTimeComparison.optimalTotalTime sections' bestCaseSections' isComposite)
      with (TotalLapTimeComparison.optimalTotalTime sections bestCaseSections isComposite);
      [done|].
    destruct isComposite; [exact Hc|].
    destruct Hor as [Hne|?]; [by apply Hb|done].
  - unfold TotalLapTimeComparison.render.
    destruct (Z.eqb_spec (TotalLapTimeComparison.driverTotalTime sections) 0) as [H0|H0];
      destruct (Z.eqb_spec
        (TotalLapTimeComparison.optimalTotalTime sections bestCaseSections isComposite) 0)
        as [H1|H1]; simpl; split; try done; intros [? ?]; done.
Qed.

Lemma totals_skip_sections_without_time_witness :
  TotalLapTimeComparison.render lap3_s2_empty best3_s2_empty false
  = TotalLapTimeComparison.render
      (filter (λ s, Js.isNum (driver_time_ms s) = true) lap3_s2_empty)
      (filter (λ s, Js.isNum (best_time_ms s) = true) best3_s2_empty) false.
Proof.
  apply (proj1 (proj2 (proj2 (proj2
           (totals_skip_sections_without_time lap3_s2_empty best3_s2_empty false))))).
  left. discriminate.
Defined.

(** X6. With the composite itself on screen the comparison is of the
    composite with itself: both totals are the same figure and the gap is
    exactly 0, shown as "0.000" with no sign, whatever the best-case list
    holds. *)
Theorem composite_view_has_zero_gap
    (sections : list section) (bestCaseSections : list best_case_section) :
  TotalLapTimeComparison.timeGap sections bestCaseSections true = 0
  ∧ (TotalLapTimeComparison.render sections bestCaseSections true = None
     ∨ ∃ t, TotalLapTimeComparison.render sections bestCaseSections true
            = Some {| TotalLapTimeComparison.driverTotal := t;
                      TotalLapTimeComparison.optimalTotal := t;
                      TotalLapTimeComparison.gap :=
                        TotalLapTimeComparison.GapValue "" "0.000" |}).
Proof.
  assert (Hgap : TotalLapTimeComparison.timeGap sections bestCaseSections true = 0).
  { unfold TotalLapTimeComparison.timeGap, TotalLapTimeComparison.optimalTotalTime,
      TotalLapTimeComparison.driverTotalTime. lia. }
  split; [exact Hgap|].
  unfold TotalLapTimeComparison.render. rewrite Hgap.
  destruct (_ && _); [by left|right].
  by exists (TotalLapTimeComparison.formatTime
               (TotalLapTimeComparison.driverTotalTime sections)).
Qed.

(** X7. The sign and the colour class of a section gap agree with the
    comparison of the two times: a driver slower than the composite gets
    "+" and [gap-positive], a faster one gets "-" and [gap-negative], with
    the same magnitude printed either way round; only equal times get no
    sign and no class; and a missing time on either side gives a dash. *)
Theorem section_gap_sign_matches_comparison (s : section) (d b : Z) :
  driver_time_ms s = Js.Num d →
  best_possible_time_ms s = Js.Num b →
  (b < d → SectionPanel.Gap (SectionPanel.optimalGap s)
           = SectionPanel.GapValue "gap-positive" ("+" +:+ Js.toFixed3 (d - b)))
  ∧ (d < b → SectionPanel.Gap (SectionPanel.optimalGap s)
             = SectionPanel.GapValue "gap-negative" ("-" +:+ Js.toFixed3 (b - d)))
  ∧ (SectionPanel.Gap (SectionPanel.optimalGap s) = SectionPanel.GapValue "" "0.000"
     ↔ d = b)
  ∧ (∀ x, SectionPanel.Gap (Js.sub Js.Undefined x) = SectionPanel.GapDash
          ∧ SectionPanel.Gap (Js.sub x Js.Undefined) = SectionPanel.GapDash).
Proof.
  intros Hd Hb. unfold SectionPanel.optimalGap. rewrite Hd, Hb. simpl.
  unfold SectionPanel.Gap, SectionPanel.formatTime. simpl.
  split_and!.
  - intros Hlt. destruct (Z.ltb_spec 0 (d - b)); [done|lia].
  - intros Hlt. destruct (Z.ltb_spec 0 (d - b)); [lia|].
    destruct (Z.ltb_spec (d - b) 0); [|lia].
    rewrite toFixed3_negative by lia.
    replace (- (d - b)) with (b - d) by lia. reflexivity.
  - split.
    + destruct (Z.ltb_spec 0 (d - b)); [done|].
      destruct (Z.ltb_spec (d - b) 0); [done|]. intros _. lia.
    + intros ->. by rewrite Z.sub_diag.
  - intros x. split; [done|]. unfold Js.sub. by destruct (Js.toNumber x).
Qed.

Lemma section_gap_sign_matches_comparison_witness :
  SectionPanel.Gap
    (SectionPanel.optimalGap
       {| section_id := Some 11; section_name := "S1"; driver_time_ms := Js.Num 34000;
          best_lap_time_ms := Js.Num 34000; best_possible_time_ms := Js.Num 34200;
          recommendation := None |})
  = SectionPanel.GapValue "gap-negative" ("-" +:+ Js.toFixed3 (34200 - 34000)).
Proof.
  apply (proj1 (proj2 (section_gap_sign_matches_comparison
           {| section_id := Some 11; section_name := "S1"; driver_time_ms := Js.Num 34000;
              best_lap_time_ms := Js.Num 34000; best_possible_time_ms := Js.Num 34200;
              recommendation := None |}
           34000 34200 eq_refl eq_refl))).
  lia.
Defined.

(** ** Stale data in the recommendation panel *)

(** X8. A failed request never clears what the hook holds: after it the
    panel shows its error box, never the no-data state, and, if a document
    had been loaded before, still shows that document under the error box;
    likewise, while the next request is in flight the old document stays on
    screen under the loading line. *)
Theorem failed_fetch_keeps_stale_document
    (ty : DraggableRecommendationPanel.rtype) (sectionName : option string)
    (st : UseApi.state DraggableRecommendationPanel.payload) (detail : option string) :
  (∀ bs, DraggableRecommendationPanel.blocks
         <$> DraggableRecommendationPanel.render (Some ty) sectionName
               (UseApi.fetch (UseApi.Failed detail) st) = Some bs →
         head bs = Some DraggableRecommendationPanel.ErrorBox
         ∧ DraggableRecommendationPanel.NoData ∉ bs)
  ∧ (∀ r, DraggableRecommendationPanel.recommendationOf (UseApi.data st) = Some r →
          DraggableRecommendationPanel.blocks
          <$> DraggableRecommendationPanel.render (Some ty) sectionName
                (UseApi.fetch (UseApi.Failed detail) st)
          = Some (DraggableRecommendationPanel.ErrorBox
                  :: DraggableRecommendationPanel.documentBlocks ty sectionName r)
          ∧ DraggableRecommendationPanel.blocks
            <$> DraggableRecommendationPanel.render (Some ty) sectionName (UseApi.fetchStart st)
            = Some (DraggableRecommendationPanel.Loading
                    :: DraggableRecommendationPanel.documentBlocks ty sectionName r)).
Proof.
  pose proof (failed_fetch_error_truthy detail st) as Herr.
  split.
  - intros bs. unfold DraggableRecommendationPanel.render.
    cbn [fmap option_fmap option_map DraggableRecommendationPanel.blocks].
    rewrite Herr. cbn [UseApi.loading UseApi.fetch UseApi.fetchEnd UseApi.fetchStart
                       DraggableRecommendationPanel.when negb andb app].
    intros [= <-]. split; [done|].
    intros Hin. apply elem_of_cons in Hin as [?|Hin]; [done|].
    rewrite app_nil_r in Hin.
    destruct (DraggableRecommendationPanel.recommendationOf _) as [r|];
      [|by apply elem_of_nil in Hin].
    pose proof (documentBlocks_no_request_block ty sectionName r) as Hall.
    rewrite Forall_forall in Hall. by specialize (Hall _ Hin).
  - intros r Hr. unfold DraggableRecommendationPanel.render.
    cbn [fmap option_fmap option_map DraggableRecommendationPanel.blocks].
    rewrite Herr.
    cbn [UseApi.loading UseApi.error UseApi.data UseApi.fetch UseApi.fetchEnd
         UseApi.fetchStart DraggableRecommendationPanel.when negb andb app
         DraggableRecommendationPanel.str_truthy].
    rewrite Hr, app_nil_r. done.
Qed.

Lemma failed_fetch_keeps_stale_document_witness :
  DraggableRecommendationPanel.blocks
  <$> DraggableRecommendationPanel.render (Some DraggableRecommendationPanel.TWeather) None
        (UseApi.fetch (UseApi.Failed None)
           {| UseApi.data := Some (DraggableRecommendationPanel.Documents [weather_doc]);
              UseApi.loading := false; UseApi.error := None |})
  = Some (DraggableRecommendationPanel.ErrorBox
          :: DraggableRecommendationPanel.documentBlocks
               DraggableRecommendationPanel.TWeather None weather_doc).
Proof.
  apply (proj2 (failed_fetch_keeps_stale_document DraggableRecommendationPanel.TWeather None
                  {| UseApi.data := Some (DraggableRecommendationPanel.Documents [weather_doc]);
                     UseApi.loading := false; UseApi.error := None |}
                  None) weather_doc eq_refl).
Defined.

(** ** From a selection to what LapReview requests *)

(** X9. For every selection RaceSelector can hand over (the composite of a
    track, or a track, race, driver and lap), LapReview shows the AI
    analysis card and requests the sections; the toggle is disabled exactly
    for the composite; the best-case list is requested exactly for a lap;
    for a lap the weather, pattern and coaching panels always have an
    endpoint, built from the selection's race and driver; for the composite
    the driver-specific panels (pattern, coaching) never send a request. *)
Theorem complete_selection_drives_requests
    (s : RaceSelector.selection) (selectedTrackId : option RaceSelector.value)
    (currentLapSectionId : option Z) :
  RaceSelector.complete s →
  LapReviewData.toggleShown (Some s) selectedTrackId = true
  ∧ LapReviewData.toggleDisabled (Some s) = RaceSelector.sel_isComposite s
  ∧ is_Some (LapReviewData.sectionsEndpoint (Some s) selectedTrackId)
  ∧ (is_Some (LapReviewData.bestCaseEndpoint (Some s) selectedTrackId)
     ↔ RaceSelector.sel_isComposite s = false)
  ∧ (RaceSelector.sel_isComposite s = false →
     ∃ r d, RaceSelector.raceId s = Some r ∧ RaceSelector.driverId s = Some d
            ∧ LapReviewData.panelEndpoint (Some DraggableRecommendationPanel.TWeather)
                currentLapSectionId (Some s)
              = Some (RecommendationApi.WeatherImpact r)
            ∧ LapReviewData.panelEndpoint (Some DraggableRecommendationPanel.TPattern)
                currentLapSectionId (Some s)
              = Some (RecommendationApi.PatternAnalysis r d)
            ∧ LapReviewData.panelEndpoint (Some DraggableRecommendationPanel.TCoaching)
                currentLapSectionId (Some s)
              = Some (RecommendationApi.CoachingInsights r d))
  ∧ (RaceSelector.sel_isComposite s = true →
     LapReviewData.panelEndpoint (Some DraggableRecommendationPanel.TPattern)
       currentLapSectionId (Some s) = None
     ∧ LapReviewData.panelEndpoint (Some DraggableRecommendationPanel.TCoaching)
         currentLapSectionId (Some s) = None).
Proof.
  intros [(Hc & Ht & Hd & Hl)|(Hc & Ht & (r & Hr & Hrt) & (d & Hd & Hdt) & (l & Hl & Hlt))];
    unfold LapReviewData.toggleShown, LapReviewData.toggleDisabled,
      LapReviewData.sectionsEndpoint, LapReviewData.bestCaseEndpoint,
      LapReviewData.panelEndpoint, LapReviewData.isComposite, LapReviewData.trackId,
      LapReviewData.lapId, LapReviewData.raceId, LapReviewData.driverId,
      RecommendationApi.endpointOf, RecommendationApi.given;
    simpl; rewrite ?Hc, ?Ht, ?Hd, ?Hl, ?Hr; simpl; rewrite ?Ht, ?Hrt, ?Hdt, ?Hlt; simpl.
  - split_and!; try done.
    intros _.
    by destruct (RaceSelector.raceId s) as [x|]; simpl;
      [destruct (RaceSelector.truthy x)|].
  - split_and!; try done.
    intros _. by exists r, d.
Qed.

Lemma complete_selection_drives_requests_witness :
  LapReviewData.toggleDisabled
    (Some {| RaceSelector.trackId := RaceSelector.VStr "7";
             RaceSelector.raceId := None;
             RaceSelector.driverId := None;
             RaceSelector.lapId := None;
             RaceSelector.lapNumber := None;
             RaceSelector.sel_isComposite := true |})
  = true.
Proof.
  refine (proj1 (proj2 (complete_selection_drives_requests
           {| RaceSelector.trackId := RaceSelector.VStr "7";
              RaceSelector.raceId := None;
              RaceSelector.driverId := None;
              RaceSelector.lapId := None;
              RaceSelector.lapNumber := None;
              RaceSelector.sel_isComposite := true |}
           None None (or_introl _)))).
  repeat split; reflexivity.
Defined.

(** X10. The analysis toggle can open a panel and switch between panels,
    but it can never close one: whatever the toggle reports (also [null],
    when the active button is clicked again), an open panel stays open
    until its own close button is used. *)
Theorem toggle_never_closes_panel
    (active : option DraggableRecommendationPanel.rtype)
    (events : list LapReviewData.panelEvent) :
  is_Some active →
  LapReviewData.ClosePanel ∉ events →
  is_Some (foldl LapReviewData.panelStep active events).
Proof.
  revert active. induction events as [|e events IH]; intros active Hact Hno; simpl.
  - done.
  - apply IH.
    + destruct e as [[ty|]|]; simpl; [done|done|].
      exfalso. apply Hno. apply list_elem_of_here.
    + intros Hin. apply Hno. by apply list_elem_of_further.
Qed.

Lemma toggle_never_closes_panel_witness :
  is_Some (foldl LapReviewData.panelStep (Some DraggableRecommendationPanel.TWeather)
             [ LapReviewData.ToggleChange None;
               LapReviewData.ToggleChange (Some DraggableRecommendationPanel.TPattern);
               LapReviewData.ToggleChange None ]).
Proof.
  apply toggle_never_closes_panel; [done|].
  intros Hin. elem_of_cases Hin.
Defined.

(** ** The selection cascade *)

Section CascadeFacts.
Import RaceSelector RaceSelectorForm.
Variable parseIntStr : string → option Z.

Lemma truthy_empty : truthy empty = false.
Proof. done. Qed.

Lemma cascaded_initial : cascaded initial.
Proof. by split_and!. Qed.

Lemma step_sel (c : config) (e : event) :
  sel (step parseIntStr c e).1 = (handle parseIntStr (data c) e (sel c)).1.
Proof.
  unfold step. by destruct (handle parseIntStr (data c) e (sel c)) as [st' cbs].
Qed.

Lemma run_cons (c : config) (e : event) (es : list event) :
  (run parseIntStr c (e :: es)).1 = (run parseIntStr (step parseIntStr c e).1 es).1.
Proof.
  cbn [run]. destruct (step parseIntStr c e) as [c1 cbs1]. cbn [fst].
  by destruct (run parseIntStr c1 es) as [c2 cbs2].
Qed.

Lemma offered_step_cascaded (u : ui) (c : config) (e : event) :
  offered parseIntStr u c e = true → cascaded (sel c) →
  cascaded (sel (step parseIntStr c e).1).
Proof.
  intros Hoff (Hlap & Hdrv & Hrace & Hcomp). rewrite step_sel. unfold cascaded.
  destruct e as [v|v|v|v|d']; simpl in *.
  - by split_and!.
  - apply andb_prop in Hoff as [Hen _].
    unfold raceSelectDisabled in Hen. apply negb_true_iff, orb_false_elim in Hen as [Ht _].
    apply negb_false_iff in Ht. by split_and!.
  - apply andb_prop in Hoff as [Hen Hin].
    unfold driverSelectDisabled in Hen. apply negb_true_iff, orb_false_elim in Hen as [Ht _].
    apply negb_false_iff in Ht. apply bool_decide_eq_true in Hin.
    unfold handleDriverChange.
    destruct (bool_decide (v = VStr "composite")) eqn:Hv; simpl.
    + by split_and!.
    + apply bool_decide_eq_false in Hv. split_and!; try done. simpl. intros Htruthy.
      unfold driverItems in Hin.
      apply elem_of_cons in Hin as [->|Hin]; [done|].
      apply elem_of_app in Hin as [Hin|Hin].
      * destruct (truthy (selectedTrack (sel c))); [|by apply elem_of_nil in Hin].
        by apply list_elem_of_singleton in Hin.
      * destruct (truthy (selectedRace (sel c))); [done|by apply elem_of_nil in Hin].
  - apply andb_prop in Hoff as [Hoff _]. apply andb_prop in Hoff as [Hshown Hen].
    unfold lapSelectShown in Hshown. apply negb_true_iff in Hshown.
    unfold lapSelectDisabled in Hen. apply negb_true_iff, orb_false_elim in Hen as [Hd _].
    apply negb_false_iff in Hd.
    split_and!; simpl; try done. by rewrite Hshown.
  - by split_and!.
Qed.

Lemma session_cascaded (tr : list (ui * event)) (c : config) :
  session parseIntStr c tr = true → cascaded (sel c) →
  cascaded (sel (run parseIntStr c (snd <$> tr)).1).
Proof.
  revert c. induction tr as [|[u e] tr IH]; intros c Hs Hc; [done|].
  rewrite fmap_cons, run_cons. simpl in Hs. apply andb_prop in Hs as [Hoff Hs].
  apply IH; [done|]. by apply (offered_step_cascaded u).
Qed.

End CascadeFacts.

(** X11. Whatever the user does with the form from the moment it is mounted
    (every change made on a [Select] that is enabled at that moment, to one
    of the items it lists at that moment, while data arrives at any time),
    the five state cells stay cascaded: a lap is chosen only under a driver,
    a driver only under a race, a race only under a track, and the composite
    has a track and neither a driver nor a lap. *)
Theorem selector_state_stays_cascaded
    (parseIntStr : string → option Z) (d : RaceSelector.fetched)
    (tr : list (RaceSelectorForm.ui * RaceSelector.event)) :
  RaceSelectorForm.session parseIntStr (RaceSelector.mount parseIntStr d).1 tr = true →
  RaceSelectorForm.cascaded
    (RaceSelector.sel
       (RaceSelector.run parseIntStr (RaceSelector.mount parseIntStr d).1 (snd <$> tr)).1).
Proof.
  intros Hs. apply session_cascaded; [done|]. apply cascaded_initial.
Qed.

Lemma selector_state_stays_cascaded_witness :
  RaceSelectorForm.cascaded
    (RaceSelector.sel
       (RaceSelector.run parseInt_sample (RaceSelector.mount parseInt_sample fetched_sample).1
          (snd <$> session_sample)).1).
Proof.
  apply selector_state_stays_cascaded. reflexivity.
Defined.

(** X12. In a cascaded state the effect's two tests come down to two cells:
    it reports nothing exactly when neither the composite nor a lap is
    chosen; with the composite chosen it reports the composite of the
    chosen track; with a lap chosen it reports that lap together with the
    chosen driver, race and track. *)
Theorem selector_reports_composite_or_lap
    (parseIntStr : string → option Z) (d : RaceSelector.fetched) (st : RaceSelector.state) :
  RaceSelectorForm.cascaded st →
  (RaceSelector.effect parseIntStr d st = []
   ↔ RaceSelector.isComposite st = false
     ∧ RaceSelector.truthy (RaceSelector.selectedLap st) = false)
  ∧ (RaceSelector.isComposite st = true →
     ∃ s cbs, RaceSelector.effect parseIntStr d st
              = RaceSelector.onSelectionChange (Some s) :: cbs
              ∧ RaceSelector.sel_isComposite s = true
              ∧ RaceSelector.trackId s = RaceSelector.selectedTrack st
              ∧ RaceSelector.driverId s = None ∧ RaceSelector.lapId s = None)
  ∧ (RaceSelector.truthy (RaceSelector.selectedLap st) = true →
     ∃ s cbs, RaceSelector.effect parseIntStr d st
              = RaceSelector.onSelectionChange (Some s) :: cbs
              ∧ RaceSelector.sel_isComposite s = false
              ∧ RaceSelector.trackId s = RaceSelector.selectedTrack st
              ∧ RaceSelector.raceId s = Some (RaceSelector.selectedRace st)
              ∧ RaceSelector.driverId s = Some (RaceSelector.selectedDriver st)
              ∧ RaceSelector.lapId s = Some (RaceSelector.selectedLap st)).
Proof.
  intros (Hlap & Hdrv & Hrace & Hcomp). unfold RaceSelector.effect.
  destruct (RaceSelector.isComposite st) eqn:Hc.
  - destruct (Hcomp eq_refl) as (Ht & Hd & Hl). rewrite Ht. simpl.
    split_and!.
    + split; [done|]. by intros [? _].
    + intros _. by eexists _, _.
    + intros Hl'. by rewrite Hl in Hl'.
  - simpl. destruct (RaceSelector.truthy (RaceSelector.selectedLap st)) eqn:Hl.
    + rewrite (Hrace (Hdrv (Hlap eq_refl))), (Hdrv (Hlap eq_refl)), (Hlap eq_refl). simpl.
      split_and!.
      * split; [done|]. by intros [_ ?].
      * done.
      * intros _. by eexists _, _.
    + rewrite !andb_false_r. by split_and!.
Qed.

Lemma selector_reports_composite_or_lap_witness :
  RaceSelector.effect parseInt_sample fetched_sample RaceSelector.initial = []
  ↔ RaceSelector.isComposite RaceSelector.initial = false
    ∧ RaceSelector.truthy (RaceSelector.selectedLap RaceSelector.initial) = false.
Proof.
  apply (selector_reports_composite_or_lap parseInt_sample fetched_sample RaceSelector.initial).
  by split_and!.
Defined.

(** ** Dragging the recommendation panel *)

Section PanelDragFacts.
Import RecommendationPanelDrag.

Lemma run_snoc (st : state) (es : list event) (e : event) :
  run st (es ++ [e]) = step (run st es) e.
Proof. unfold run. by rewrite foldl_app. Qed.

Lemma moves_keep_the_grip (ms : list point) (st : state) :
  isDragging st = true →
  isDragging (run st (MouseMove <$> ms)) = true
  ∧ dragStart (run st (MouseMove <$> ms)) = dragStart st.
Proof.
  intros Hd. induction ms as [|m ms IH] using rev_ind; [done|].
  rewrite fmap_app. change (MouseMove <$> [m]) with [MouseMove m].
  rewrite run_snoc. destruct IH as [IH1 IH2]. simpl.
  unfold handleMouseMove. by rewrite !IH1.
Qed.

End PanelDragFacts.

(** X13. While the recommendation panel is dragged by its header it keeps
    its place under the pointer: after a press on the header at [c] and any
    number of mouse moves, the last of them to [m], the panel has moved by
    exactly [m - c] from where it was, and it is still being dragged. *)
Theorem dragged_panel_follows_pointer
    (st : RecommendationPanelDrag.state)
    (c m : RecommendationPanelDrag.point) (ms : list RecommendationPanelDrag.point) :
  RecommendationPanelDrag.x
    (RecommendationPanelDrag.position
       (RecommendationPanelDrag.run st
          (RecommendationPanelDrag.MouseDown true c
           :: (RecommendationPanelDrag.MouseMove <$> ms ++ [m]))))
  = RecommendationPanelDrag.x (RecommendationPanelDrag.position st)
    + (RecommendationPanelDrag.x m - RecommendationPanelDrag.x c)
  ∧ RecommendationPanelDrag.y
      (RecommendationPanelDrag.position
         (RecommendationPanelDrag.run st
            (RecommendationPanelDrag.MouseDown true c
             :: (RecommendationPanelDrag.MouseMove <$> ms ++ [m]))))
    = RecommendationPanelDrag.y (RecommendationPanelDrag.position st)
      + (RecommendationPanelDrag.y m - RecommendationPanelDrag.y c)
  ∧ RecommendationPanelDrag.isDragging
      (RecommendationPanelDrag.run st
         (RecommendationPanelDrag.MouseDown true c
          :: (RecommendationPanelDrag.MouseMove <$> ms ++ [m])))
    = true.
Proof.
  change (RecommendationPanelDrag.run st
            (RecommendationPanelDrag.MouseDown true c
             :: (RecommendationPanelDrag.MouseMove <$> ms ++ [m])))
    with (RecommendationPanelDrag.run
            (RecommendationPanelDrag.handleMouseDown true c st)
            (RecommendationPanelDrag.MouseMove <$> ms ++ [m])).
  rewrite fmap_app.
  change (RecommendationPanelDrag.MouseMove <$> [m])
    with [RecommendationPanelDrag.MouseMove m].
  rewrite run_snoc.
  set (st0 := RecommendationPanelDrag.handleMouseDown true c st).
  destruct (moves_keep_the_grip ms st0 eq_refl) as [Hd Hs].
  cbn [RecommendationPanelDrag.step]. unfold RecommendationPanelDrag.handleMouseMove.
  rewrite !Hd. cbn [RecommendationPanelDrag.position RecommendationPanelDrag.isDragging
                    RecommendationPanelDrag.x RecommendationPanelDrag.y].
  rewrite Hs. subst st0. simpl.
  split_and!; [lia|lia|done].
Qed.

(** X14. The recommendation panel moves only when it is dragged by its
    header: while no drag is going on, presses anywhere else on the panel,
    mouse moves and releases leave its state as it is. *)
Theorem panel_rests_unless_header_is_pressed
    (st : RecommendationPanelDrag.state) (es : list RecommendationPanelDrag.event) :
  RecommendationPanelDrag.isDragging st = false →
  (∀ c, RecommendationPanelDrag.MouseDown true c ∉ es) →
  RecommendationPanelDrag.run st es = st.
Proof.
  intros Hd Hno. induction es as [|e es IH] using rev_ind; [done|].
  rewrite run_snoc, IH.
  - destruct e as [[|] c|c|]; simpl; rewrite ?Hd; try done.
    exfalso. apply (Hno c). apply elem_of_app. right. apply list_elem_of_here.
  - intros c Hin. apply (Hno c). apply elem_of_app. by left.
Qed.

Lemma panel_rests_unless_header_is_pressed_witness :
  RecommendationPanelDrag.run (RecommendationPanelDrag.initial 1280)
    [ RecommendationPanelDrag.MouseDown false
        {| RecommendationPanelDrag.x := 900; RecommendationPanelDrag.y := 300 |};
      RecommendationPanelDrag.MouseMove
        {| RecommendationPanelDrag.x := 700; RecommendationPanelDrag.y := 350 |};
      RecommendationPanelDrag.MouseUp ]
  = RecommendationPanelDrag.initial 1280.
Proof.
  apply panel_rests_unless_header_is_pressed; [reflexivity|].
  intros c Hin. elem_of_cases Hin.
Defined.

(** ** Dragging and resizing the section panel *)

Section SectionPanelFacts.
Import DraggableSectionPanel.
Variable fl : JsFloat.ops.

Lemma section_run_snoc (st : state) (es : list event) (e : event) :
  run fl st (es ++ [e]) = step fl (run fl st es) e.
Proof. unfold run. by rewrite foldl_app. Qed.

Lemma clamp_between (lo hi a : Q) :
  (lo <= hi)%Q → (lo <= Qmax lo (Qmin hi a))%Q ∧ (Qmax lo (Qmin hi a) <= hi)%Q.
Proof.
  intros Hle. split; [apply Q.le_max_l|].
  apply Q.max_lub; [done|apply Q.le_min_l].
Qed.

Lemma step_wellSized (st : state) (e : event) :
  wellSized (size st) → wellSized (size (step fl st e)).
Proof.
  intros Hst. destruct e as [t client container|client container iw ih|]; simpl.
  - by destruct t.
  - destruct (isDragging st || isResizing st); [|done].
    unfold handleMouseMove. destruct container as [r|]; [|done].
    destruct (isResizing st); [|by destruct (isDragging st)].
    right. eexists _, _. split; [reflexivity|].
    pose proof (clamp_between 350 800
      (JsFloat.add fl (grip_width (resizeStart st))
         (JsFloat.sub fl (x client) (grip_x (resizeStart st)))) ltac:(done)) as [? ?].
    pose proof (clamp_between 300 1000
      (JsFloat.add fl (grip_height (resizeStart st))
         (JsFloat.sub fl (y client) (grip_y (resizeStart st)))) ltac:(done)) as [? ?].
    by split_and!.
  - by destruct (isDragging st || isResizing st).
Qed.

Lemma run_wellSized (es : list event) (st : state) :
  wellSized (size st) → wellSized (size (run fl st es)).
Proof.
  intros Hst. induction es as [|e es IH] using rev_ind; [done|].
  rewrite section_run_snoc. by apply step_wellSized.
Qed.

End SectionPanelFacts.

(** X15. The section panel is never resized out of its limits: provided the
    size found in [localStorage] on mounting, if any, is the default one or
    one within the limits, then after every sequence of mouse events the
    size is again the default one ([450] wide, height [auto]) or has a width
    in [350, 800] and a height in [300, 1000]; and every size the panel
    writes back to [localStorage] is of the second kind, so what one
    session stores the next one can mount. *)
Theorem section_panel_size_within_limits
    (fl : JsFloat.ops)
    (savedPos : option DraggableSectionPanel.point)
    (savedSize : option DraggableSectionPanel.size_t)
    (es : list DraggableSectionPanel.event) :
  (∀ s, savedSize = Some s → DraggableSectionPanel.wellSized s) →
  DraggableSectionPanel.wellSized
    (DraggableSectionPanel.size
       (DraggableSectionPanel.run fl (DraggableSectionPanel.mount savedPos savedSize) es))
  ∧ ∀ s, DraggableSectionPanel.saved
           (DraggableSectionPanel.size
              (DraggableSectionPanel.run fl
                 (DraggableSectionPanel.mount savedPos savedSize) es)) = Some s →
         DraggableSectionPanel.resized s.
Proof.
  intros Hsaved.
  assert (Hw : DraggableSectionPanel.wellSized
                 (DraggableSectionPanel.size
                    (DraggableSectionPanel.run fl
                       (DraggableSectionPanel.mount savedPos savedSize) es))).
  { apply run_wellSized. simpl. destruct savedSize as [s|]; simpl; [by apply Hsaved|by left]. }
  split; [exact Hw|].
  intros s Hs. destruct Hw as [Hw|Hw].
  - rewrite Hw in Hs. done.
  - unfold DraggableSectionPanel.saved in Hs.
    destruct Hw as (w & h & Heq & ?). rewrite Heq in Hs. simpl in Hs.
    injection Hs as <-. by exists w, h.
Qed.

Lemma section_panel_size_within_limits_witness :
  DraggableSectionPanel.wellSized
    (DraggableSectionPanel.size
       (DraggableSectionPanel.run JsFloat.exact (DraggableSectionPanel.mount None None)
          [ DraggableSectionPanel.MouseDown DraggableSectionPanel.ResizeHandle
              {| DraggableSectionPanel.x := 495; DraggableSectionPanel.y := 365 |}
              (Some container_sample);
            DraggableSectionPanel.MouseMove
              {| DraggableSectionPanel.x := 1500; DraggableSectionPanel.y := 100 |}
              (Some container_sample) 1280 720;
            DraggableSectionPanel.MouseUp ])).
Proof.
  apply section_panel_size_within_limits. intros s Hs. discriminate Hs.
Defined.

(** X16. A move of the mouse while the section panel is dragged (and not
    resized) puts the panel inside the viewport: never left of or above
    its top left corner, and not beyond the place where the panel's right
    and bottom edges meet those of the viewport (or at [0] when the panel
    is larger than the viewport); the size is left as it is. *)
Theorem dragged_section_panel_stays_in_viewport
    (fl : JsFloat.ops) (st : DraggableSectionPanel.state)
    (client : DraggableSectionPanel.point) (r : DraggableSectionPanel.rect)
    (innerWidth innerHeight : Q) :
  DraggableSectionPanel.isDragging st = true →
  DraggableSectionPanel.isResizing st = false →
  (0 <= DraggableSectionPanel.x
          (DraggableSectionPanel.position
             (DraggableSectionPanel.step fl st
                (DraggableSectionPanel.MouseMove client (Some r) innerWidth innerHeight))))%Q
  ∧ (DraggableSectionPanel.x
       (DraggableSectionPanel.position
          (DraggableSectionPanel.step fl st
             (DraggableSectionPanel.MouseMove client (Some r) innerWidth innerHeight)))
     <= Qmax 0 (JsFloat.sub fl innerWidth (DraggableSectionPanel.rect_width r)))%Q
  ∧ (0 <= DraggableSectionPanel.y
            (DraggableSectionPanel.position
               (DraggableSectionPanel.step fl st
                  (DraggableSectionPanel.MouseMove client (Some r) innerWidth innerHeight))))%Q
  ∧ (DraggableSectionPanel.y
       (DraggableSectionPanel.position
          (DraggableSectionPanel.step fl st
             (DraggableSectionPanel.MouseMove client (Some r) innerWidth innerHeight)))
     <= Qmax 0 (JsFloat.sub fl innerHeight (DraggableSectionPanel.rect_height r)))%Q
  ∧ DraggableSectionPanel.size
      (DraggableSectionPanel.step fl st
         (DraggableSectionPanel.MouseMove client (Some r) innerWidth innerHeight))
    = DraggableSectionPanel.size st.
Proof.
  intros Hd Hr. cbn [DraggableSectionPanel.step]. rewrite Hd. cbn [orb].
  unfold DraggableSectionPanel.handleMouseMove. rewrite Hr, Hd. simpl.
  split_and!; try done.
  - apply Q.le_max_l.
  - apply Q.max_le_compat_l, Q.le_min_l.
  - apply Q.le_max_l.
  - apply Q.max_le_compat_l, Q.le_min_l.
Qed.

Lemma dragged_section_panel_stays_in_viewport_witness :
  (0 <= DraggableSectionPanel.x
          (DraggableSectionPanel.position
             (DraggableSectionPanel.step JsFloat.exact
                (DraggableSectionPanel.step JsFloat.exact DraggableSectionPanel.initial
                   (DraggableSectionPanel.MouseDown DraggableSectionPanel.Elsewhere
                      {| DraggableSectionPanel.x := 60; DraggableSectionPanel.y := 70 |}
                      (Some container_sample)))
                (DraggableSectionPanel.MouseMove
                   {| DraggableSectionPanel.x := -200; DraggableSectionPanel.y := 5000 |}
                   (Some container_sample) 1280 720))))%Q.
Proof.
  apply (dragged_section_panel_stays_in_viewport JsFloat.exact
           (DraggableSectionPanel.step JsFloat.exact DraggableSectionPanel.initial
              (DraggableSectionPanel.MouseDown DraggableSectionPanel.Elsewhere
                 {| DraggableSectionPanel.x := 60; DraggableSectionPanel.y := 70 |}
                 (Some container_sample)))
           {| DraggableSectionPanel.x := -200; DraggableSectionPanel.y := 5000 |}
           container_sample 1280 720); reflexivity.
Defined.

(** ** Zooming the interactive map *)

Section ZoomFacts.
Import InteractiveTrackMap.
Variable fl : JsFloat.ops.
Hypothesis Hfl : JsFloat.scales fl.

Lemma step_zoom_in_range (st : state) (e : event) :
  zoom_in_range st → zoom_in_range (step fl st e).
Proof.
  unfold zoom_in_range. intros [Hlo Hhi].
  assert (H0 : (0 <= scale st)%Q) by lra.
  destruct e as [deltaY client refs|button client|client| | | |]; simpl.
  - split; [apply Q.le_max_l|]. apply Q.max_lub; [done|apply Q.le_min_l].
  - unfold handleMouseDown. by destruct (button =? 0).
  - by destruct (isDragging st).
  - by destruct (isDragging st).
  - split; [|apply Q.le_min_l]. apply Q.min_glb; [done|].
    destruct (Hfl (scale st) (12 # 10) H0) as [Hup _].
    specialize (Hup ltac:(done)). lra.
  - split; [apply Q.le_max_l|]. apply Q.max_lub; [done|].
    destruct (Hfl (scale st) (8 # 10) H0) as [_ Hdown].
    specialize (Hdown ltac:(done) ltac:(done)). lra.
  - done.
Qed.

Lemma run_zoom_in_range (es : list event) (st : state) :
  zoom_in_range st → zoom_in_range (run fl st es).
Proof.
  intros Hst. induction es as [|e es IH] using rev_ind; [done|].
  unfold run. rewrite foldl_app. simpl. by apply step_zoom_in_range.
Qed.

End ZoomFacts.

Lemma exact_scales : JsFloat.scales JsFloat.exact.
Proof.
  intros s k Hs. simpl. split.
  - intros Hk. nra.
  - intros Hk0 Hk1. nra.
Defined.

(** X17. The zoom of the interactive map never leaves [0.5, 3]: starting
    from scale 1, after any sequence of wheel turns, presses of "+", "-"
    and Reset and mouse drags, the scale is between one half and three.
    (The "+" button only caps the scale from above and the "-" button only
    from below; that multiplying by 1.2 does not shrink and by 0.8 does not
    grow a positive number is what keeps the other bound.) *)
Theorem zoom_stays_between_half_and_three
    (fl : JsFloat.ops) (es : list InteractiveTrackMap.event) :
  JsFloat.scales fl →
  (1 # 2 <= InteractiveTrackMap.scale
              (InteractiveTrackMap.run fl InteractiveTrackMap.initial es))%Q
  ∧ (InteractiveTrackMap.scale
       (InteractiveTrackMap.run fl InteractiveTrackMap.initial es) <= 3)%Q.
Proof.
  intros Hfl. apply (run_zoom_in_range fl Hfl es InteractiveTrackMap.initial).
  by split.
Qed.

Lemma zoom_stays_between_half_and_three_witness :
  (InteractiveTrackMap.scale
     (InteractiveTrackMap.run JsFloat.exact InteractiveTrackMap.initial
        [ InteractiveTrackMap.ZoomIn; InteractiveTrackMap.ZoomIn; InteractiveTrackMap.ZoomIn;
          InteractiveTrackMap.ZoomIn; InteractiveTrackMap.ZoomIn; InteractiveTrackMap.ZoomIn;
          InteractiveTrackMap.ZoomIn ]) <= 3)%Q.
Proof.
  apply (zoom_stays_between_half_and_three JsFloat.exact). exact exact_scales.
Defined.

(** ** The track map and its request *)

(** X18. A failed request for the map data replaces the map by the error
    message: whatever map was held before, the view is the error box with
    the [detail] of the answer (or "Failed to fetch data."), never the
    default wording of [ErrorMessage]; the error also stays on screen when
    the track is deselected, instead of "Select a Track", and gives way to
    the loading view only when the next request starts. *)
Theorem failed_map_request_shows_error
    (st : UseApi.state TrackMap.track_data) (detail : option string)
    (currentSectionName hoveredSectionName : option string) :
  ∃ m, m = default "Failed to fetch data." (DraggableRecommendationPanel.keep detail)
       ∧ m ≠ ""
       ∧ TrackMap.render (UseApi.fetch (UseApi.Failed detail) st)
           currentSectionName hoveredSectionName = TrackMap.ErrorView m
       ∧ TrackMap.render (UseApi.noEndpoint (UseApi.fetch (UseApi.Failed detail) st))
           currentSectionName hoveredSectionName = TrackMap.ErrorView m
       ∧ TrackMap.render (UseApi.fetchStart (UseApi.fetch (UseApi.Failed detail) st))
           currentSectionName hoveredSectionName = TrackMap.LoadingView.
Proof.
  eexists. split; [reflexivity|].
  unfold TrackMap.render, TrackMap.ErrorMessage, DraggableRecommendationPanel.keep. simpl.
  destruct detail as [d|]; simpl; [|by split_and!].
  destruct (String.eqb_spec d "") as [->|Hd]; simpl; [by split_and!|].
  destruct (String.eqb_spec d ""); [done|]. simpl. by split_and!.
Qed.

(** X19. On the drawn map the red position marker and the highlight of the
    current section go together: the marker is drawn only if one of the
    section paths is drawn as the current one, and, for a non-empty current
    name, whenever one is; a path is drawn thick exactly when it is the
    current or the hovered one; and a map is only drawn with at least one
    section path. *)
Theorem position_marker_goes_with_current_section
    (api : UseApi.state TrackMap.track_data)
    (currentSectionName hoveredSectionName : option string)
    (title : option string) (paths : list TrackMap.drawn) (marker : bool) :
  TrackMap.render api currentSectionName hoveredSectionName = TrackMap.Map title paths marker →
  paths ≠ []
  ∧ (marker = true →
     ∃ p, p ∈ paths ∧ TrackMap.isCurrent p = true
          ∧ currentSectionName = Some (TrackMap.drawn_name p))
  ∧ (currentSectionName ≠ Some "" →
     (∃ p, p ∈ paths ∧ TrackMap.isCurrent p = true) → marker = true)
  ∧ (∀ p, p ∈ paths →
          (TrackMap.strokeWidth p = "14"
           ↔ TrackMap.isCurrent p = true ∨ TrackMap.isHovered p = true)).
Proof.
  unfold TrackMap.render.
  destruct (UseApi.loading api); [done|].
  destruct (DraggableRecommendationPanel.str_truthy (UseApi.error api)); [done|].
  destruct (UseApi.data api) as [td|]; [|done].
  set (secs := default [] (TrackMap.sections td)).
  destruct (DraggableRecommendationPanel.str_truthy (TrackMap.outline_path td)); [|done].
  simpl. destruct (bool_decide (length secs = 0%nat)) eqn:Hlen; [done|]. simpl.
  apply bool_decide_eq_false in Hlen.
  intros [= <- <- <-]. split_and!.
  - intros Hnil. apply fmap_nil_inv in Hnil. by rewrite Hnil in Hlen.
  - intros Hm. apply andb_prop in Hm as [_ Hm]. apply bool_decide_eq_true in Hm as [s Hs].
    apply find_some in Hs as [Hin Hs]. apply bool_decide_eq_true in Hs.
    exists (TrackMap.draw currentSectionName hoveredSectionName s).
    split_and!.
    + apply list_elem_of_fmap. exists s. split; [done|]. by apply list_elem_of_In.
    + simpl. by apply bool_decide_eq_true.
    + done.
  - intros Hne (p & Hp & Hcur). apply list_elem_of_fmap in Hp as (s & -> & Hs).
    simpl in Hcur. apply bool_decide_eq_true in Hcur.
    apply andb_true_intro. split.
    + rewrite Hcur in Hne |- *. simpl. destruct (String.eqb_spec (TrackMap.name s) ""); [|done].
      by destruct Hne; f_equal.
    + apply bool_decide_eq_true.
      destruct (List.find _ secs) as [s'|] eqn:Hf; [done|].
      apply list_elem_of_In in Hs.
      pose proof (find_none _ _ Hf s Hs) as Hnone. simpl in Hnone.
      apply bool_decide_eq_false in Hnone. by destruct Hnone.
  - intros p Hp. apply list_elem_of_fmap in Hp as (s & -> & Hs). simpl.
    destruct (bool_decide (currentSectionName = Some (TrackMap.name s)));
      destruct (bool_decide (hoveredSectionName = Some (TrackMap.name s))); simpl;
      split; intros; try done; auto; by destruct H.
Qed.

Lemma position_marker_goes_with_current_section_witness :
  ∃ p, p ∈ [ TrackMap.draw (Some "S2") None
               {| TrackMap.name := "S1"; TrackMap.path := Some "M 0 0 L 5 5";
                  TrackMap.color := Some "#ff0000" |};
             TrackMap.draw (Some "S2") None
               {| TrackMap.name := "S2"; TrackMap.path := Some "M 5 5 L 10 10";
                  TrackMap.color := None |} ]
       ∧ TrackMap.isCurrent p = true
       ∧ Some "S2" = Some (TrackMap.drawn_name p).
Proof.
  apply (proj1 (proj2 (position_marker_goes_with_current_section
           map_sample (Some "S2") None (Some "VIR") _ true eq_refl))).
  reflexivity.
Defined.

(** ** What the recommendation panel shows *)

Section PanelContentFacts.
Import DraggableRecommendationPanel.

Lemma elem_of_when {A : Type} (c : bool) (x y : A) :
  x ∈ when c y ↔ c = true ∧ x = y.
Proof.
  unfold when. destruct c.
  - rewrite list_elem_of_singleton. by split; [|intros [_ ?]].
  - split; [intros H; by apply elem_of_nil in H|by intros [? _]].
Qed.

Lemma filter_all_valid {A : Type} (f : A → bool) (l : list A) :
  Forall (λ x, f x = true) (List.filter f l).
Proof.
  apply List.Forall_forall. intros x Hx. by apply filter_In in Hx as [_ ?].
Qed.

Lemma keep_is_Some (o : option string) : str_truthy o = true → is_Some (keep o).
Proof.
  unfold keep. intros H. rewrite H. destruct o as [t|]; [by exists t|done].
Qed.

Lemma valid_card_has_content (sectionName : option string) (r : recommendation_item) :
  validRecommendation (Some r) = true →
  is_Some (card_focus (cardOf sectionName r))
  ∨ is_Some (card_action (cardOf sectionName r))
  ∨ is_Some (card_data_evidence (cardOf sectionName r))
  ∨ is_Some (card_theory (cardOf sectionName r)).
Proof.
  unfold validRecommendation, cardOf, str_or. simpl.
  destruct (str_truthy (focus r)) eqn:Hf; [left; by apply keep_is_Some|].
  destruct (str_truthy (action r)) eqn:Ha; [right; left; by apply keep_is_Some|].
  destruct (str_truthy (data_evidence r)) eqn:He;
    [right; right; left; by apply keep_is_Some|].
  intros Ht. right; right; right. by apply keep_is_Some.
Qed.

Lemma valid_cards (sectionName : option string) (l : list (option recommendation_item)) :
  Forall (λ o, validRecommendation o = true) l →
  length (omap (fmap (cardOf sectionName)) l) = length l
  ∧ Forall (λ c, is_Some (card_focus c) ∨ is_Some (card_action c)
                 ∨ is_Some (card_data_evidence c) ∨ is_Some (card_theory c))
      (omap (fmap (cardOf sectionName)) l).
Proof.
  induction 1 as [|o l Ho Hl [IHlen IHall]]; [by split|].
  destruct o as [r|]; [|done].
  change (omap (fmap (cardOf sectionName)) (Some r :: l))
    with (cardOf sectionName r :: omap (fmap (cardOf sectionName)) l).
  split; [simpl; by rewrite IHlen|].
  constructor; [by apply valid_card_has_content|done].
Qed.

End PanelContentFacts.

(** X20. An open recommendation panel is never blank, and the "No AI
    analysis available" message never shares the panel with anything else:
    whenever it is shown it is the only block, so it is never shown while
    loading, beside the error box, or under a document. *)
Theorem panel_is_never_blank
    (ty : DraggableRecommendationPanel.rtype) (sectionName : option string)
    (api : UseApi.state DraggableRecommendationPanel.payload)
    (v : DraggableRecommendationPanel.view) :
  DraggableRecommendationPanel.render (Some ty) sectionName api = Some v →
  DraggableRecommendationPanel.blocks v ≠ []
  ∧ (DraggableRecommendationPanel.NoData ∈ DraggableRecommendationPanel.blocks v →
     DraggableRecommendationPanel.blocks v = [DraggableRecommendationPanel.NoData]).
Proof.
  unfold DraggableRecommendationPanel.render. intros [= <-].
  cbn [DraggableRecommendationPanel.blocks].
  destruct (UseApi.loading api); destruct (DraggableRecommendationPanel.str_truthy _);
    destruct (DraggableRecommendationPanel.recommendationOf _) as [r|];
    cbn [DraggableRecommendationPanel.when negb andb app bool_decide];
    rewrite ?app_nil_r; (split; [done|]); try done;
    intros Hin; exfalso;
    repeat (apply elem_of_cons in Hin as [Hin|Hin]; [done|]);
    try (by apply elem_of_nil in Hin);
    pose proof (documentBlocks_no_request_block ty sectionName r) as Hall;
    rewrite Forall_forall in Hall; by specialize (Hall _ Hin).
Qed.

Lemma panel_is_never_blank_witness :
  DraggableRecommendationPanel.blocks
    {| DraggableRecommendationPanel.title := "Weather Impact Analysis";
       DraggableRecommendationPanel.blocks := [DraggableRecommendationPanel.NoData] |}
  ≠ [].
Proof.
  apply (proj1 (panel_is_never_blank DraggableRecommendationPanel.TWeather None
                  UseApi.initial _ eq_refl)).
Defined.

(** X21. Every card under "Recommendations" in the coaching panel has
    something to say: the heading is shown only over at least one card,
    there are at most as many cards as stored recommendations, and each
    card shows at least one of its focus, action, evidence and theory. *)
Theorem coaching_cards_have_content
    (sectionName : option string)
    (data : DraggableRecommendationPanel.structured_data_t)
    (cards : list DraggableRecommendationPanel.card) :
  DraggableRecommendationPanel.Recommendations cards
    ∈ DraggableRecommendationPanel.coachingBlocks sectionName data →
  cards ≠ []
  ∧ (∃ recs, DraggableRecommendationPanel.recommendations data = Some recs
             ∧ (length cards <= length recs)%nat)
  ∧ Forall (λ c, is_Some (DraggableRecommendationPanel.card_focus c)
                 ∨ is_Some (DraggableRecommendationPanel.card_action c)
                 ∨ is_Some (DraggableRecommendationPanel.card_data_evidence c)
                 ∨ is_Some (DraggableRecommendationPanel.card_theory c)) cards.
Proof.
  unfold DraggableRecommendationPanel.coachingBlocks. intros Hin.
  apply elem_of_app in Hin as [Hin|Hin].
  { destruct (DraggableRecommendationPanel.data_facts data); elem_of_cases Hin. }
  apply elem_of_app in Hin as [Hin|Hin].
  { destruct (DraggableRecommendationPanel.theories data); elem_of_cases Hin. }
  destruct (DraggableRecommendationPanel.recommendations data) as [recs|];
    [|by apply elem_of_nil in Hin].
  pose proof (filter_all_valid DraggableRecommendationPanel.validRecommendation recs) as Hvalid.
  pose proof (List.filter_length_le DraggableRecommendationPanel.validRecommendation recs)
    as Hlen.
  destruct (List.filter _ recs) as [|o l] eqn:Hf; [by apply elem_of_nil in Hin|].
  apply list_elem_of_singleton in Hin. injection Hin as Hin.
  assert (Hcards : cards
                   = omap (fmap (DraggableRecommendationPanel.cardOf sectionName)) (o :: l))
    by exact Hin.
  clear Hin. rewrite Hcards. clear Hcards cards.
  destruct (valid_cards sectionName (o :: l) Hvalid) as [Hl Hall].
  split_and!.
  - intros Hnil. rewrite Hnil in Hl. done.
  - exists recs. split; [done|]. rewrite Hl. exact Hlen.
  - exact Hall.
Qed.

Lemma coaching_cards_have_content_witness :
  ∃ recs, DraggableRecommendationPanel.recommendations coaching_sample = Some recs
          ∧ (1 <= length recs)%nat.
Proof.
  destruct (coaching_cards_have_content (Some "S2") coaching_sample
              [ {| DraggableRecommendationPanel.isCurrentSection := true;
                   DraggableRecommendationPanel.card_priority :=
                     DraggableRecommendationPanel.Element
                       (DraggableRecommendationPanel.Interpolated
                          (DraggableRecommendationPanel.Stat 1));
                   DraggableRecommendationPanel.card_focus := Some "Brake later into S2";
                   DraggableRecommendationPanel.card_action := None;
                   DraggableRecommendationPanel.card_data_evidence := None;
                   DraggableRecommendationPanel.card_theory := None |} ])
    as (_ & (recs & Hrecs & Hlen) & _).
  - apply list_elem_of_here.
  - exists recs. split; [exact Hrecs|exact Hlen].
Defined.

(** X22. The "Weather Conditions" heading never stands over an empty list:
    when it is shown, the air temperature, the humidity or the wind speed is
    listed under it.  The track temperature and the rain flag do not open
    the list by themselves: a summary that has only those shows no weather
    conditions at all. *)
Theorem weather_conditions_are_never_empty
    (r : DraggableRecommendationPanel.recommendation_doc)
    (data : DraggableRecommendationPanel.structured_data_t) :
  (∀ lines, DraggableRecommendationPanel.WeatherConditions lines
              ∈ DraggableRecommendationPanel.weatherBlocks r data →
     ∃ l, l ∈ lines
          ∧ match l with
            | DraggableRecommendationPanel.AirTemperature _ _
            | DraggableRecommendationPanel.Humidity _
            | DraggableRecommendationPanel.WindSpeed _ _ => True
            | _ => False
            end)
  ∧ (∀ ws, DraggableRecommendationPanel.weather_summary r = Some ws →
     DraggableRecommendationPanel.avg_air_temp_celsius ws
       = DraggableRecommendationPanel.StatUndefined →
     DraggableRecommendationPanel.avg_humidity_percent ws
       = DraggableRecommendationPanel.StatUndefined →
     DraggableRecommendationPanel.avg_wind_speed ws
       = DraggableRecommendationPanel.StatUndefined →
     ∀ lines, DraggableRecommendationPanel.WeatherConditions lines
                ∉ DraggableRecommendationPanel.weatherBlocks r data).
Proof.
  unfold DraggableRecommendationPanel.weatherBlocks.
  set (ws := default DraggableRecommendationPanel.no_weather
               (DraggableRecommendationPanel.weather_summary r)).
  split.
  - intros lines Hin.
    apply elem_of_app in Hin as [Hin|Hin].
    { destruct (DraggableRecommendationPanel.weatherNarrativeShown r); elem_of_cases Hin. }
    apply elem_of_app in Hin as [Hin|Hin]; [|by apply elem_of_when in Hin as [_ ?]].
    apply elem_of_when in Hin as [Hdef [= ->]].
    unfold DraggableRecommendationPanel.weatherLines.
    apply orb_prop in Hdef as [Hdef|Hwind]; [apply orb_prop in Hdef as [Hair|Hhum]|];
      eexists; (split; [rewrite !elem_of_app, !elem_of_when|]).
    + left. split; [exact Hair|reflexivity].
    + done.
    + do 2 right. left. split; [exact Hhum|reflexivity].
    + done.
    + do 3 right. left. split; [exact Hwind|reflexivity].
    + done.
  - intros ws' Hws Hair Hhum Hwind lines Hin.
    subst ws. rewrite Hws in Hin. simpl in Hin. rewrite Hair, Hhum, Hwind in Hin.
    simpl in Hin.
    apply elem_of_app in Hin as [Hin|Hin].
    { destruct (DraggableRecommendationPanel.weatherNarrativeShown r); elem_of_cases Hin. }
    by apply elem_of_when in Hin as [_ ?].
Qed.

Lemma weather_conditions_are_never_empty_witness :
  ∃ l, l ∈ DraggableRecommendationPanel.weatherLines
             (default DraggableRecommendationPanel.no_weather
                (DraggableRecommendationPanel.weather_summary weather_doc))
       ∧ match l with
         | DraggableRecommendationPanel.AirTemperature _ _
         | DraggableRecommendationPanel.Humidity _
         | DraggableRecommendationPanel.WindSpeed _ _ => True
         | _ => False
         end.
Proof.
  apply (proj1 (weather_conditions_are_never_empty weather_doc weather_data_sample)).
  apply list_elem_of_further, list_elem_of_here.
Defined.

(** ** The insight blocks and the percentages of the panel *)

Section PatternFacts.
Import DraggableRecommendationPanel.

Lemma elem_of_scoreBlock (b : block) (ca own : lap_stats) :
  b ∈ scoreBlock ca own →
  ∃ q, b = ConsistencyScore (ToFixed 1 (Some (q * 100)%Q)) ∧ (0 <= q)%Q.
Proof.
  unfold scoreBlock. intros Hin.
  destruct (if defined (consistency_score ca) then consistency_score ca
            else if defined (consistency_score own) then consistency_score own
                 else StatUndefined) as [q| |];
    [|by apply elem_of_nil in Hin|by apply elem_of_nil in Hin].
  apply elem_of_when in Hin as [Hq ->]. exists q. split; [done|].
  by apply Qle_bool_iff.
Qed.

Lemma patternBlocks_score (r : recommendation_doc) (data : structured_data_t) (p : shown) :
  ConsistencyScore p ∈ patternBlocks r data →
  ∃ q, p = ToFixed 1 (Some (q * 100)%Q) ∧ (0 <= q)%Q.
Proof.
  unfold patternBlocks. cbv zeta. rewrite !elem_of_app, !elem_of_when.
  intros Hin.
  repeat match goal with
         | H : _ ∨ _ |- _ => destruct H as [H|H]
         | H : _ ∧ _ = _ |- _ => destruct H as [_ H]; try discriminate H
         end.
  apply elem_of_scoreBlock in Hin as (q & [= ->] & Hq). by exists q.
Qed.

Lemma patternBlocks_hint (r : recommendation_doc) (data : structured_data_t) :
  CoachingHint ∈ patternBlocks r data
  ↔ nonEmpty (strengths (default no_patterns (section_patterns r))) = false
    ∧ nonEmpty (weaknesses (default no_patterns (section_patterns r))) = false
    ∧ str_truthy (consistency_trend (default no_trends (trends r))) = false
    ∧ str_truthy (improvement_trend (default no_trends (trends r))) = false.
Proof.
  unfold patternBlocks. cbv zeta. rewrite !elem_of_app, !elem_of_when.
  split.
  - intros Hin.
    repeat match goal with
           | H : _ ∨ _ |- _ => destruct H as [H|H]
           end;
      try (destruct Hin as [_ Hin]; discriminate Hin);
      try (apply elem_of_scoreBlock in Hin as (q & Hq & _); discriminate Hq).
    destruct Hin as [Hc _].
    repeat (apply andb_prop in Hc as [Hc ?]).
    rewrite !negb_true_iff in *. by split_and!.
  - intros (Hs & Hw & Ht1 & Ht2). rewrite Hs, Hw, Ht1, Ht2. simpl.
    repeat right. done.
Qed.

End PatternFacts.

Section PercentFacts.
Import DraggableRecommendationPanel.

Lemma weatherBlocks_percent_ok (r : recommendation_doc) (data : structured_data_t) :
  Forall (PanelFigures.percent_ok r) (weatherBlocks r data).
Proof.
  unfold weatherBlocks. cbv zeta. repeat (apply Forall_app; split).
  - destruct (weatherNarrativeShown r); by repeat constructor.
  - by apply Forall_when.
  - by apply Forall_when.
Qed.

Lemma rangeOf_element (ca own : lap_stats) (g : shown) :
  rangeOf ca own = Element g →
  ∃ l h, g = ToFixed 3 (Some (h - l)%Q) ∧ ¬ (l == 0)%Q ∧ ¬ (h == 0)%Q.
Proof.
  unfold rangeOf. cbv zeta.
  destruct (stat_or (min_lap_time_s ca) (min_lap_time_s own)) as [l| |]; [|done|done].
  unfold guard_stat at 1. destruct (Qeq_bool l 0) eqn:Hl; [done|].
  destruct (stat_or (max_lap_time_s ca) (max_lap_time_s own)) as [h| |]; [|done|done].
  unfold guard_stat. destruct (Qeq_bool h 0) eqn:Hh; [done|].
  intros [= <-]. exists l, h. split_and!; [done|by apply Qeq_bool_neq..].
Qed.

Lemma rangeOf_zero (ca own : lap_stats) :
  rangeOf ca own = ZeroText →
  ∃ q, (q == 0)%Q
       ∧ (stat_or (min_lap_time_s ca) (min_lap_time_s own) = Stat q
          ∨ stat_or (max_lap_time_s ca) (max_lap_time_s own) = Stat q).
Proof.
  unfold rangeOf. cbv zeta.
  destruct (stat_or (min_lap_time_s ca) (min_lap_time_s own)) as [l| |]; [|done|done].
  unfold guard_stat at 1. destruct (Qeq_bool l 0) eqn:Hl.
  { intros _. exists l. split; [by apply Qeq_bool_iff|by left]. }
  destruct (stat_or (max_lap_time_s ca) (max_lap_time_s own)) as [h| |]; [|done|done].
  unfold guard_stat. destruct (Qeq_bool h 0) eqn:Hh; [|done].
  intros _. exists h. split; [by apply Qeq_bool_iff|by right].
Qed.

Lemma patternBlocks_percent_ok (r : recommendation_doc) (data : structured_data_t) :
  Forall (PanelFigures.percent_ok r) (patternBlocks r data).
Proof.
  apply Forall_forall. intros b Hb. destruct b; try done.
  - by apply patternBlocks_score in Hb.
  - revert Hb. unfold patternBlocks. cbv zeta. rewrite !elem_of_app, !elem_of_when.
    intros Hin.
    repeat match goal with
           | H : _ ∨ _ |- _ => destruct H as [H|H]
           end;
      try (destruct Hin as [_ Hin]; discriminate Hin);
      try (apply elem_of_scoreBlock in Hin as (q & Hq & _); discriminate Hq).
    destruct Hin as [_ Hin]. injection Hin as -> _ -> _ ->. simpl.
    destruct (rangeOf _ _) as [g| |] eqn:Hr; [| |done].
    + by apply rangeOf_element in Hr.
    + apply rangeOf_zero in Hr as (q & Hq & [Hlo|Hhi]); exists q; (split; [done|]).
      * left. unfold fixed3. by rewrite Hlo.
      * right. unfold fixed3. by rewrite Hhi.
  - exfalso.
    revert Hb. unfold patternBlocks. cbv zeta. rewrite !elem_of_app, !elem_of_when.
    intros Hin.
    repeat match goal with
           | H : _ ∨ _ |- _ => destruct H as [H|H]
           end;
      try (destruct Hin as [_ Hin]; discriminate Hin).
    apply elem_of_scoreBlock in Hin as (q & Hq & _). discriminate Hq.
  - exfalso.
    revert Hb. unfold patternBlocks. cbv zeta. rewrite !elem_of_app, !elem_of_when.
    intros Hin.
    repeat match goal with
           | H : _ ∨ _ |- _ => destruct H as [H|H]
           end;
      try (destruct Hin as [_ Hin]; discriminate Hin).
    apply elem_of_scoreBlock in Hin as (q & Hq & _). discriminate Hq.
Qed.

Lemma coachingBlocks_percent_ok (r : recommendation_doc) (sectionName : option string)
    (data : structured_data_t) :
  Forall (PanelFigures.percent_ok r) (coachingBlocks sectionName data).
Proof.
  unfold coachingBlocks. repeat (apply Forall_app; split).
  - destruct (data_facts data); by repeat constructor.
  - destruct (theories data); by repeat constructor.
  - destruct (recommendations data) as [recs|]; [|constructor].
    destruct (List.filter validRecommendation recs); by repeat constructor.
Qed.

Lemma documentBlocks_percent_ok (ty : rtype) (sectionName : option string)
    (r : recommendation_doc) :
  Forall (PanelFigures.percent_ok r) (documentBlocks ty sectionName r).
Proof.
  unfold documentBlocks. repeat (apply Forall_app; split).
  - repeat constructor. by destruct ty.
  - destruct ty, (structured_data r); try constructor.
    apply coachingBlocks_percent_ok.
  - destruct ty; by repeat constructor.
  - destruct ty, (structured_data r); try constructor.
    + apply weatherBlocks_percent_ok.
    + apply patternBlocks_percent_ok.
  - unfold guard_stat. destruct (confidence_score r) as [q| |] eqn:Hc; try constructor.
    destruct (Qeq_bool q 0) eqn:Hq; repeat constructor.
    + exists q. split; [done|]. by apply Qeq_bool_iff.
    + exists q. split_and!; [done|done|]. by apply Qeq_bool_neq.
Qed.

End PercentFacts.

(** X23. In the driver pattern panel the pointer to the coaching panel
    ("For more detailed coaching insights ...") is shown exactly when the
    document gives none of the three insight blocks: no trends, no
    strengths and no areas for improvement. *)
Theorem pattern_hint_stands_in_for_insights
    (r : DraggableRecommendationPanel.recommendation_doc)
    (data : DraggableRecommendationPanel.structured_data_t) :
  DraggableRecommendationPanel.CoachingHint
    ∈ DraggableRecommendationPanel.patternBlocks r data
  ↔ (∀ c i, DraggableRecommendationPanel.Trends c i
              ∉ DraggableRecommendationPanel.patternBlocks r data)
    ∧ (∀ l, DraggableRecommendationPanel.Strengths l
              ∉ DraggableRecommendationPanel.patternBlocks r data)
    ∧ (∀ l, DraggableRecommendationPanel.Weaknesses l
              ∉ DraggableRecommendationPanel.patternBlocks r data).
Proof.
  rewrite patternBlocks_hint.
  unfold DraggableRecommendationPanel.patternBlocks. cbv zeta.
  set (t1 := DraggableRecommendationPanel.str_truthy
               (DraggableRecommendationPanel.consistency_trend _)).
  set (t2 := DraggableRecommendationPanel.str_truthy
               (DraggableRecommendationPanel.improvement_trend _)).
  set (s := DraggableRecommendationPanel.nonEmpty
              (DraggableRecommendationPanel.strengths _)).
  set (w := DraggableRecommendationPanel.nonEmpty
              (DraggableRecommendationPanel.weaknesses _)).
  split.
  - intros (Hs & Hw & Ht1 & Ht2). rewrite Hs, Hw, Ht1, Ht2.
    split_and!; intros; rewrite !elem_of_app, !elem_of_when; intros Hin;
      repeat match goal with
             | H : _ ∨ _ |- _ => destruct H as [H|H]
             end;
      try (destruct Hin as [Hc Hin]; (discriminate Hin || discriminate Hc));
      apply elem_of_scoreBlock in Hin as (q & Hq & _); discriminate Hq.
  - intros (HT & HS & HW).
    assert (Ht : t1 || t2 = false).
    { destruct (t1 || t2) eqn:Ht; [|done]. exfalso.
      eapply HT. rewrite !elem_of_app, !elem_of_when. do 5 right. left. done. }
    apply orb_false_elim in Ht as [Ht1 Ht2].
    split_and!; [|  |done|done].
    + destruct s eqn:Hs; [|done]. exfalso.
      eapply HS. rewrite !elem_of_app, !elem_of_when. do 6 right. left. done.
    + destruct w eqn:Hw; [|done]. exfalso.
      eapply HW. rewrite !elem_of_app, !elem_of_when. do 7 right. left. done.
Qed.

(** X24. The figures the panel computes are printed from numbers: a
    consistency score is shown only for a non-negative number, never for a
    missing or negative one; the AI confidence is shown only for a number
    other than 0, and the stray "0" in the place of the confidence line is
    there exactly when the confidence score is the number 0; the range under
    "Worst Lap" is shown only as the difference of a worst and a best time
    that are both numbers other than 0, and the stray "0" in its place comes
    from a best or worst time that is the number 0; the priority of a
    coaching card is replaced by a stray "0" exactly when it is the number
    0. *)
Theorem shown_percentages_are_numbers
    (ty : DraggableRecommendationPanel.rtype) (sectionName : option string)
    (r : DraggableRecommendationPanel.recommendation_doc) :
  (∀ p, DraggableRecommendationPanel.ConsistencyScore p
          ∈ DraggableRecommendationPanel.documentBlocks ty sectionName r →
     ∃ q, p = DraggableRecommendationPanel.ToFixed 1 (Some (q * 100)%Q) ∧ (0 <= q)%Q)
  ∧ (∀ p, DraggableRecommendationPanel.Confidence p
            ∈ DraggableRecommendationPanel.documentBlocks ty sectionName r →
       ∃ q, DraggableRecommendationPanel.confidence_score r
            = DraggableRecommendationPanel.Stat q
            ∧ p = DraggableRecommendationPanel.ToFixed 1 (Some (q * 100)%Q)
            ∧ ¬ (q == 0)%Q)
  ∧ (DraggableRecommendationPanel.StrayZero
       ∈ DraggableRecommendationPanel.documentBlocks ty sectionName r
     ↔ ∃ q, DraggableRecommendationPanel.confidence_score r
            = DraggableRecommendationPanel.Stat q ∧ (q == 0)%Q)
  ∧ (∀ best bestLap worst worstLap g,
       DraggableRecommendationPanel.BestWorst best bestLap worst worstLap
         (DraggableRecommendationPanel.Element g)
         ∈ DraggableRecommendationPanel.documentBlocks ty sectionName r →
       ∃ l h, g = DraggableRecommendationPanel.ToFixed 3 (Some (h - l)%Q)
              ∧ ¬ (l == 0)%Q ∧ ¬ (h == 0)%Q)
  ∧ (∀ best bestLap worst worstLap,
       DraggableRecommendationPanel.BestWorst best bestLap worst worstLap
         DraggableRecommendationPanel.ZeroText
         ∈ DraggableRecommendationPanel.documentBlocks ty sectionName r →
       ∃ q, (q == 0)%Q
            ∧ (best = DraggableRecommendationPanel.ToFixed 3 (Some q)
               ∨ worst = DraggableRecommendationPanel.ToFixed 3 (Some q)))
  ∧ (∀ item,
       DraggableRecommendationPanel.card_priority
         (DraggableRecommendationPanel.cardOf sectionName item)
       = DraggableRecommendationPanel.ZeroText
       ↔ ∃ q, DraggableRecommendationPanel.priority item
              = DraggableRecommendationPanel.Stat q ∧ (q == 0)%Q).
Proof.
  pose proof (documentBlocks_percent_ok ty sectionName r) as Hall.
  rewrite Forall_forall in Hall.
  split_and!.
  - intros p Hp. exact (Hall _ Hp).
  - intros p Hp. exact (Hall _ Hp).
  - split; [intros Hin; exact (Hall _ Hin)|].
    intros (q & Hc & Hq). unfold DraggableRecommendationPanel.documentBlocks.
    rewrite !elem_of_app. do 4 right.
    unfold DraggableRecommendationPanel.guard_stat. rewrite Hc.
    apply Qeq_bool_iff in Hq. rewrite Hq. apply list_elem_of_here.
  - intros best bestLap worst worstLap g Hin. exact (Hall _ Hin).
  - intros best bestLap worst worstLap Hin. exact (Hall _ Hin).
  - intros item. unfold DraggableRecommendationPanel.cardOf,
      DraggableRecommendationPanel.guard_stat. simpl.
    destruct (DraggableRecommendationPanel.priority item) as [q| |].
    + destruct (Qeq_bool q 0) eqn:Hq; split; try done.
      * intros _. exists q. split; [done|]. by apply Qeq_bool_iff.
      * intros (q' & [= <-] & Hz). apply Qeq_bool_iff in Hz. congruence.
    + split; [done|]. by intros (q & Hq & _).
    + split; [done|]. by intros (q & Hq & _).
Qed.

Lemma shown_percentages_are_numbers_witness :
  DraggableRecommendationPanel.StrayZero
    ∈ DraggableRecommendationPanel.documentBlocks DraggableRecommendationPanel.TWeather None
        (DraggableRecommendationPanel.withNarrative None None
           {| DraggableRecommendationPanel.recommendation_text := None;
              DraggableRecommendationPanel.analysis_text := None;
              DraggableRecommendationPanel.structured_data := None;
              DraggableRecommendationPanel.weather_summary := None;
              DraggableRecommendationPanel.trends := None;
              DraggableRecommendationPanel.section_patterns := None;
              DraggableRecommendationPanel.confidence_score :=
                DraggableRecommendationPanel.Stat 0 |}).
Proof.
  apply (proj2 (proj1 (proj2 (proj2 (shown_percentages_are_numbers _ _ _))))).
  exists 0%Q. split; reflexivity.
Defined.

(** ** The hook's error and the map image over time *)

Section UseApiRunFacts.
Context {A : Type}.
Import UseApiRun.

Lemma useApi_run_snoc (st : UseApi.state A) (rs : list (option (UseApi.response A)))
    (r : option (UseApi.response A)) :
  run st (rs ++ [r]) = round (run st rs) r.
Proof. unfold run. by rewrite foldl_app. Qed.

Lemma sent_snoc (rs : list (option (UseApi.response A))) (r : option (UseApi.response A)) :
  sent (rs ++ [r]) = sent rs ++ match r with Some resp => [resp] | None => [] end.
Proof. unfold sent. rewrite omap_app. by destruct r. Qed.

Lemma fetch_error_iff_failed (resp : UseApi.response A) (st : UseApi.state A) :
  DraggableRecommendationPanel.str_truthy (UseApi.error (UseApi.fetch resp st))
  = failed resp.
Proof.
  destruct resp as [body|detail|]; [done| |done].
  apply failed_fetch_error_truthy.
Qed.

End UseApiRunFacts.

(** X25. The error of [useApi] tells about the most recent request only:
    after any number of runs of the hook's effect, with or without an
    endpoint, an error is set exactly when the last request that was sent
    failed (a success or a cancellation clears what an earlier failure
    left); runs without an endpoint never clear it; and no request is left
    marked as loading. *)
Theorem useApi_error_is_of_last_request
    {A : Type} (rs : list (option (UseApi.response A))) :
  DraggableRecommendationPanel.str_truthy
    (UseApi.error (UseApiRun.run UseApi.initial rs))
  = match last (UseApiRun.sent rs) with
    | Some resp => UseApiRun.failed resp
    | None => false
    end
  ∧ UseApi.loading (UseApiRun.run UseApi.initial rs) = false
  ∧ (last rs = Some None → UseApi.data (UseApiRun.run UseApi.initial rs) = None).
Proof.
  induction rs as [|r rs IH] using rev_ind; [done|].
  rewrite useApi_run_snoc, sent_snoc. destruct IH as (IHe & IHl & _).
  destruct r as [resp|]; simpl.
  - rewrite last_snoc. split_and!.
    + apply (fetch_error_iff_failed resp).
    + by destruct resp.
    + rewrite last_snoc. done.
  - rewrite app_nil_r. by split_and!.
Qed.

Lemma useApi_error_is_of_last_request_witness :
  UseApi.data
    (UseApiRun.run (UseApi.initial (A := list section))
       [ Some (UseApi.Ok lap3); Some (UseApi.Failed None); None ])
  = None.
Proof.
  apply (proj2 (proj2 (useApi_error_is_of_last_request
           [ Some (UseApi.Ok lap3); Some (UseApi.Failed None); None ]))).
  reflexivity.
Defined.

Section MapImageFacts.
Import MapImage.
Variable API_URL : string.

Lemma app_truthy (s1 s2 : string) :
  DraggableRecommendationPanel.str_truthy (Some s2) = true →
  DraggableRecommendationPanel.str_truthy (Some (s1 +:+ s2)) = true.
Proof.
  simpl. destruct s2 as [|c s2]; [done|]. intros _.
  destruct s1 as [|c1 s1]; done.
Qed.

Lemma interactive_step_shown (st : state) (e : option RaceSelector.value * outcome) :
  shown st = true → e.2 ≠ Loaded None →
  shown (interactiveEffect API_URL st e) = true.
Proof.
  unfold shown, interactiveEffect. intros Hst He.
  destruct (RecommendationApi.given e.1); [|done].
  destruct e.2 as [[d|]|]; [|done|done]. simpl.
  apply andb_prop in Hst as [Hurl _].
  apply andb_true_intro. split; [|done].
  destruct (usesPdfImage d) eqn:Hpdf; [|done].
  apply andb_prop in Hpdf as [_ Himg].
  destruct (image_url d) as [u|]; [|done]. by apply app_truthy.
Qed.

End MapImageFacts.

(** X26. Once the interactive map shows an image it never goes back to the
    "Loading track map..." placeholder, as long as no answer has a [null]
    body: a rejected request, a deselected track, or the map data of a
    track that has no PDF image all leave an image on screen (in the last
    case the image loaded before, under the new track's data).  The
    plain PDF map differs: the map data of a track without a PDF image
    puts it back to the placeholder. *)
Theorem interactive_map_keeps_an_image
    (API_URL : string) (st : MapImage.state)
    (es : list (option RaceSelector.value * MapImage.outcome)) :
  MapImage.shown st = true →
  (∀ e, e ∈ es → e.2 ≠ MapImage.Loaded None) →
  MapImage.shown (foldl (MapImage.interactiveEffect API_URL) st es) = true
  ∧ ∀ t d, RaceSelector.truthy t = true → MapImage.usesPdfImage d = false →
      MapImage.imageUrl
        (MapImage.interactiveEffect API_URL
           (foldl (MapImage.interactiveEffect API_URL) st es)
           (Some t, MapImage.Loaded (Some d)))
      = MapImage.imageUrl (foldl (MapImage.interactiveEffect API_URL) st es)
      ∧ MapImage.shown
          (MapImage.pdfEffect API_URL
             (foldl (MapImage.interactiveEffect API_URL) st es)
             (Some t, MapImage.Loaded (Some d)))
        = false.
Proof.
  intros Hst Hes.
  assert (Hshown : MapImage.shown (foldl (MapImage.interactiveEffect API_URL) st es) = true).
  { induction es as [|e es IH] using rev_ind; [done|].
    rewrite foldl_app. simpl. apply interactive_step_shown.
    - apply IH. intros e' He'. apply Hes, elem_of_app. by left.
    - apply Hes, elem_of_app. right. apply list_elem_of_here. }
  split; [exact Hshown|].
  intros t d Ht Hd.
  unfold MapImage.interactiveEffect, MapImage.pdfEffect, MapImage.shown. simpl.
  rewrite Ht. simpl. by rewrite Hd.
Qed.

Lemma interactive_map_keeps_an_image_witness :
  MapImage.shown
    (foldl (MapImage.interactiveEffect "http://localhost:8000")
       {| MapImage.trackData :=
            Some {| MapImage.rendering_method := Some "pdf_image_direct";
                    MapImage.image_url := Some "/static/vir.png";
                    MapImage.track_name := Some "VIR" |};
          MapImage.imageUrl := Some "http://localhost:8000/static/vir.png" |}
       [ (Some (RaceSelector.VNum 3), MapImage.Rejected);
         (None, MapImage.Rejected);
         (Some (RaceSelector.VNum 4),
          MapImage.Loaded
            (Some {| MapImage.rendering_method := Some "svg";
                     MapImage.image_url := None;
                     MapImage.track_name := Some "Sebring" |})) ])
  = true.
Proof.
  apply interactive_map_keeps_an_image; [reflexivity|].
  intros e He. elem_of_cases He; subst e; simpl; discriminate.
Defined.
